(** * linux-healthcheck: the counter store, the sampler and the run controller

    A shallow embedding of [linux_healthcheck/main.py].

    Text is modelled by Rocq strings, one character per code point below 256.
    Python integers are [Z].  A value read from a SQLite column of a numeric
    storage class is a Python [int] or a Python [float]; floats are IEEE
    binary64 numbers ([PrimFloat.float]).  Python exceptions are the [Raise]
    results of an error monad; what the source threads through a connection
    object is an explicit [connection] value, and a command is a function on
    the state of its process.

    The outside of a run is an [environment]: the files that [open] finds,
    the wall clock, the credentials file and the answers of the mail server.
    The database file is read and written without failures of the disk. *)

From Stdlib Require Import ZArith List String Ascii Bool Lia Floats.
From Stdlib Require Import DecimalString DecimalZ DecimalPos.
From Stdlib Require DecimalFacts.
Import ListNotations.

Open Scope string_scope.
Open Scope Z_scope.

(** ** Python: exceptions, results, numbers *)

Inductive exn : Type :=
| OSError              (* open(): FileNotFoundError, PermissionError, ... *)
| UnicodeDecodeError   (* a subclass of ValueError, raised by fd.read() *)
| ValueError
| OverflowError
| TypeError
| KeyError (key : string)
| JSONDecodeError      (* a subclass of ValueError *)
| OperationalError     (* sqlite3: syntax error, no such table, ... *)
| IntegrityError       (* sqlite3: constraint failed *)
| ProgrammingError     (* sqlite3: more than one statement *)
| SMTPException.

Inductive result (A : Type) : Type :=
| Ok (a : A)
| Raise (e : exn).

Arguments Ok {A} a.
Arguments Raise {A} e.

Definition bind {A B : Type} (c : result A) (k : A -> result B) : result B :=
  match c with
  | Ok a => k a
  | Raise e => Raise e
  end.

Notation "x <- c ;; k" := (bind c (fun x => k))
  (at level 61, c at next level, right associativity).
Notation "' pat <- c ;; k" := (bind c (fun x => match x with pat => k end))
  (at level 61, pat pattern, c at next level, right associativity).

(** A Python number as this program meets them: [int(...)] gives an [int],
    a SQLite INTEGER column value is an [int], a REAL one is a [float]. *)
Inductive pynum : Type :=
| PyInt (z : Z)
| PyFloat (f : float).

(** [float(z)]: the nearest binary64 number, ties to even. *)
Definition Z2float (z : Z) : float :=
  SF2Prim (binary_normalize prec emax z 0 false).

(** [new > old] for an [int] on the left.  Python compares an int with a
    float by their exact values. *)
Definition py_gt (new : Z) (old : pynum) : bool :=
  match old with
  | PyInt b => b <? new
  | PyFloat f =>
      match Prim2SF f with
      | S754_nan => false
      | S754_infinity negative => negative
      | S754_zero _ => 0 <? new
      | S754_finite negative m e =>
          let v := if negative then Z.neg m else Z.pos m in
          if 0 <=? e then v * 2 ^ e <? new else v <? new * 2 ^ (- e)
      end
  end.

(** [new <= old], likewise. *)
Definition py_le (new : Z) (old : pynum) : bool :=
  match old with
  | PyInt b => new <=? b
  | PyFloat f =>
      match Prim2SF f with
      | S754_nan => false
      | S754_infinity negative => negb negative
      | S754_zero _ => new <=? 0
      | S754_finite negative m e =>
          let v := if negative then Z.neg m else Z.pos m in
          if 0 <=? e then new <=? v * 2 ^ e else new * 2 ^ (- e) <=? v
      end
  end.

(** [new - old] for an [int] on the left: exact on ints; with a float the int
    is converted first, which raises OverflowError when it is too large. *)
Definition py_sub (new : Z) (old : pynum) : result pynum :=
  match old with
  | PyInt b => Ok (PyInt (new - b))
  | PyFloat f =>
      match Prim2SF (Z2float new) with
      | S754_infinity _ => Raise OverflowError
      | _ => Ok (PyFloat (PrimFloat.sub (Z2float new) f))
      end
  end.

(** [sys.get_int_max_str_digits()], CPython's default: the most digits of an
    [int] that [int(text)] reads, and that [str], [repr] and [%d] write. *)
Definition int_max_str_digits : nat := 4300.

(** The decimal text of an integer. *)
Definition format_d_int (z : Z) : string :=
  NilZero.string_of_int (Z.to_int z).

(** The number of decimal digits of an integer. *)
Definition decimal_digits (z : Z) : nat :=
  String.length (format_d_int (Z.abs z)).

(** ["%d" % x]: an [int] is written in decimal, and one of more digits than
    the limit raises ValueError; a float is truncated towards zero first. *)
Definition format_d (x : pynum) : result string :=
  match x with
  | PyInt z =>
      if (int_max_str_digits <? decimal_digits z)%nat then Raise ValueError
      else Ok (format_d_int z)
  | PyFloat f =>
      match Prim2SF f with
      | S754_nan => Raise ValueError
      | S754_infinity _ => Raise OverflowError
      | S754_zero _ => Ok (format_d_int 0)
      | S754_finite negative m e =>
          let a := if 0 <=? e then Z.pos m * 2 ^ e else Z.pos m / 2 ^ (- e) in
          Ok (format_d_int (if negative then - a else a))
      end
  end.

(** ** SQLite: the store *)

(** SQLite's INTEGER storage class is a 64-bit signed integer. *)
Definition SQLITE_INT_MIN : Z := - 2 ^ 63.
Definition SQLITE_INT_MAX : Z := 2 ^ 63 - 1.

Definition fits_int64 (z : Z) : bool :=
  (SQLITE_INT_MIN <=? z) && (z <=? SQLITE_INT_MAX).

(** A value of the [count] column. *)
Inductive sqlnum : Type :=
| SqlInt (z : Z)
| SqlReal (f : float).

(** A decimal integer literal in statement text: an INTEGER when it fits
    64 bits, a floating-point literal (REAL) otherwise; the INTEGER affinity
    of the column leaves such a REAL as it is.  Which REAL SQLite makes of
    the digits is a matter of its conversion routine, which keeps the first
    digits and does not round every text to the nearest number.  It is taken
    here as the nearest binary64 number, which it is for 2^63 + 1; the
    properties below that name a stored value are about values within
    64 bits, or about this one. *)
Definition sql_integer_literal (z : Z) : sqlnum :=
  if fits_int64 z then SqlInt z else SqlReal (Z2float z).

(** What the [sqlite3] module hands back for a column value. *)
Definition py_of_sql (v : sqlnum) : pynum :=
  match v with
  | SqlInt z => PyInt z
  | SqlReal f => PyFloat f
  end.

(** A row of [counters]. *)
Record counter_row : Type := mk_counter {
  counter_id : Z;
  path : string;
  name : string
}.

(** A row of [counter_counts].  [access_time] is the text that
    [current_timestamp] gives, "YYYY-MM-DD HH:MM:SS"; such texts compare like
    the instants they denote, here seconds. *)
Record count_row : Type := mk_count {
  counter_count_id : Z;
  counters_counter_id : Z;
  count : sqlnum;
  access_time : Z
}.

(** What a catalog entry is: a table, or an index of a column, unique or
    not. *)
Inductive object_type : Type :=
| TableObject
| IndexObject (unique : bool) (column : string).

(** A row of [sqlite_master], the catalog of the database file. *)
Record schema_entry : Type := mk_entry {
  obj_type : object_type;
  obj_name : string;
  tbl_name : string
}.

Record database : Type := mk_database {
  sqlite_master : list schema_entry;
  counters : list counter_row;
  counter_counts : list count_row
}.

Definition empty_database : database := mk_database [] [] [].

Definition find_object (nm : string) (db : database) : option schema_entry :=
  find (fun e => String.eqb (obj_name e) nm) (sqlite_master db).

Definition has_table (nm : string) (db : database) : bool :=
  match find_object nm db with
  | Some e => match obj_type e with TableObject => true | IndexObject _ _ => false end
  | None => false
  end.

(** Whether a unique index of the column is on the table. *)
Definition has_unique_index (tbl col : string) (db : database) : bool :=
  existsb (fun e =>
             match obj_type e with
             | IndexObject true c => String.eqb (tbl_name e) tbl && String.eqb c col
             | _ => false
             end)
          (sqlite_master db).

Definition add_object (e : schema_entry) (db : database) : database :=
  mk_database (sqlite_master db ++ [e]) (counters db) (counter_counts db).

(** [create table if not exists nm (...)] *)
Definition create_table_if_not_exists (nm : string) (db : database)
  : result database :=
  match find_object nm db with
  | Some e =>
      match obj_type e with
      | TableObject => Ok db
      | IndexObject _ _ => Raise OperationalError  (* there is already an index named nm *)
      end
  | None => Ok (add_object (mk_entry TableObject nm nm) db)
  end.

Fixpoint has_duplicate (l : list string) : bool :=
  match l with
  | [] => false
  | x :: rest => existsb (String.eqb x) rest || has_duplicate rest
  end.

(** [create (unique) index if not exists nm on tbl(col)]; [dup] says whether
    the column holds a value twice, which a unique index refuses. *)
Definition create_index_if_not_exists (unique : bool) (nm tbl col : string)
    (dup : bool) (db : database) : result database :=
  if negb (has_table tbl db) then Raise OperationalError  (* no such table *)
  else
    match find_object nm db with
    | Some e =>
        match obj_type e with
        | IndexObject _ _ => Ok db
        | TableObject => Raise OperationalError  (* there is already a table named nm *)
        end
    | None =>
        if unique && dup then Raise IntegrityError
        else Ok (add_object (mk_entry (IndexObject unique col) nm tbl) db)
    end.

(** The rowid that an [integer primary key] column gets when the statement
    gives none: 1 in an empty table, else one more than the largest in the
    table (below the largest 64-bit integer, which this program's consecutive
    rowids do not reach). *)
Definition next_rowid (ids : list Z) : Z :=
  match ids with
  | [] => 1
  | i :: rest => fold_right Z.max i rest + 1
  end.

(** [insert or ignore into counters (path, name) values (p, n)] *)
Definition insert_or_ignore_counter (p n : string) (db : database)
  : result database :=
  if negb (has_table "counters" db) then Raise OperationalError
  else if has_unique_index "counters" "path" db
          && existsb (fun r => String.eqb (path r) p) (counters db)
  then Ok db
  else
    let r := mk_counter (next_rowid (map counter_id (counters db))) p n in
    Ok (mk_database (sqlite_master db) (counters db ++ [r]) (counter_counts db)).

(** [insert into counter_counts (counters_counter_id, count) values (id, c)]
    at time [now]. *)
Definition insert_count (id : Z) (c : sqlnum) (now : Z) (db : database)
  : result database :=
  if negb (has_table "counter_counts" db) then Raise OperationalError
  else
    let r := mk_count (next_rowid (map counter_count_id (counter_counts db)))
                      id c now in
    Ok (mk_database (sqlite_master db) (counters db) (counter_counts db ++ [r])).

(** [select counter_id, path, name from counters] *)
Definition select_counters (db : database) : result (list counter_row) :=
  if has_table "counters" db then Ok (counters db) else Raise OperationalError.

(** The order of the index [counter_counts_access_time]: by [access_time],
    then by rowid. *)
Definition index_ltb (a b : count_row) : bool :=
  (access_time a <? access_time b)
  || ((access_time a =? access_time b)
      && (counter_count_id a <? counter_count_id b)).

(** The last row in index order. *)
Fixpoint newest (rows : list count_row) : option count_row :=
  match rows with
  | [] => None
  | r :: rest =>
      match newest rest with
      | None => Some r
      | Some b => if index_ltb b r then Some r else Some b
      end
  end.

(** [select max(access_time), count from counter_counts
     where counters_counter_id = id]: one row always; with no matching row
    both columns are NULL ([None]), else the bare column [count] comes from a
    row that holds the maximum, here the one the index gives last. *)
Definition select_latest (id : Z) (db : database)
  : result (option (Z * sqlnum)) :=
  if negb (has_table "counter_counts" db) then Raise OperationalError
  else
    match newest (filter (fun r => counters_counter_id r =? id)
                         (counter_counts db)) with
    | None => Ok None
    | Some r => Ok (Some (access_time r, count r))
    end.

(** ** SQLite: statements and the connection *)

(** The statements this program executes, one constructor for each text.
    The texts are constants of the source, except the two it builds with
    [%]; see [ADD_COUNTER_SQL] below for the text-level reading of the first
    of them. *)
Inductive statement : Type :=
| CreateCounters             (* create table if not exists counters (...) *)
| CreateCountersPath         (* create unique index if not exists counters_path on counters(path) *)
| CreateCounterCounts        (* create table if not exists counter_counts (...) *)
| CreateCounterCountsAccessTime  (* create index if not exists counter_counts_access_time on counter_counts(access_time) *)
| EmptyStatement             (* white space and a semicolon *)
| InsertOrIgnoreCounter (p n : string)
| InsertCount (id : Z) (c : sqlnum)
| SelectCounters
| SelectLatest (id : Z).

(** What a cursor holds after [execute]. *)
Inductive rows : Type :=
| NoRows
| CounterRows (l : list counter_row)
| LatestRow (r : option (Z * sqlnum)).

(** A [sqlite3.Connection] on the database file: the committed content of
    the file and, while a transaction is open, the content as the transaction
    has changed it.  The module opens a transaction before an INSERT and
    leaves other statements in autocommit mode. *)
Record connection : Type := mk_connection {
  file_mode : Z;
  disk : database;
  pending : option database
}.

(** The content that the connection sees. *)
Definition work (conn : connection) : database :=
  match pending conn with
  | Some db => db
  | None => disk conn
  end.

Definition is_dml (s : statement) : bool :=
  match s with
  | InsertOrIgnoreCounter _ _ | InsertCount _ _ => true
  | _ => false
  end.

Definition run_statement (s : statement) (now : Z) (db : database)
  : result (database * rows) :=
  match s with
  | CreateCounters =>
      db' <- create_table_if_not_exists "counters" db ;; Ok (db', NoRows)
  | CreateCountersPath =>
      db' <- create_index_if_not_exists true "counters_path" "counters" "path"
               (has_duplicate (map path (counters db))) db ;;
      Ok (db', NoRows)
  | CreateCounterCounts =>
      db' <- create_table_if_not_exists "counter_counts" db ;; Ok (db', NoRows)
  | CreateCounterCountsAccessTime =>
      db' <- create_index_if_not_exists false "counter_counts_access_time"
               "counter_counts" "access_time" false db ;;
      Ok (db', NoRows)
  | EmptyStatement => Ok (db, NoRows)
  | InsertOrIgnoreCounter p n =>
      db' <- insert_or_ignore_counter p n db ;; Ok (db', NoRows)
  | InsertCount id c =>
      db' <- insert_count id c now db ;; Ok (db', NoRows)
  | SelectCounters =>
      l <- select_counters db ;; Ok (db, CounterRows l)
  | SelectLatest id =>
      r <- select_latest id db ;; Ok (db, LatestRow r)
  end.

(** [cursor.execute]: a statement that fails changes nothing; one that
    succeeds inside a transaction changes what the transaction holds; an
    INSERT outside a transaction opens one; any other statement outside a
    transaction is committed at once. *)
Definition execute (s : statement) (now : Z) (conn : connection)
  : result rows * connection :=
  match run_statement s now (work conn) with
  | Raise e => (Raise e, conn)
  | Ok (db', r) =>
      match pending conn with
      | Some _ => (Ok r, mk_connection (file_mode conn) (disk conn) (Some db'))
      | None =>
          if is_dml s
          then (Ok r, mk_connection (file_mode conn) (disk conn) (Some db'))
          else (Ok r, mk_connection (file_mode conn) db' None)
      end
  end.

(** [conn.commit()] *)
Definition commit (conn : connection) : connection :=
  mk_connection (file_mode conn) (work conn) None.

(** ** Python: [int(text)] *)

Definition code (c : ascii) : Z := Z.of_nat (nat_of_ascii c).

(** The characters [int] skips around the number: tab, line feed, vertical
    tab, form feed, carriage return, space, and below 256 also next line and
    no-break space. *)
Definition is_py_space (c : ascii) : bool :=
  let n := code c in
  ((9 <=? n) && (n <=? 13)) || (n =? 32) || (n =? 133) || (n =? 160).

Definition is_digit (c : ascii) : bool :=
  let n := code c in (48 <=? n) && (n <=? 57).

Definition digit_value (c : ascii) : Z := code c - 48.

Fixpoint skip_spaces (s : string) : string :=
  match s with
  | String c rest => if is_py_space c then skip_spaces rest else s
  | EmptyString => s
  end.

(** Digits with single underscores between them.  [acc] is the value so far,
    [n] the number of digits so far; the result is the value, the number of
    digits and the text left, or [None] on a misplaced underscore. *)
Fixpoint scan_digits (s : string) (acc : Z) (n : nat)
  : option (Z * nat * string) :=
  match s with
  | String c rest =>
      if is_digit c then scan_digits rest (10 * acc + digit_value c) (S n)
      else if Ascii.eqb c "_" then
        match n, rest with
        | S _, String c' _ =>
            if is_digit c' then scan_digits rest acc n else None
        | _, _ => None
        end
      else Some (acc, n, s)
  | EmptyString => Some (acc, n, s)
  end.

(** [int(s)] for a [str]: optional space, an optional sign, decimal digits,
    optional space; anything else raises ValueError. *)
Definition py_int (s : string) : result Z :=
  let s1 := skip_spaces s in
  let '(negative, s2) :=
    match s1 with
    | String "-" rest => (true, rest)
    | String "+" rest => (false, rest)
    | _ => (false, s1)
    end in
  match scan_digits s2 0 0 with
  | None => Raise ValueError
  | Some (v, n, s3) =>
      match n, skip_spaces s3 with
      | O, _ => Raise ValueError
      | S _, EmptyString =>
          if (int_max_str_digits <? n)%nat then Raise ValueError
          else Ok (if negative then - v else v)
      | S _, String _ _ => Raise ValueError
      end
  end.

(** ** The environment of a run *)

(** What [open(path, "r")] and [fd.read()] find at a path. *)
Inductive file_state : Type :=
| Missing                  (* no such file, or not readable, or a directory *)
| Undecodable              (* bytes that are not text in the locale's encoding *)
| Text (content : string).

(** A mail message as [send_mail] builds it: a multipart container with
    three headers and text parts. *)
Inductive jvalue : Type :=
| JString (s : string)
| JInt (z : Z).

Record message : Type := mk_message {
  msg_from : jvalue;
  msg_to : jvalue;
  msg_subject : string;
  msg_parts : list string
}.

(** What delivery asks of the outside: the credentials file, then the mail
    server through [smtplib]. *)
Inductive request : Type :=
| OpenCredentials
| Connect (host port : jvalue)
| StartTls
| Login (user password : jvalue)
| SendMessage (m : message)
| Quit.

Record environment : Type := mk_environment {
  files : string -> file_state;
  (** the wall clock when the row after [n] rows of [counter_counts] is inserted *)
  clock : nat -> Z;
  (** ~/.linux-healthcheck.credentials *)
  credentials_file : file_state;
  (** whether the mail server answers a request with success *)
  smtp_accepts : request -> bool
}.

(** ** The process: a state and error monad *)

Record process : Type := mk_process {
  conn : connection;
  (** the requests made for delivery so far, oldest first *)
  mail_log : list request
}.

Definition M (A : Type) : Type := process -> result A * process.

Definition ret {A : Type} (a : A) : M A := fun p => (Ok a, p).

Definition raise {A : Type} (e : exn) : M A := fun p => (Raise e, p).

Definition mbind {A B : Type} (c : M A) (k : A -> M B) : M B :=
  fun p =>
    match c p with
    | (Ok a, p') => k a p'
    | (Raise e, p') => (Raise e, p')
    end.

Definition lift {A : Type} (r : result A) : M A := fun p => (r, p).

Notation "x <-- c ;;; k" := (mbind c (fun x => k))
  (at level 61, c at next level, right associativity).
Notation "c ;;; k" := (mbind c (fun _ => k))
  (at level 61, right associativity).

(** [conn.cursor().execute(s)] on the process's connection. *)
Definition cursor_execute (env : environment) (s : statement) : M rows :=
  fun p =>
    let now := clock env (List.length (counter_counts (work (conn p)))) in
    let '(r, c') := execute s now (conn p) in
    (r, mk_process c' (mail_log p)).

Definition conn_commit : M unit :=
  fun p => (Ok tt, mk_process (commit (conn p)) (mail_log p)).

Definition smtp_do (env : environment) (r : request) : M unit :=
  fun p =>
    let p' := mk_process (conn p) (mail_log p ++ [r]) in
    if smtp_accepts env r then (Ok tt, p') else (Raise SMTPException, p').

(** ** SQLite: reading the text of the interpolated INSERT

    [add_counter] builds its statement with [ADD_COUNTER_SQL % (path, name)],
    so what SQLite executes depends on how it reads the resulting text.  The
    tokenizer below follows SQLite's for white space, words, string literals
    (a doubled quote inside a literal stands for one quote), parentheses,
    commas, semicolons and [||]; every other character is kept as a token of
    its own.  The parser accepts the statement of the template whose two
    values are string literals joined by [||] and answers every other text
    with the syntax error that SQLite gives for the texts used in this file;
    SQLite's grammar has more expressions than these. *)

Inductive token : Type :=
| TWord (w : string)
| TString (s : string)
| TLParen
| TRParen
| TComma
| TSemi
| TConcat
| TOther (c : ascii)
| TUnterminated.

Inductive lex_state : Type :=
| LStart
| LSpace
| LWord (acc : string)
| LString (acc : string)
| LStringQuote (acc : string)   (* a quote inside a literal: its end, or half of a doubled quote *)
| LBar.

Definition snoc (s : string) (c : ascii) : string := s ++ String c "".

(** Space, tab, line feed, form feed, carriage return start white space. *)
Definition is_sql_space_start (c : ascii) : bool :=
  let n := code c in
  (n =? 9) || (n =? 10) || (n =? 12) || (n =? 13) || (n =? 32).

(** A run of white space also goes through a vertical tab. *)
Definition is_sql_space (c : ascii) : bool :=
  let n := code c in ((9 <=? n) && (n <=? 13)) || (n =? 32).

(** Letters, digits, underscore, dollar and every character from 128 on. *)
Definition is_id_char (c : ascii) : bool :=
  let n := code c in
  ((48 <=? n) && (n <=? 57)) || ((65 <=? n) && (n <=? 90))
  || ((97 <=? n) && (n <=? 122)) || (n =? 95) || (n =? 36) || (128 <=? n).

Definition quote : ascii := "039"%char.

(** One character read where a token may start. *)
Definition lex_start (c : ascii) : list token * lex_state :=
  if is_sql_space_start c then ([], LSpace)
  else if Ascii.eqb c quote then ([], LString "")
  else if is_id_char c then ([], LWord (String c ""))
  else if Ascii.eqb c "(" then ([TLParen], LStart)
  else if Ascii.eqb c ")" then ([TRParen], LStart)
  else if Ascii.eqb c "," then ([TComma], LStart)
  else if Ascii.eqb c ";" then ([TSemi], LStart)
  else if Ascii.eqb c "|" then ([], LBar)
  else ([TOther c], LStart).

Definition lex_step (st : lex_state) (c : ascii) : list token * lex_state :=
  match st with
  | LStart => lex_start c
  | LSpace => if is_sql_space c then ([], LSpace) else lex_start c
  | LWord acc =>
      if is_id_char c then ([], LWord (snoc acc c))
      else let '(toks, st') := lex_start c in (TWord acc :: toks, st')
  | LString acc =>
      if Ascii.eqb c quote then ([], LStringQuote acc)
      else ([], LString (snoc acc c))
  | LStringQuote acc =>
      if Ascii.eqb c quote then ([], LString (snoc acc quote))
      else let '(toks, st') := lex_start c in (TString acc :: toks, st')
  | LBar =>
      if Ascii.eqb c "|" then ([TConcat], LStart)
      else let '(toks, st') := lex_start c in (TOther "|" :: toks, st')
  end.

Definition lex_end (st : lex_state) : list token :=
  match st with
  | LStart | LSpace => []
  | LWord acc => [TWord acc]
  | LString _ => [TUnterminated]
  | LStringQuote acc => [TString acc]
  | LBar => [TOther "|"]
  end.

Fixpoint lex (st : lex_state) (s : string) : list token :=
  match s with
  | EmptyString => lex_end st
  | String c rest => let '(toks, st') := lex_step st c in toks ++ lex st' rest
  end.

(** A value: string literals joined by [||]. *)
Fixpoint parse_value (toks : list token) : option (string * list token) :=
  match toks with
  | TString s :: TConcat :: rest =>
      match parse_value rest with
      | Some (s', rest') => Some (s ++ s', rest')
      | None => None
      end
  | TString s :: rest => Some (s, rest)
  | _ => None
  end.

Definition insert_counter_head : list token :=
  [TWord "insert"; TWord "or"; TWord "ignore"; TWord "into"; TWord "counters";
   TLParen; TWord "path"; TComma; TWord "name"; TRParen; TWord "values"].

Definition token_eqb (a b : token) : bool :=
  match a, b with
  | TWord x, TWord y => String.eqb x y
  | TLParen, TLParen | TRParen, TRParen | TComma, TComma => true
  | _, _ => false
  end.

Fixpoint strip_head (head toks : list token) : option (list token) :=
  match head, toks with
  | [], _ => Some toks
  | h :: head', t :: toks' =>
      if token_eqb h t then strip_head head' toks' else None
  | _ :: _, [] => None
  end.

(** The statement that the text stands for.  Text after the statement's
    semicolon makes the [sqlite3] module refuse the call. *)
Definition parse_insert_counter (toks : list token) : result statement :=
  match strip_head insert_counter_head toks with
  | Some (TLParen :: rest) =>
      match parse_value rest with
      | Some (p, TComma :: rest1) =>
          match parse_value rest1 with
          | Some (n, TRParen :: rest2) =>
              match rest2 with
              | [] | [TSemi] => Ok (InsertOrIgnoreCounter p n)
              | TSemi :: _ :: _ => Raise ProgrammingError
              | _ => Raise OperationalError
              end
          | _ => Raise OperationalError
          end
      | _ => Raise OperationalError
      end
  | _ => Raise OperationalError
  end.

Fixpoint contains_char (c : ascii) (s : string) : bool :=
  match s with
  | EmptyString => false
  | String c' rest => Ascii.eqb c c' || contains_char c rest
  end.

Definition newline : string := String "010"%char "".

(** [ADD_COUNTER_SQL % (path, name)] *)
Definition ADD_COUNTER_SQL (path name : string) : string :=
  newline ++ "insert or ignore into counters (path, name)" ++ newline
  ++ "values ('" ++ path ++ "', '" ++ name ++ "');" ++ newline.

(** What [cursor.execute(text)] prepares for such a text; the module refuses
    a text with a null character. *)
Definition prepare_insert_counter (text : string) : result statement :=
  if contains_char "000"%char text then Raise ProgrammingError
  else parse_insert_counter (lex LStart text).

(** ** JSON: what [json.dump] writes and [json.load] reads

    The values are those of the credentials dictionary: strings and integers,
    in an object.  [json_load] reads objects of such values and such values
    alone; other JSON texts (nested values, floats, [true], [false], [null],
    characters from 256 on) are outside this model and answered with
    JSONDecodeError, which is not the answer of [json.load] to them.  The
    library writes and reads an integer through [repr] and [int], which
    refuse one of more than [int_max_str_digits] digits; such integers are
    outside this model too.  [credentials_loaded] below says of a credentials
    file that it is inside the model. *)

Inductive json : Type :=
| JValue (v : jvalue)
| JObject (d : list (string * jvalue)).

Definition dquote : ascii := "034"%char.
Definition backslash : ascii := "092"%char.

Definition hex_digit (n : Z) : ascii :=
  ascii_of_nat (Z.to_nat (if n <? 10 then 48 + n else 87 + n)).

(** The value of a hexadecimal digit, in either case. *)
Definition hex_value (c : ascii) : option Z :=
  let n := code c in
  if (48 <=? n) && (n <=? 57) then Some (n - 48)
  else if (97 <=? n) && (n <=? 102) then Some (n - 87)
  else if (65 <=? n) && (n <=? 70) then Some (n - 55)
  else None.

(** One character of a string, as [json.dump] writes it with its default
    [ensure_ascii]: printable ASCII as it is, the rest escaped. *)
Definition json_escape_char (c : ascii) : string :=
  let n := code c in
  if Ascii.eqb c dquote then String backslash (String dquote "")
  else if Ascii.eqb c backslash then String backslash (String backslash "")
  else if n =? 10 then String backslash "n"
  else if n =? 13 then String backslash "r"
  else if n =? 9 then String backslash "t"
  else if n =? 12 then String backslash "f"
  else if n =? 8 then String backslash "b"
  else if (32 <=? n) && (n <=? 126) then String c ""
  else String backslash
         (String "u" (String "0" (String "0"
            (String (hex_digit (n / 16)) (String (hex_digit (n mod 16)) ""))))).

Fixpoint json_escape (s : string) : string :=
  match s with
  | EmptyString => EmptyString
  | String c rest => json_escape_char c ++ json_escape rest
  end.

Definition json_dump_value (v : jvalue) : string :=
  match v with
  | JString s => String dquote (json_escape s) ++ String dquote ""
  | JInt z => format_d_int z
  end.

Fixpoint json_dump_items (d : list (string * jvalue)) : string :=
  match d with
  | [] => EmptyString
  | [(k, v)] => json_dump_value (JString k) ++ ": " ++ json_dump_value v
  | (k, v) :: rest =>
      json_dump_value (JString k) ++ ": " ++ json_dump_value v ++ ", "
      ++ json_dump_items rest
  end.

(** [json.dump(d, fd)] for a dictionary [d] *)
Definition json_dump (d : list (string * jvalue)) : string :=
  "{" ++ json_dump_items d ++ "}".

Inductive jtoken : Type :=
| JLBrace
| JRBrace
| JColon
| JComma
| JStr (s : string)
| JNum (lexeme : string)
| JBad.

Inductive jlex_state : Type :=
| JStart
| JInStr (acc : string)
| JEscape (acc : string)
| JUnicode (acc : string) (digits : list Z)
| JInNum (lexeme : string).

Definition is_json_space (c : ascii) : bool :=
  let n := code c in (n =? 32) || (n =? 9) || (n =? 10) || (n =? 13).

Definition is_number_char (c : ascii) : bool :=
  is_digit c || Ascii.eqb c "-" || Ascii.eqb c "+" || Ascii.eqb c "."
  || Ascii.eqb c "e" || Ascii.eqb c "E".

Definition jlex_start (c : ascii) : list jtoken * jlex_state :=
  if is_json_space c then ([], JStart)
  else if Ascii.eqb c "{" then ([JLBrace], JStart)
  else if Ascii.eqb c "}" then ([JRBrace], JStart)
  else if Ascii.eqb c ":" then ([JColon], JStart)
  else if Ascii.eqb c "," then ([JComma], JStart)
  else if Ascii.eqb c dquote then ([], JInStr "")
  else if is_digit c || Ascii.eqb c "-" then ([], JInNum (String c ""))
  else ([JBad], JStart).

(** The character that a one-letter escape stands for. *)
Definition unescape (c : ascii) : option ascii :=
  if Ascii.eqb c dquote then Some dquote
  else if Ascii.eqb c backslash then Some backslash
  else if Ascii.eqb c "/" then Some "/"%char
  else if Ascii.eqb c "b" then Some "008"%char
  else if Ascii.eqb c "f" then Some "012"%char
  else if Ascii.eqb c "n" then Some "010"%char
  else if Ascii.eqb c "r" then Some "013"%char
  else if Ascii.eqb c "t" then Some "009"%char
  else None.

Definition hex4 (digits : list Z) : Z :=
  fold_left (fun acc d => 16 * acc + d) digits 0.

Definition jlex_step (st : jlex_state) (c : ascii) : list jtoken * jlex_state :=
  match st with
  | JStart => jlex_start c
  | JInStr acc =>
      if Ascii.eqb c dquote then ([JStr acc], JStart)
      else if Ascii.eqb c backslash then ([], JEscape acc)
      else if code c <? 32 then ([JBad], JStart)   (* a control character *)
      else ([], JInStr (snoc acc c))
  | JEscape acc =>
      if Ascii.eqb c "u" then ([], JUnicode acc [])
      else match unescape c with
           | Some c' => ([], JInStr (snoc acc c'))
           | None => ([JBad], JStart)
           end
  | JUnicode acc digits =>
      match hex_value c with
      | None => ([JBad], JStart)
      | Some v =>
          let digits' := (digits ++ [v])%list in
          if (List.length digits' <? 4)%nat then ([], JUnicode acc digits')
          else if hex4 digits' <? 256
               then ([], JInStr (snoc acc (ascii_of_nat (Z.to_nat (hex4 digits')))))
               else ([JBad], JStart)
      end
  | JInNum lexeme =>
      if is_number_char c then ([], JInNum (snoc lexeme c))
      else let '(toks, st') := jlex_start c in (JNum lexeme :: toks, st')
  end.

Definition jlex_end (st : jlex_state) : list jtoken :=
  match st with
  | JStart => []
  | JInNum lexeme => [JNum lexeme]
  | _ => [JBad]
  end.

Fixpoint jlex (st : jlex_state) (s : string) : list jtoken :=
  match s with
  | EmptyString => jlex_end st
  | String c rest => let '(toks, st') := jlex_step st c in toks ++ jlex st' rest
  end.

(** An integer lexeme: the decimal text of its value, or ["-0"]. *)
Definition json_int (lexeme : string) : option Z :=
  match NilZero.int_of_string lexeme with
  | Some d =>
      let z := Z.of_int d in
      if String.eqb lexeme (format_d_int z) || String.eqb lexeme "-0"
      then Some z else None
  | None => None
  end.

Definition json_value (t : jtoken) : option jvalue :=
  match t with
  | JStr s => Some (JString s)
  | JNum lexeme => option_map JInt (json_int lexeme)
  | _ => None
  end.

(** The members of an object after its opening brace, up to the closing one;
    nothing may follow. *)
Fixpoint json_members (toks : list jtoken) : option (list (string * jvalue)) :=
  match toks with
  | JStr k :: JColon :: t :: rest =>
      match json_value t, rest with
      | Some v, [JRBrace] => Some [(k, v)]
      | Some v, JComma :: rest' =>
          option_map (cons (k, v)) (json_members rest')
      | _, _ => None
      end
  | _ => None
  end.

(** [json.load(fd)] on the text of the file *)
Definition json_load (text : string) : result json :=
  match jlex JStart text with
  | [JLBrace; JRBrace] => Ok (JObject [])
  | JLBrace :: toks =>
      match json_members toks with
      | Some d => Ok (JObject d)
      | None => Raise JSONDecodeError
      end
  | [t] =>
      match json_value t with
      | Some v => Ok (JValue v)
      | None => Raise JSONDecodeError
      end
  | _ => Raise JSONDecodeError
  end.

(** [d[key]]: of two members with one key the dictionary keeps the later. *)
Fixpoint dict_get (key : string) (d : list (string * jvalue)) : option jvalue :=
  match d with
  | [] => None
  | (k, v) :: rest =>
      match dict_get key rest with
      | Some v' => Some v'
      | None => if String.eqb k key then Some v else None
      end
  end.

Definition subscript (d : json) (key : string) : result jvalue :=
  match d with
  | JObject members =>
      match dict_get key members with
      | Some v => Ok v
      | None => Raise (KeyError key)
      end
  | JValue _ => Raise TypeError
  end.

(** ** main.py *)

(** [SCHEMA_SQL.split(";")], each piece with its semicolon back: the four
    statements of the schema and the white space after the last one. *)
Definition SCHEMA_SQL : list statement :=
  [ CreateCounters; CreateCountersPath; CreateCounterCounts;
    CreateCounterCountsAccessTime; EmptyStatement ].

Definition QUERY_COUNTERS_SQL : statement := SelectCounters.

(** [UPDATE_COUNTER_SQL % (counter_id, count)]: two decimal integer literals.
    In a run the id is a rowid and the count is what [int] has read, so that
    [%d] writes both. *)
Definition UPDATE_COUNTER_SQL (counter_id count : Z) : statement :=
  InsertCount counter_id (sql_integer_literal count).

(** [QUERY_COUNTER_SQL] with [counter_id] bound to its parameter *)
Definition QUERY_COUNTER_SQL (counter_id : Z) : statement :=
  SelectLatest counter_id.

Definition S_IRUSR : Z := 256.
Definition S_IWUSR : Z := 128.

(** The database file ~/.linux-healthcheck.db *)
Record db_file : Type := mk_db_file {
  mode : Z;
  content : database
}.

(** [get_connection]: connecting creates a missing file, empty, which then
    gets the owner-only mode. *)
Definition get_connection (f : option db_file) : connection :=
  match f with
  | Some f => mk_connection (mode f) (content f) None
  | None =>
      mk_connection (Z.lor S_IRUSR S_IWUSR) empty_database None
  end.

Fixpoint execute_all (env : environment) (cmds : list statement) : M unit :=
  match cmds with
  | [] => ret tt
  | cmd :: rest => cursor_execute env cmd ;;; execute_all env rest
  end.

Definition create_schema (env : environment) : M unit :=
  execute_all env SCHEMA_SQL.

Definition get_counters (env : environment) : M (list counter_row) :=
  r <-- cursor_execute env QUERY_COUNTERS_SQL ;;;
  match r with
  | CounterRows l => ret l
  | _ => ret []
  end.

Definition add_counter (env : environment) (path name : string) : M unit :=
  s <-- lift (prepare_insert_counter (ADD_COUNTER_SQL path name)) ;;;
  cursor_execute env s ;;;
  ret tt.

Definition update_counter (env : environment) (counter_id count : Z) : M unit :=
  cursor_execute env (UPDATE_COUNTER_SQL counter_id count) ;;;
  ret tt.

Definition get_counter (env : environment) (counter_id : Z) : M pynum :=
  r <-- cursor_execute env (QUERY_COUNTER_SQL counter_id) ;;;
  match r with
  | LatestRow (Some (_, c)) => ret (py_of_sql c)
  | _ => ret (PyInt 0)
  end.

Definition read_counter (env : environment) (path : string) : result Z :=
  match files env path with
  | Missing => Raise OSError
  | Undecodable => Raise UnicodeDecodeError
  | Text content => py_int content
  end.

(** The parsed command line of [write_credentials_file]; the port is what
    [int] has made of its argument. *)
Record credentials_args : Type := mk_credentials_args {
  smtp_server : string;
  smtp_port : Z;
  sender : string;
  recipient : string
}.

(** [write_credentials_file]: what the file holds afterwards, given the
    arguments and the password typed. *)
Definition write_credentials_file (args : credentials_args) (password : string)
  : file_state :=
  let d := [ ("smtp_server", JString (smtp_server args));
             ("smtp_port", JInt (smtp_port args));
             ("sender", JString (sender args));
             ("recipient", JString (recipient args));
             ("password", JString password) ] in
  Text (json_dump d).

Definition report_entry : Type := (string * pynum)%type.

(** ["%s: %d" % (name, count)] *)
Definition format_entry (e : report_entry) : result string :=
  d <- format_d (snd e) ;; Ok (fst e ++ ": " ++ d).

(** [[... for name, count in report]] *)
Fixpoint format_entries (report : list report_entry) : result (list string) :=
  match report with
  | [] => Ok []
  | e :: rest =>
      l <- format_entry e ;;
      ls <- format_entries rest ;;
      Ok (l :: ls)
  end.

(** ["\n".join(lines)] *)
Fixpoint join_lines (lines : list string) : string :=
  match lines with
  | [] => EmptyString
  | [l] => l
  | l :: rest => l ++ newline ++ join_lines rest
  end.

(** [with open(get_credentials_filename()) as fd: d = json.load(fd)] *)
Definition load_credentials (env : environment) : M json :=
  fun p =>
    let p' := mk_process (conn p) (mail_log p ++ [OpenCredentials]) in
    match credentials_file env with
    | Missing => (Raise OSError, p')
    | Undecodable => (Raise UnicodeDecodeError, p')
    | Text content => (json_load content, p')
    end.

Definition send_mail (env : environment) (report : list report_entry) : M unit :=
  d <-- load_credentials env ;;;
  host <-- lift (subscript d "smtp_server") ;;;
  port <-- lift (subscript d "smtp_port") ;;;
  smtp_do env (Connect host port) ;;;
  smtp_do env StartTls ;;;
  user <-- lift (subscript d "sender") ;;;
  password <-- lift (subscript d "password") ;;;
  smtp_do env (Login user password) ;;;
  lines <-- lift (format_entries report) ;;;
  let message := join_lines lines in
  from <-- lift (subscript d "sender") ;;;
  to <-- lift (subscript d "recipient") ;;;
  let msg := mk_message from to "Linux healthcheck report" [message] in
  smtp_do env (SendMessage msg) ;;;
  smtp_do env Quit.

(** [new_counter], after its arguments are parsed and the connection made *)
Definition new_counter (env : environment) (path name : string) : M unit :=
  create_schema env ;;;
  add_counter env path name ;;;
  conn_commit.

(** One turn of the loop of [main]. *)
Definition main_step (env : environment) (report : list report_entry)
    (row : counter_row) : M (list report_entry) :=
  old_value <-- get_counter env (counter_id row) ;;;
  new_value <-- lift (read_counter env (path row)) ;;;
  if py_gt new_value old_value then
    delta <-- lift (py_sub new_value old_value) ;;;
    let report' := (report ++ [(name row, delta)])%list in
    update_counter env (counter_id row) new_value ;;;
    ret report'
  else ret report.

Fixpoint main_loop (env : environment) (rows : list counter_row)
    (report : list report_entry) : M (list report_entry) :=
  match rows with
  | [] => ret report
  | row :: rest =>
      report' <-- main_step env report row ;;;
      main_loop env rest report'
  end.

(** [main], after the connection is made *)
Definition main (env : environment) : M unit :=
  rows <-- get_counters env ;;;
  report <-- main_loop env rows [] ;;;
  (if (0 <? List.length report)%nat then send_mail env report else ret tt) ;;;
  conn_commit.

(** A command run as a process: it connects, runs, and exits; what is left
    is the database file as committed, and the mail log. *)
Definition run_process {A : Type} (cmd : M A) (f : option db_file)
  : result A * db_file * list request :=
  let '(r, p) := cmd (mk_process (get_connection f) []) in
  (r, mk_db_file (file_mode (conn p)) (disk (conn p)), mail_log p).

(** ** What the run controller computes, stated on the store *)

(** The samples of a counter in a store. *)
Definition samples_of (id : Z) (l : list count_row) : list count_row :=
  filter (fun r => counters_counter_id r =? id) l.

(** The value that [get_counter] returns on a store with the table
    [counter_counts]. *)
Definition baseline (db : database) (id : Z) : pynum :=
  match newest (samples_of id (counter_counts db)) with
  | Some r => py_of_sql (count r)
  | None => PyInt 0
  end.

(** The report entries that one turn of the loop of [main] appends for a row,
    when the baseline of the row is [old_value]. *)
Definition contribution (env : environment) (old_value : pynum)
    (row : counter_row) : list report_entry :=
  match read_counter env (path row) with
  | Ok new_value =>
      if py_gt new_value old_value then
        match py_sub new_value old_value with
        | Ok delta => [(name row, delta)]
        | Raise _ => []
        end
      else []
  | Raise _ => []
  end.

(** The messages among requests. *)
Fixpoint messages_of (l : list request) : list message :=
  match l with
  | [] => []
  | SendMessage m :: rest => m :: messages_of rest
  | _ :: rest => messages_of rest
  end.

(** The content of the database file, an absent file holding nothing. *)
Definition stored (f : option db_file) : database :=
  match f with
  | Some f => content f
  | None => empty_database
  end.

(** The catalog that [create_schema] leaves in an empty file. *)
Definition schema_objects : list schema_entry :=
  [ mk_entry TableObject "counters" "counters";
    mk_entry (IndexObject true "path") "counters_path" "counters";
    mk_entry TableObject "counter_counts" "counter_counts";
    mk_entry (IndexObject false "access_time") "counter_counts_access_time"
      "counter_counts" ].

(** The tokens of a dictionary as [json_dump] writes it. *)
Definition value_token (v : jvalue) : jtoken :=
  match v with
  | JString s => JStr s
  | JInt z => JNum (format_d_int z)
  end.

Fixpoint member_tokens (d : list (string * jvalue)) : list jtoken :=
  match d with
  | [] => []
  | [(k, v)] => [JStr k; JColon; value_token v]
  | (k, v) :: rest =>
      JStr k :: JColon :: value_token v :: JComma :: member_tokens rest
  end.

Fixpoint all_digits (s : string) : bool :=
  match s with
  | EmptyString => true
  | String c rest => is_digit c && all_digits rest
  end.

(** [k] quote characters. *)
Fixpoint quotes (k : nat) : string :=
  match k with
  | O => EmptyString
  | S k' => String quote (quotes k')
  end.

(** [n] calls of a command, one after the other. *)
Fixpoint times (n : nat) (cmd : M unit) : M unit :=
  match n with
  | O => ret tt
  | S n' => cmd ;;; times n' cmd
  end.

(** The stores of this program, as far as the schema goes: the catalog holds
    the first objects of the schema, in the order [create_schema] makes them
    (each is committed as it is made), and no path is registered twice. *)
Definition schema_prefix (db : database) : Prop :=
  exists k : nat, sqlite_master db = firstn k schema_objects.

Definition distinct_paths (db : database) : Prop :=
  has_duplicate (map path (counters db)) = false.

(** The ways [main] can go. *)
Inductive main_outcome (env : environment) (p : process)
  : result unit -> process -> Prop :=
| NoCounters :           (* the table of counters is missing *)
    has_table "counters" (work (conn p)) = false ->
    main_outcome env p (Raise OperationalError) p
| LoopRaised rows e p1 :
    get_counters env p = (Ok rows, p) ->
    main_loop env rows [] p = (Raise e, p1) ->
    main_outcome env p (Raise e) p1
| NothingToReport rows p1 :
    get_counters env p = (Ok rows, p) ->
    main_loop env rows [] p = (Ok [], p1) ->
    main_outcome env p (Ok tt) (mk_process (commit (conn p1)) (mail_log p1))
| DeliveryRaised rows report p1 e p2 :
    get_counters env p = (Ok rows, p) ->
    main_loop env rows [] p = (Ok report, p1) ->
    report <> [] ->
    send_mail env report p1 = (Raise e, p2) ->
    main_outcome env p (Raise e) p2
| Delivered rows report p1 p2 :
    get_counters env p = (Ok rows, p) ->
    main_loop env rows [] p = (Ok report, p1) ->
    report <> [] ->
    send_mail env report p1 = (Ok tt, p2) ->
    main_outcome env p (Ok tt) (mk_process (commit (conn p2)) (mail_log p2)).

(** ** The stores that the program makes, and texts of note *)

(** The row that [update_counter] inserts into a store: it gets the next
    rowid, and the time that the clock shows. *)
Definition new_sample (env : environment) (db : database) (id value : Z) : count_row :=
  mk_count (next_rowid (map counter_count_id (counter_counts db))) id
    (sql_integer_literal value) (clock env (List.length (counter_counts db))).

(** What the samples are that the loop of a run adds over rows: each holds
    the reading of one of the rows, was taken at a time of the clock, and has
    an id above the ids that were in the table. *)
Definition sample_of_loop (env : environment) (rows : list counter_row)
    (old : list count_row) (s : count_row) : Prop :=
  (exists row v,
      In row rows /\ counters_counter_id s = counter_id row
      /\ read_counter env (path row) = Ok v
      /\ count s = sql_integer_literal v)
  /\ (exists n, access_time s = clock env n)
  /\ forall r, In r old -> counter_count_id r < counter_count_id s.

(** A text that the template of the INSERT quotes as it is: it holds no
    single quote, and no null character. *)
Definition plain_text (s : string) : Prop :=
  contains_char quote s = false /\ contains_char "000"%char s = false.

(** The shape of a store of this program: the schema is there, or nothing is;
    counters differ in their ids and in their paths; samples differ in their
    ids, and each is the sample of a counter of the store. *)
Record well_formed (db : database) : Prop := mk_well_formed {
  wf_schema : sqlite_master db = schema_objects \/ db = empty_database;
  wf_counter_ids : NoDup (map counter_id (counters db));
  wf_paths : distinct_paths db;
  wf_sample_ids : NoDup (map counter_count_id (counter_counts db));
  wf_references : forall s, In s (counter_counts db) ->
                    In (counters_counter_id s) (map counter_id (counters db))
}.

(** The database files that the program makes: there is none at first; a
    registration of a path and a name that are plain texts makes one from
    another, and so does a run, in any environment and however they end. *)
Inductive made_by_program : option db_file -> Prop :=
| NoFileYet : made_by_program None
| AfterRegistration (env : environment) (pth nm : string) (f : option db_file)
    (r : result unit) (f' : db_file) (log : list request) :
    made_by_program f ->
    plain_text pth -> plain_text nm ->
    run_process (new_counter env pth nm) f = (r, f', log) ->
    made_by_program (Some f')
| AfterRun (env : environment) (f : option db_file)
    (r : result unit) (f' : db_file) (log : list request) :
    made_by_program f ->
    run_process (main env) f = (r, f', log) ->
    made_by_program (Some f').

(** A file with the mode that [get_connection] gives a new file. *)
Definition owner_only (f : option db_file) : Prop :=
  match f with
  | Some f0 => mode f0 = Z.lor S_IRUSR S_IWUSR
  | None => True
  end.

(** Text that [int] takes for blank. *)
Fixpoint all_spaces (s : string) : bool :=
  match s with
  | EmptyString => true
  | String c rest => is_py_space c && all_spaces rest
  end.

(** Printable ASCII: the characters from the space to the tilde. *)
Definition is_printable (c : ascii) : bool :=
  let n := code c in (32 <=? n) && (n <=? 126).

Fixpoint all_printable (s : string) : bool :=
  match s with
  | EmptyString => true
  | String c rest => is_printable c && all_printable rest
  end.

(** Text that [json.dump] writes as it is: printable ASCII without the double
    quote and the backslash. *)
Fixpoint json_plain (s : string) : bool :=
  match s with
  | EmptyString => true
  | String c rest =>
      is_printable c && negb (Ascii.eqb c dquote) && negb (Ascii.eqb c backslash)
      && json_plain rest
  end.

(** A text between double quotes. *)
Definition quoted (s : string) : string := String dquote (s ++ String dquote "").

(** The requests that a delivery makes of the mail server when all goes
    well, in their order. *)
Definition session (host port user password : jvalue) (msg : message)
  : list request :=
  [Connect host port; StartTls; Login user password; SendMessage msg; Quit].

(** ** The credentials that delivery reads *)

(** An integer of no more digits than [int] reads and [repr] writes. *)
Definition int_in_limit (z : Z) : Prop :=
  (decimal_digits z <= int_max_str_digits)%nat.

(** The integers of a value that was loaded are such integers. *)
Definition json_in_limit (d : json) : Prop :=
  match d with
  | JValue (JInt z) => int_in_limit z
  | JValue (JString _) => True
  | JObject members => forall k z, In (k, JInt z) members -> int_in_limit z
  end.

(** The credentials file holds a text that [json.load] reads as [d]: an
    object of strings and integers, or one such value, the integers within
    the limit.  These are the texts on which [json_load] stands for
    [json.load]; the file that [write_credentials_file] leaves is one. *)
Definition credentials_loaded (env : environment) (d : json) : Prop :=
  exists text,
    credentials_file env = Text text /\ json_load text = Ok d /\ json_in_limit d.

(** Every step of delivery before the message is handed over succeeds, and
    [msg] is the message: the credentials hold the server, the port, the
    sender, the password and the recipient; the server accepts the
    connection, STARTTLS and the login; and each entry of the report can be
    formatted. *)
Definition message_ready (env : environment) (d : json)
    (report : list report_entry) (msg : message) : Prop :=
  exists (host port user password to : jvalue) (lines : list string),
    subscript d "smtp_server" = Ok host
    /\ subscript d "smtp_port" = Ok port
    /\ smtp_accepts env (Connect host port) = true
    /\ smtp_accepts env StartTls = true
    /\ subscript d "sender" = Ok user
    /\ subscript d "password" = Ok password
    /\ smtp_accepts env (Login user password) = true
    /\ format_entries report = Ok lines
    /\ subscript d "recipient" = Ok to
    /\ msg = mk_message user to "Linux healthcheck report" [join_lines lines].

(** ** The texts that denote an integer

    What the language takes for an integer in a text, stated on the text and
    not by the steps of [py_int]: digits, any of which but the first may have
    one underscore before it; before them a sign or none; white space around
    that or none; and no more digits than the limit.  The integer is the one
    that the digits denote in decimal, as the library of decimal numbers
    reads them. *)

(** The white space around a number, among the characters below 256: tab,
    line feed, vertical tab, form feed, carriage return, space, next line
    and no-break space. *)
Definition int_white_space : list ascii :=
  ["009"; "010"; "011"; "012"; "013"; " "; "133"; "160"]%char.

(** The decimal digits. *)
Definition decimal_digit_chars : list ascii :=
  ["0"; "1"; "2"; "3"; "4"; "5"; "6"; "7"; "8"; "9"]%char.

(** A text all of whose characters are of a list. *)
Fixpoint text_of (chars : list ascii) (s : string) : Prop :=
  match s with
  | EmptyString => True
  | String c rest => In c chars /\ text_of chars rest
  end.

(** After a digit: [body] is digits, each with one underscore before it or
    none, and [digits] is [body] without the underscores. *)
Inductive digits_tail : string -> string -> Prop :=
| TailEnd : digits_tail "" ""
| TailDigit (c : ascii) (body digits : string) :
    In c decimal_digit_chars ->
    digits_tail body digits ->
    digits_tail (String c body) (String c digits)
| TailUnderscore (c : ascii) (body digits : string) :
    In c decimal_digit_chars ->
    digits_tail (String c body) digits ->
    digits_tail (String "_" (String c body)) digits.

(** [body] is a text of digits with single underscores between them or
    none, and [digits] is its digits alone. *)
Inductive digit_text : string -> string -> Prop :=
| FirstDigit (c : ascii) (body digits : string) :
    In c decimal_digit_chars ->
    digits_tail body digits ->
    digit_text (String c body) (String c digits).

(** [text] denotes the integer [z]. *)
Definition valid_integer (text : string) (z : Z) : Prop :=
  exists (lead sgn body digits trail : string) (u : Decimal.uint),
    text = (lead ++ sgn ++ body ++ trail)%string
    /\ text_of int_white_space lead
    /\ text_of int_white_space trail
    /\ digit_text body digits
    /\ (String.length digits <= int_max_str_digits)%nat
    /\ NilEmpty.uint_of_string digits = Some u
    /\ (((sgn = "" \/ sgn = "+") /\ z = Z.of_uint u)
        \/ (sgn = "-" /\ z = - Z.of_uint u)).

(** ** Example stores and environments *)

Definition bank0 : counter_row := mk_counter 1 "/sys/edac/mc0/ce_count" "EDAC bank 0".
Definition bank1 : counter_row := mk_counter 2 "/sys/edac/mc1/ce_count" "EDAC bank 1".

(** Two counters; the first was sampled at 7 and later at 10, the second
    never. *)
Definition example_store : database :=
  mk_database schema_objects [bank0; bank1]
    [mk_count 1 1 (SqlInt 7) 1700000000; mk_count 2 1 (SqlInt 10) 1700000100].

Definition example_file : db_file := mk_db_file 384 example_store.

Fixpoint files_of (l : list (string * file_state)) (path : string) : file_state :=
  match l with
  | [] => Missing
  | (p, f) :: rest => if String.eqb p path then f else files_of rest path
  end.

Definition example_clock (n : nat) : Z := 1700000200 + Z.of_nat n.

Definition example_credentials : file_state :=
  write_credentials_file
    (mk_credentials_args "smtp.example.org" 587 "root@example.org" "ops@example.org")
    "s3cret".

(** Bank 0 reads 15 and bank 1 reads 0; the mail server accepts everything. *)
Definition example_env : environment :=
  mk_environment
    (files_of [ ("/sys/edac/mc0/ce_count", Text ("15" ++ newline));
                ("/sys/edac/mc1/ce_count", Text ("0" ++ newline)) ])
    example_clock example_credentials (fun _ => true).

(** Bank 0 reads 15 and the file of bank 1 is gone. *)
Definition failing_env : environment :=
  mk_environment
    (files_of [ ("/sys/edac/mc0/ce_count", Text ("15" ++ newline)) ])
    example_clock example_credentials (fun _ => true).

(** Bank 0 reads 15 and there is no credentials file. *)
Definition no_credentials_env : environment :=
  mk_environment
    (files_of [ ("/sys/edac/mc0/ce_count", Text ("15" ++ newline));
                ("/sys/edac/mc1/ce_count", Text ("0" ++ newline)) ])
    example_clock Missing (fun _ => true).

(** Bank 0 reads 2^63 + 1. *)
Definition huge_env : environment :=
  mk_environment
    (files_of [ ("/sys/edac/mc0/ce_count", Text "9223372036854775809");
                ("/sys/edac/mc1/ce_count", Text ("0" ++ newline)) ])
    example_clock example_credentials (fun _ => true).

Definition example_process : process :=
  mk_process (get_connection (Some example_file)) [].

(** Bank 0 reads 7, below its baseline, and bank 1 reads 0. *)
Definition steady_env : environment :=
  mk_environment
    (files_of [ ("/sys/edac/mc0/ce_count", Text ("7" ++ newline));
                ("/sys/edac/mc1/ce_count", Text ("0" ++ newline)) ])
    example_clock example_credentials (fun _ => true).

(** The file after the run of [example_env] on [example_file]. *)
Definition example_file_after : db_file :=
  mk_db_file 384
    (mk_database schema_objects [bank0; bank1]
       [mk_count 1 1 (SqlInt 7) 1700000000; mk_count 2 1 (SqlInt 10) 1700000100;
        mk_count 3 1 (SqlInt 15) 1700000202]).

(** The file after bank 0 is registered in a new store, and after the run of
    [example_env] on it. *)
Definition first_file : db_file :=
  mk_db_file 384 (mk_database schema_objects [bank0] []).

Definition first_file_after : db_file :=
  mk_db_file 384
    (mk_database schema_objects [bank0] [mk_count 1 1 (SqlInt 15) 1700000200]).

(** No credentials but an empty object. *)
Definition empty_credentials_env : environment :=
  mk_environment (fun _ => Missing) example_clock (Text "{}") (fun _ => true).

(** A counter file that holds a line feed and nothing else. *)
Definition blank_env : environment :=
  mk_environment (files_of [ ("/sys/edac/mc0/ce_count", Text newline) ])
    example_clock example_credentials (fun _ => true).

(** * Properties *)

Open Scope list_scope.

(** Split on an innermost scrutinee of a hypothesis. *)
Ltac split_step :=
  match goal with
  | H : context [match ?x with _ => _ end] |- _ =>
      lazymatch x with
      | context [match _ with _ => _ end] => fail
      | _ => let E := fresh "E" in destruct x eqn:E; cbv beta iota zeta in H
      end
  end.

(** ** The monad *)

Lemma mbind_ok_inv {A B : Type} (c : M A) (k : A -> M B) p b p' :
  mbind c k p = (Ok b, p') ->
  exists a p1, c p = (Ok a, p1) /\ k a p1 = (Ok b, p').
Proof.
  unfold mbind. destruct (c p) as [[a|e] p1]; intros H.
  - exists a, p1. split; [reflexivity|exact H].
  - discriminate H.
Qed.

Lemma mbind_raise_inv {A B : Type} (c : M A) (k : A -> M B) p e p' :
  mbind c k p = (Raise e, p') ->
  c p = (Raise e, p') \/ exists a p1, c p = (Ok a, p1) /\ k a p1 = (Raise e, p').
Proof.
  unfold mbind. destruct (c p) as [[a|e0] p1]; intros H.
  - right. exists a, p1. split; [reflexivity|exact H].
  - left. injection H as -> ->. reflexivity.
Qed.

Lemma mbind_ok_eq {A B : Type} (c : M A) (k : A -> M B) p a p1 :
  c p = (Ok a, p1) -> mbind c k p = k a p1.
Proof. unfold mbind. intros ->. reflexivity. Qed.

Lemma mbind_raise_eq {A B : Type} (c : M A) (k : A -> M B) p e p1 :
  c p = (Raise e, p1) -> mbind c k p = (Raise e, p1).
Proof. unfold mbind. intros ->. reflexivity. Qed.

(** ** The store *)

Lemma newest_none (l : list count_row) : newest l = None <-> l = [].
Proof.
  destruct l as [|r rest]; simpl.
  - tauto.
  - split; [|discriminate].
    destruct (newest rest) as [b|]; [destruct (index_ltb b r)|]; discriminate.
Qed.

Lemma index_ltb_false_time (a b : count_row) :
  index_ltb a b = false -> access_time b <= access_time a.
Proof.
  unfold index_ltb. intros H. apply orb_false_iff in H as [H _].
  apply Z.ltb_ge in H. exact H.
Qed.

Lemma index_ltb_true_time (a b : count_row) :
  index_ltb a b = true -> access_time a <= access_time b.
Proof.
  unfold index_ltb. intros H. apply orb_true_iff in H as [H|H].
  - apply Z.ltb_lt in H. lia.
  - apply andb_true_iff in H as [H _]. apply Z.eqb_eq in H. lia.
Qed.

Lemma newest_some (l : list count_row) (r : count_row) :
  newest l = Some r ->
  In r l /\ forall r', In r' l -> access_time r' <= access_time r.
Proof.
  revert r. induction l as [|x rest IH]; simpl; intros r H; [discriminate|].
  destruct (newest rest) as [b|] eqn:Hb.
  - destruct (IH b eq_refl) as [Hin Hmax].
    destruct (index_ltb b x) eqn:Hlt; injection H as <-.
    + split; [left; reflexivity|].
      intros r' [<-|Hr']; [lia|].
      pose proof (Hmax r' Hr'). pose proof (index_ltb_true_time _ _ Hlt). lia.
    + split; [right; exact Hin|].
      intros r' [<-|Hr']; [apply index_ltb_false_time; exact Hlt|].
      apply Hmax; exact Hr'.
  - injection H as <-. apply newest_none in Hb. subst rest.
    split; [left; reflexivity|].
    intros r' [<-|[]]. lia.
Qed.

Lemma execute_query (s : statement) (now : Z) (c : connection) (r : rows) :
  is_dml s = false ->
  run_statement s now (work c) = Ok (work c, r) ->
  execute s now c = (Ok r, c).
Proof.
  intros Hdml Hrun. unfold execute. rewrite Hrun, Hdml.
  destruct c as [m d [w|]]; reflexivity.
Qed.

Lemma execute_raise (s : statement) (now : Z) (c : connection) (e : exn) :
  run_statement s now (work c) = Raise e ->
  execute s now c = (Raise e, c).
Proof. intros H. unfold execute. rewrite H. reflexivity. Qed.

Lemma get_counter_eq (env : environment) (id : Z) (p : process) :
  get_counter env id p =
  if has_table "counter_counts" (work (conn p))
  then (Ok (baseline (work (conn p)) id), p)
  else (Raise OperationalError, p).
Proof.
  unfold get_counter, QUERY_COUNTER_SQL, cursor_execute, mbind, baseline, samples_of.
  set (now := clock env _).
  destruct (has_table "counter_counts" (work (conn p))) eqn:Ht.
  - destruct (newest _) as [r|] eqn:Hn.
    + rewrite (execute_query _ _ _ (LatestRow (Some (access_time r, count r)))).
      * destruct p; reflexivity.
      * reflexivity.
      * simpl. unfold select_latest. rewrite Ht, Hn. reflexivity.
    + rewrite (execute_query _ _ _ (LatestRow None)).
      * destruct p; reflexivity.
      * reflexivity.
      * simpl. unfold select_latest. rewrite Ht, Hn. reflexivity.
  - rewrite (execute_raise _ _ _ OperationalError).
    + destruct p; reflexivity.
    + simpl. unfold select_latest. rewrite Ht. reflexivity.
Qed.

(** C3: on a store with the table of samples, [get_counter] returns 0 for a
    counter without samples, and otherwise the [count] of one of the
    counter's samples whose [access_time] none of its samples exceeds; it
    leaves the process as it was. *)
Theorem get_counter_most_recent (env : environment) (p : process) (id : Z) :
  has_table "counter_counts" (work (conn p)) = true ->
  let samples := samples_of id (counter_counts (work (conn p))) in
  (samples = [] -> get_counter env id p = (Ok (PyInt 0), p))
  /\ (samples <> [] ->
      exists r, In r samples
        /\ (forall r', In r' samples -> access_time r' <= access_time r)
        /\ get_counter env id p = (Ok (py_of_sql (count r)), p)).
Proof.
  intros Ht samples. rewrite get_counter_eq, Ht. unfold baseline. fold samples.
  split.
  - intros ->. reflexivity.
  - intros Hne. destruct (newest samples) as [r|] eqn:Hn.
    + destruct (newest_some _ _ Hn) as [Hin Hmax].
      exists r. repeat split; assumption.
    + apply newest_none in Hn. contradiction.
Qed.

(** ** One turn of the loop *)

Lemma samples_of_app (id : Z) (l l' : list count_row) :
  samples_of id (l ++ l') = samples_of id l ++ samples_of id l'.
Proof. apply filter_app. Qed.

Lemma update_counter_ok (env : environment) (id value : Z) (p p' : process) (u : unit) :
  update_counter env id value p = (Ok u, p') ->
  exists s,
    counters_counter_id s = id
    /\ count s = sql_integer_literal value
    /\ counter_counts (work (conn p')) = counter_counts (work (conn p)) ++ [s]
    /\ sqlite_master (work (conn p')) = sqlite_master (work (conn p))
    /\ counters (work (conn p')) = counters (work (conn p))
    /\ disk (conn p') = disk (conn p)
    /\ file_mode (conn p') = file_mode (conn p)
    /\ mail_log p' = mail_log p.
Proof.
  unfold update_counter, UPDATE_COUNTER_SQL, cursor_execute, mbind, execute, ret.
  simpl run_statement. unfold insert_count.
  destruct (has_table "counter_counts" (work (conn p))); simpl.
  - destruct p as [[m d [w|]] log]; simpl; intros [= <- <-];
      eexists; repeat split; reflexivity.
  - destruct p as [[m d [w|]] log]; simpl; discriminate.
Qed.

Lemma update_counter_raise (env : environment) (id value : Z) (p p' : process) (e : exn) :
  update_counter env id value p = (Raise e, p') -> p' = p.
Proof.
  unfold update_counter, UPDATE_COUNTER_SQL, cursor_execute, mbind, execute, ret.
  simpl run_statement. unfold insert_count.
  destruct (has_table "counter_counts" (work (conn p))); simpl.
  - destruct p as [[m d [w|]] log]; simpl; discriminate.
  - destruct p as [[m d [w|]] log]; simpl; intros H; injection H as _ <-; reflexivity.
Qed.

(** What a turn that returns has done. *)
Lemma main_step_ok (env : environment) (report report' : list report_entry)
    (row : counter_row) (p p' : process) :
  main_step env report row p = (Ok report', p') ->
  has_table "counter_counts" (work (conn p)) = true
  /\ exists new_value,
      read_counter env (path row) = Ok new_value
      /\ let old_value := baseline (work (conn p)) (counter_id row) in
         (py_gt new_value old_value = false /\ report' = report /\ p' = p)
         \/ (py_gt new_value old_value = true
             /\ exists delta s,
                 py_sub new_value old_value = Ok delta
                 /\ report' = report ++ [(name row, delta)]
                 /\ counters_counter_id s = counter_id row
                 /\ count s = sql_integer_literal new_value
                 /\ counter_counts (work (conn p'))
                    = counter_counts (work (conn p)) ++ [s]
                 /\ sqlite_master (work (conn p')) = sqlite_master (work (conn p))
                 /\ counters (work (conn p')) = counters (work (conn p))
                 /\ disk (conn p') = disk (conn p)
                 /\ file_mode (conn p') = file_mode (conn p)
                 /\ mail_log p' = mail_log p).
Proof.
  unfold main_step. intros H.
  apply mbind_ok_inv in H as (old_value & p1 & Hget & H).
  rewrite get_counter_eq in Hget.
  destruct (has_table "counter_counts" (work (conn p))); [|discriminate].
  injection Hget as <- <-. split; [reflexivity|].
  apply mbind_ok_inv in H as (new_value & p2 & Hread & H).
  unfold lift in Hread. injection Hread as Hread <-.
  exists new_value. split; [exact Hread|]. cbv zeta.
  destruct (py_gt new_value (baseline (work (conn p)) (counter_id row))).
  - right. split; [reflexivity|].
    apply mbind_ok_inv in H as (delta & p3 & Hsub & H).
    unfold lift in Hsub. injection Hsub as Hsub <-.
    apply mbind_ok_inv in H as (u & p4 & Hupd & H).
    unfold ret in H. injection H as <- <-.
    apply update_counter_ok in Hupd as (s & H1 & H2 & H3 & H4 & H5 & H6 & H7 & H8).
    exists delta, s. repeat split; assumption.
  - left. unfold ret in H. injection H as <- <-. repeat split.
Qed.

(** A turn that raises has left the process as it was. *)
Lemma main_step_raise (env : environment) (report : list report_entry)
    (row : counter_row) (p p' : process) (e : exn) :
  main_step env report row p = (Raise e, p') -> p' = p.
Proof.
  unfold main_step. intros H.
  apply mbind_raise_inv in H as [H|(old_value & p1 & Hget & H)].
  - rewrite get_counter_eq in H. destruct (has_table _ _); [discriminate|].
    injection H as _ <-. reflexivity.
  - rewrite get_counter_eq in Hget. destruct (has_table _ _); [|discriminate].
    injection Hget as <- <-.
    apply mbind_raise_inv in H as [H|(new_value & p2 & Hread & H)].
    + unfold lift in H. injection H as _ <-. reflexivity.
    + unfold lift in Hread. injection Hread as _ <-.
      destruct (py_gt new_value _).
      * apply mbind_raise_inv in H as [H|(delta & p3 & Hsub & H)].
        -- unfold lift in H. injection H as _ <-. reflexivity.
        -- unfold lift in Hsub. injection Hsub as _ <-.
           apply mbind_raise_inv in H as [H|(u & p4 & _ & H)].
           ++ apply update_counter_raise in H. exact H.
           ++ discriminate H.
      * discriminate H.
Qed.

(** ** The loop *)

Lemma baseline_ext (db db' : database) (id : Z) :
  samples_of id (counter_counts db') = samples_of id (counter_counts db) ->
  baseline db' id = baseline db id.
Proof. unfold baseline. intros ->. reflexivity. Qed.

Lemma samples_of_other (id : Z) (s : count_row) (l : list count_row) :
  counters_counter_id s <> id -> samples_of id (s :: l) = samples_of id l.
Proof.
  intros Hne. unfold samples_of. simpl.
  destruct (counters_counter_id s =? id) eqn:E; [|reflexivity].
  apply Z.eqb_eq in E. contradiction.
Qed.

Lemma samples_of_same (id : Z) (s : count_row) (l : list count_row) :
  counters_counter_id s = id -> samples_of id (s :: l) = s :: samples_of id l.
Proof.
  intros He. unfold samples_of. simpl.
  destruct (counters_counter_id s =? id) eqn:E; [reflexivity|].
  apply Z.eqb_neq in E. contradiction.
Qed.

Lemma flat_map_ext_in {A B : Type} (f g : A -> list B) (l : list A) :
  (forall a, In a l -> f a = g a) -> flat_map f l = flat_map g l.
Proof.
  induction l as [|a l IH]; simpl; intros H; [reflexivity|].
  rewrite (H a (or_introl eq_refl)), IH; [reflexivity|].
  intros b Hb. apply H. right. exact Hb.
Qed.

(** What a loop that returns has done: it has appended samples to the table
    of samples and nothing else; the report is made of the contributions of
    the rows, in their order, each against the baseline the row had before
    the loop; and a row got a sample exactly when its new value was greater
    than that baseline. *)
Lemma main_loop_ok (env : environment) (rows : list counter_row) :
  forall (report report' : list report_entry) (p p' : process),
  NoDup (map counter_id rows) ->
  main_loop env rows report p = (Ok report', p') ->
  exists added,
    counter_counts (work (conn p')) = counter_counts (work (conn p)) ++ added
    /\ sqlite_master (work (conn p')) = sqlite_master (work (conn p))
    /\ counters (work (conn p')) = counters (work (conn p))
    /\ disk (conn p') = disk (conn p)
    /\ file_mode (conn p') = file_mode (conn p)
    /\ mail_log p' = mail_log p
    /\ report' = report ++ flat_map
         (fun row => contribution env (baseline (work (conn p)) (counter_id row)) row)
         rows
    /\ (forall id, ~ In id (map counter_id rows) -> samples_of id added = [])
    /\ forall row, In row rows ->
         exists new_value,
           read_counter env (path row) = Ok new_value
           /\ if py_gt new_value (baseline (work (conn p)) (counter_id row))
              then exists delta s,
                  py_sub new_value (baseline (work (conn p)) (counter_id row)) = Ok delta
                  /\ samples_of (counter_id row) added = [s]
                  /\ count s = sql_integer_literal new_value
              else samples_of (counter_id row) added = [].
Proof.
  induction rows as [|row rest IH]; intros report report' p p' Hnd H.
  - simpl in H. unfold ret in H. injection H as <- <-.
    exists []. rewrite !app_nil_r. simpl.
    repeat split; try reflexivity. intros row [].
  - simpl in H. apply mbind_ok_inv in H as (report1 & p1 & Hstep & Hloop).
    simpl in Hnd. apply NoDup_cons_iff in Hnd as [Hnotin Hnd].
    destruct (IH _ _ _ _ Hnd Hloop)
      as (added1 & Hcc & Hsm & Hcs & Hdisk & Hmode & Hlog & Hrep & Hout & Hrows).
    apply main_step_ok in Hstep as (Ht & new_value & Hread & Hcase).
    cbv zeta in Hcase.
    destruct Hcase as [(Hgt & -> & ->)|(Hgt & delta & s & Hsub & -> & Hid & Hcount
                                        & Hcc1 & Hsm1 & Hcs1 & Hdisk1 & Hmode1 & Hlog1)].
    + (* the row did not increase *)
      exists added1. repeat split; try assumption.
      * simpl. unfold contribution at 1. rewrite Hread, Hgt. exact Hrep.
      * intros id Hid. apply Hout. intros Hin. apply Hid. right. exact Hin.
      * intros row0 [<-|Hin].
        -- exists new_value. split; [exact Hread|]. rewrite Hgt.
           apply Hout. exact Hnotin.
        -- apply Hrows. exact Hin.
    + (* the row increased: one sample more *)
      assert (Hbase : forall row0, In row0 rest ->
                baseline (work (conn p1)) (counter_id row0)
                = baseline (work (conn p)) (counter_id row0)).
      { intros row0 Hin. apply baseline_ext. rewrite Hcc1, samples_of_app.
        assert (Hne : counters_counter_id s <> counter_id row0).
        { rewrite Hid. intros E. apply Hnotin. rewrite E. apply in_map. exact Hin. }
        rewrite (samples_of_other _ _ _ Hne). apply app_nil_r. }
      exists (s :: added1). repeat split.
      * rewrite Hcc, Hcc1, <- app_assoc. reflexivity.
      * congruence.
      * congruence.
      * congruence.
      * congruence.
      * congruence.
      * simpl. unfold contribution at 1. rewrite Hread, Hgt, Hsub.
        rewrite Hrep, <- app_assoc. simpl. do 2 f_equal.
        apply flat_map_ext_in. intros row0 Hin. rewrite (Hbase _ Hin). reflexivity.
      * intros id Hnin. rewrite samples_of_other.
        -- apply Hout. intros Hin. apply Hnin. right. exact Hin.
        -- rewrite Hid. intros E. apply Hnin. left. exact E.
      * intros row0 [<-|Hin].
        -- exists new_value. split; [exact Hread|]. rewrite Hgt.
           exists delta, s. repeat split; try assumption.
           rewrite (samples_of_same _ _ _ Hid), (Hout _ Hnotin). reflexivity.
        -- destruct (Hrows _ Hin) as (v & Hv & Hif).
           exists v. split; [exact Hv|].
           rewrite (Hbase _ Hin) in Hif.
           assert (Hne : counters_counter_id s <> counter_id row0).
           { rewrite Hid. intros E. apply Hnotin. rewrite E. apply in_map. exact Hin. }
           rewrite (samples_of_other _ _ _ Hne). exact Hif.
Qed.

(** The loop over rows put end to end is the loop over the first and then
    the loop over the rest; a run that raises at a row has completed the
    loop over the rows before it. *)
Lemma main_loop_app (env : environment) (rows1 rows2 : list counter_row) :
  forall (report : list report_entry) (p : process),
  main_loop env (rows1 ++ rows2) report p
  = mbind (main_loop env rows1 report) (main_loop env rows2) p.
Proof.
  induction rows1 as [|row rows1 IH]; intros report p.
  - reflexivity.
  - simpl. unfold mbind.
    destruct (main_step env report row p) as [[report1|e] p1]; [|reflexivity].
    rewrite IH. reflexivity.
Qed.

(** ** Increases and non-increases *)

Lemma py_le_not_gt (new : Z) (old : pynum) :
  py_le new old = true -> py_gt new old = false.
Proof.
  destruct old as [b|f]; simpl.
  - intros H. apply Z.leb_le in H. apply Z.ltb_ge. exact H.
  - destruct (Prim2SF f) as [s|s| |s m e].
    + intros H. apply Z.leb_le in H. apply Z.ltb_ge. exact H.
    + destruct s; [discriminate|reflexivity].
    + discriminate.
    + destruct (0 <=? e); intros H; apply Z.leb_le in H; apply Z.ltb_ge; exact H.
Qed.

Lemma fits_int64_literal (z : Z) :
  fits_int64 z = true -> sql_integer_literal z = SqlInt z.
Proof. unfold sql_integer_literal. intros ->. reflexivity. Qed.

(** C1, as amended: when the loop of a run has gone through rows with
    distinct ids (all the rows of the run, or its first rows up to any of
    them, see [main_loop_app]), a row whose new value is greater than its
    baseline and fits SQLite's 64-bit INTEGER has got exactly one new sample,
    with that value as its count, and the report contains the row's name with
    the difference. *)
Theorem increase_recorded_and_reported (env : environment)
    (rows : list counter_row) (report report' : list report_entry)
    (p p' : process) (row : counter_row) (new_value : Z) :
  NoDup (map counter_id rows) ->
  main_loop env rows report p = (Ok report', p') ->
  In row rows ->
  read_counter env (path row) = Ok new_value ->
  py_gt new_value (baseline (work (conn p)) (counter_id row)) = true ->
  fits_int64 new_value = true ->
  exists delta added s,
    py_sub new_value (baseline (work (conn p)) (counter_id row)) = Ok delta
    /\ In (name row, delta) report'
    /\ counter_counts (work (conn p')) = counter_counts (work (conn p)) ++ added
    /\ samples_of (counter_id row) added = [s]
    /\ count s = SqlInt new_value.
Proof.
  intros Hnd Hloop Hin Hread Hgt Hfits.
  destruct (main_loop_ok _ _ _ _ _ _ Hnd Hloop)
    as (added & Hcc & _ & _ & _ & _ & _ & Hrep & _ & Hrows).
  destruct (Hrows _ Hin) as (v & Hv & Hif).
  rewrite Hread in Hv. injection Hv as <-. rewrite Hgt in Hif.
  destruct Hif as (delta & s & Hsub & Hs & Hcount).
  exists delta, added, s. repeat split; try assumption.
  - rewrite Hrep. apply in_or_app. right. apply in_flat_map.
    exists row. split; [exact Hin|].
    unfold contribution. rewrite Hread, Hgt, Hsub. left. reflexivity.
  - rewrite Hcount. apply fits_int64_literal. exact Hfits.
Qed.

(** C2: when the loop of a run has gone through rows with distinct ids (all
    the rows of the run, or its first rows up to any of them), a row whose
    new value is less than or equal to its baseline has got no new sample,
    has kept its baseline, and has added nothing to the report: the report is
    the one of the other rows. *)
Theorem non_increase_ignored (env : environment)
    (rows : list counter_row) (report report' : list report_entry)
    (p p' : process) (row : counter_row) (new_value : Z) :
  NoDup (map counter_id rows) ->
  main_loop env rows report p = (Ok report', p') ->
  In row rows ->
  read_counter env (path row) = Ok new_value ->
  py_le new_value (baseline (work (conn p)) (counter_id row)) = true ->
  (exists added,
      counter_counts (work (conn p')) = counter_counts (work (conn p)) ++ added
      /\ samples_of (counter_id row) added = [])
  /\ baseline (work (conn p')) (counter_id row)
     = baseline (work (conn p)) (counter_id row)
  /\ forall before after, rows = before ++ row :: after ->
       report' = report ++ flat_map
         (fun r => contribution env (baseline (work (conn p)) (counter_id r)) r)
         (before ++ after).
Proof.
  intros Hnd Hloop Hin Hread Hle.
  apply py_le_not_gt in Hle.
  destruct (main_loop_ok _ _ _ _ _ _ Hnd Hloop)
    as (added & Hcc & _ & _ & _ & _ & _ & Hrep & _ & Hrows).
  destruct (Hrows _ Hin) as (v & Hv & Hif).
  rewrite Hread in Hv. injection Hv as <-. rewrite Hle in Hif.
  split; [|split].
  - exists added. split; assumption.
  - apply baseline_ext. rewrite Hcc, samples_of_app, Hif. apply app_nil_r.
  - intros before after ->. rewrite Hrep, !flat_map_app. simpl.
    unfold contribution at 2. rewrite Hread, Hle. reflexivity.
Qed.

Lemma example_rows_distinct : NoDup (map counter_id [bank0; bank1]).
Proof.
  simpl. constructor; [|constructor; [|constructor]].
  - intros [H|[]]; discriminate H.
  - intros [].
Defined.

Lemma get_counter_most_recent_witness :
  has_table "counter_counts" (work (conn example_process)) = true
  /\ exists r, In r (samples_of 1 (counter_counts (work (conn example_process))))
       /\ get_counter example_env 1 example_process
          = (Ok (py_of_sql (count r)), example_process).
Proof.
  split; [reflexivity|].
  destruct (get_counter_most_recent example_env example_process 1 eq_refl)
    as [_ H].
  destruct H as (r & Hin & _ & Hget); [discriminate|].
  exists r. split; assumption.
Defined.

Lemma increase_recorded_and_reported_witness :
  exists report' p',
    main_loop example_env [bank0; bank1] [] example_process = (Ok report', p')
    /\ exists delta added s,
        py_sub 15 (baseline (work (conn example_process)) 1) = Ok delta
        /\ In ("EDAC bank 0", delta) report'
        /\ counter_counts (work (conn p'))
           = counter_counts (work (conn example_process)) ++ added
        /\ samples_of 1 added = [s]
        /\ count s = SqlInt 15.
Proof.
  eexists. eexists. split.
  - lazy. reflexivity.
  - eapply increase_recorded_and_reported
      with (env := example_env) (rows := [bank0; bank1]) (report := [])
           (p := example_process) (row := bank0) (new_value := 15).
    + exact example_rows_distinct.
    + lazy. reflexivity.
    + left. reflexivity.
    + reflexivity.
    + reflexivity.
    + reflexivity.
Defined.

Lemma non_increase_ignored_witness :
  exists report' p',
    main_loop example_env [bank0; bank1] [] example_process = (Ok report', p')
    /\ baseline (work (conn p')) 2 = baseline (work (conn example_process)) 2
    /\ report' = flat_map
         (fun r => contribution example_env
                     (baseline (work (conn example_process)) (counter_id r)) r)
         [bank0].
Proof.
  eexists. eexists. split.
  - lazy. reflexivity.
  - edestruct non_increase_ignored
      with (env := example_env) (rows := [bank0; bank1]) (report := @nil report_entry)
           (p := example_process) (row := bank1) (new_value := 0)
      as (_ & Hb & Hr).
    + exact example_rows_distinct.
    + lazy. reflexivity.
    + right. left. reflexivity.
    + reflexivity.
    + reflexivity.
    + split; [exact Hb|]. exact (Hr [bank0] [] eq_refl).
Defined.

(** C1, as stated, fails for a value beyond 64 bits: bank 0 reads 2^63 + 1,
    which is greater than its baseline 10; the loop completes, and the one
    sample it records holds the REAL 2^63 (mantissa 2^52, exponent 11), not
    the value read. *)
Lemma huge_increase_recorded_inexactly :
  exists report' p' s f,
    main_loop huge_env [bank0; bank1] [] example_process = (Ok report', p')
    /\ read_counter huge_env (path bank0) = Ok 9223372036854775809
    /\ py_gt 9223372036854775809
         (baseline (work (conn example_process)) (counter_id bank0)) = true
    /\ counter_counts (work (conn p'))
       = counter_counts (work (conn example_process)) ++ [s]
    /\ count s = SqlReal f
    /\ Prim2SF f = S754_finite false 4503599627370496 11
    /\ ~ In (SqlInt 9223372036854775809)
         (map count (counter_counts (work (conn p')))).
Proof.
  eexists. eexists. eexists. eexists. split.
  - lazy. reflexivity.
  - split; [reflexivity|]. split; [reflexivity|]. split; [reflexivity|].
    split; [reflexivity|]. split; [vm_compute; reflexivity|].
    simpl. intros [H|[H|[H|[]]]]; discriminate H.
Qed.

(** ** Delivery *)

Lemma format_entries_lines (report : list report_entry) :
  forall lines, format_entries report = Ok lines ->
  Forall2 (fun e l => format_entry e = Ok l) report lines.
Proof.
  induction report as [|e rest IH]; simpl; intros lines H.
  - injection H as <-. constructor.
  - destruct (format_entry e) as [l|] eqn:He; simpl in H; [|discriminate].
    destruct (format_entries rest) as [ls|]; simpl in H; [|discriminate].
    injection H as <-. constructor; [exact He|]. apply IH. reflexivity.
Qed.

(** What [send_mail] asks for: the credentials file first; at most one
    message, with the subject of the report and the lines of the entries as
    its one part; exactly one when it returns.  It leaves the connection as it
    was. *)
Lemma send_mail_requests (env : environment) (report : list report_entry)
    (p p' : process) (r : result unit) :
  send_mail env report p = (r, p') ->
  conn p' = conn p
  /\ exists reqs,
      mail_log p' = mail_log p ++ OpenCredentials :: reqs
      /\ (messages_of reqs = []
          \/ exists lines from to,
               Forall2 (fun e l => format_entry e = Ok l) report lines
               /\ messages_of reqs
                  = [mk_message from to "Linux healthcheck report" [join_lines lines]])
      /\ (forall u, r = Ok u -> messages_of reqs <> []).
Proof.
  unfold send_mail, mbind, lift, smtp_do, load_credentials. intros H.
  cbv beta iota zeta in H.
  repeat split_step;
    injection H as <- <-; simpl; (split; [reflexivity|]);
    rewrite <- ?app_assoc; simpl;
    eexists; (split; [reflexivity|]); simpl;
    (split; [first [left; reflexivity
                   | right; eexists; eexists; eexists;
                     split; [apply format_entries_lines; eassumption|reflexivity]]
            | intros u Hu; first [discriminate Hu | discriminate]]).
Qed.

(** ** The run *)

Lemma get_counters_eq (env : environment) (p : process) :
  get_counters env p =
  if has_table "counters" (work (conn p))
  then (Ok (counters (work (conn p))), p)
  else (Raise OperationalError, p).
Proof.
  unfold get_counters, QUERY_COUNTERS_SQL, cursor_execute, mbind.
  set (now := clock env _).
  destruct (has_table "counters" (work (conn p))) eqn:Ht.
  - rewrite (execute_query _ _ _ (CounterRows (counters (work (conn p))))).
    + destruct p; reflexivity.
    + reflexivity.
    + simpl. unfold select_counters. rewrite Ht. reflexivity.
  - rewrite (execute_raise _ _ _ OperationalError).
    + destruct p; reflexivity.
    + simpl. unfold select_counters. rewrite Ht. reflexivity.
Qed.

(** The loop commits nothing and asks for no delivery, however it ends. *)
Lemma main_loop_disk (env : environment) (rows : list counter_row) :
  forall (report : list report_entry) (p p' : process) (r : result (list report_entry)),
  main_loop env rows report p = (r, p') ->
  disk (conn p') = disk (conn p)
  /\ file_mode (conn p') = file_mode (conn p)
  /\ mail_log p' = mail_log p.
Proof.
  induction rows as [|row rest IH]; intros report p p' r H; simpl in H.
  - injection H as _ <-. repeat split.
  - unfold mbind in H.
    destruct (main_step env report row p) as [[report1|e] p1] eqn:Hstep.
    + destruct (IH _ _ _ _ H) as (Hd & Hm & Hl).
      apply main_step_ok in Hstep as (_ & v & _ & Hcase). cbv zeta in Hcase.
      destruct Hcase as [(_ & _ & ->)|(_ & delta & s & _ & _ & _ & _ & _ & _ & _
                                       & Hd1 & Hm1 & Hl1)].
      * repeat split; assumption.
      * repeat split; congruence.
    + injection H as _ <-. apply main_step_raise in Hstep. subst p1.
      repeat split.
Qed.

Lemma main_cases (env : environment) (p p' : process) (r : result unit) :
  main env p = (r, p') -> main_outcome env p r p'.
Proof.
  unfold main, mbind. rewrite get_counters_eq.
  destruct (has_table "counters" (work (conn p))) eqn:Ht.
  - destruct (main_loop env (counters (work (conn p))) [] p)
      as [[report|e] p1] eqn:Hloop.
    + destruct report as [|entry report]; simpl.
      * unfold ret, conn_commit. intros [= <- <-].
        eapply NothingToReport; [|exact Hloop].
        rewrite get_counters_eq, Ht. reflexivity.
      * destruct (send_mail env (entry :: report) p1) as [[[]|e] p2] eqn:Hsend.
        -- unfold conn_commit. intros [= <- <-].
           eapply Delivered; [| exact Hloop | discriminate | exact Hsend].
           rewrite get_counters_eq, Ht. reflexivity.
        -- intros [= <- <-].
           eapply DeliveryRaised; [| exact Hloop | discriminate | exact Hsend].
           rewrite get_counters_eq, Ht. reflexivity.
    + intros [= <- <-]. eapply LoopRaised; [|exact Hloop].
      rewrite get_counters_eq, Ht. reflexivity.
  - intros [= <- <-]. apply NoCounters. exact Ht.
Qed.

Lemma main_raise_disk (env : environment) (p p' : process) (e : exn) :
  main env p = (Raise e, p') ->
  disk (conn p') = disk (conn p) /\ file_mode (conn p') = file_mode (conn p).
Proof.
  intros H. apply main_cases in H. inversion H; subst.
  - split; reflexivity.
  - match goal with Hl : main_loop _ _ _ _ = _ |- _ =>
      apply main_loop_disk in Hl as (Hd & Hm & _) end.
    split; assumption.
  - match goal with
    | Hl : main_loop _ _ _ _ = _, Hs : send_mail _ _ _ = _ |- _ =>
        apply send_mail_requests in Hs as (Hc & _);
        apply main_loop_disk in Hl as (Hd & Hm & _)
    end.
    rewrite Hc. split; assumption.
Qed.

(** C4: a run of [main] that ends with an exception, whichever it is, leaves
    in the database file the content it had before the run; a file that
    existed is left exactly as it was. *)
Theorem failed_run_persists_nothing (env : environment) (f : option db_file)
    (e : exn) (f' : db_file) (log : list request) :
  run_process (main env) f = (Raise e, f', log) ->
  content f' = stored f /\ (forall f0, f = Some f0 -> f' = f0).
Proof.
  unfold run_process.
  destruct (main env (mk_process (get_connection f) [])) as [r p'] eqn:Hmain.
  intros [= -> <- <-].
  apply main_raise_disk in Hmain as [Hd Hm]. simpl in Hd, Hm.
  split.
  - simpl. rewrite Hd. destruct f as [f0|]; reflexivity.
  - intros f0 ->. simpl in Hd, Hm. rewrite Hd, Hm. destruct f0; reflexivity.
Qed.

(** The run of [failing_env]: bank 0 rises from 10 to 15 and its sample is
    recorded in the transaction; then the file of bank 1 cannot be opened. *)
Lemma failed_run_persists_nothing_witness :
  exists p',
    main failing_env example_process = (Raise OSError, p')
    /\ map count (counter_counts (work (conn p'))) = [SqlInt 7; SqlInt 10; SqlInt 15]
    /\ run_process (main failing_env) (Some example_file)
       = (Raise OSError, example_file, [])
    /\ content example_file = stored (Some example_file).
Proof.
  eexists. split; [lazy; reflexivity|]. split; [reflexivity|].
  split; [vm_compute; reflexivity|].
  exact (proj1 (failed_run_persists_nothing failing_env (Some example_file)
                  OSError example_file [] eq_refl)).
Defined.

(** With credentials that load, [send_mail] hands one message to the server
    when every step before that succeeds, and none when one of them fails. *)
Lemma send_mail_message (env : environment) (report : list report_entry)
    (p p' : process) (r : result unit) (d : json) :
  credentials_loaded env d ->
  send_mail env report p = (r, p') ->
  exists reqs,
    mail_log p' = mail_log p ++ OpenCredentials :: reqs
    /\ (forall msg, message_ready env d report msg -> messages_of reqs = [msg])
    /\ ((forall msg, ~ message_ready env d report msg) -> messages_of reqs = []).
Proof.
  intros (text & Hfile & Hload & _).
  unfold send_mail, mbind, lift, smtp_do, load_credentials. rewrite Hfile, Hload.
  intros H. cbv beta iota zeta in H.
  repeat split_step; injection H as <- <-; cbn [mail_log conn];
    rewrite <- ?app_assoc; cbn [app];
    (eexists; split; [reflexivity|]); cbn [messages_of];
    (split;
     [ intros msg (host & port & user & password & to & lines
                   & H1 & H2 & H3 & H4 & H5 & H6 & H7 & H8 & H9 & ->);
       congruence
     | intros Hno;
       first [ reflexivity
             | exfalso; eapply Hno; do 6 eexists; repeat split; eassumption ] ]).
Qed.

Lemma send_mail_without_credentials (env : environment) (report : list report_entry)
    (p p' : process) (r : result unit) :
  credentials_file env = Missing \/ credentials_file env = Undecodable ->
  send_mail env report p = (r, p') ->
  mail_log p' = mail_log p ++ [OpenCredentials].
Proof.
  unfold send_mail, mbind, load_credentials.
  intros [H|H]; rewrite H; intros [= _ <-]; reflexivity.
Qed.

(** C6, as amended: a run asks for the credentials file, the first step of
    delivery, exactly when its loop completes with a report that is not
    empty; the run hands the mail server at most one message, and one when
    it asks for delivery and ends without an exception; a message has the
    subject "Linux healthcheck report" and one text part, the lines
    "<name>: <delta>" of the report entries, in their order, joined by line
    feeds.  Without a credentials file that can be read no message is handed
    over; with credentials that load, exactly one is when every step before
    it succeeds, and none is when one of them fails. *)
Theorem delivery_of_report (env : environment) (p p' : process) (r : result unit) :
  main env p = (r, p') ->
  exists reqs,
    mail_log p' = mail_log p ++ reqs
    /\ (In OpenCredentials reqs <->
        exists rows report p1,
          get_counters env p = (Ok rows, p)
          /\ main_loop env rows [] p = (Ok report, p1)
          /\ report <> [])
    /\ (messages_of reqs = []
        \/ exists rows report p1 lines from to,
             get_counters env p = (Ok rows, p)
             /\ main_loop env rows [] p = (Ok report, p1)
             /\ Forall2 (fun e l => format_entry e = Ok l) report lines
             /\ messages_of reqs
                = [mk_message from to "Linux healthcheck report" [join_lines lines]])
    /\ (r = Ok tt -> In OpenCredentials reqs -> messages_of reqs <> [])
    /\ (credentials_file env = Missing \/ credentials_file env = Undecodable ->
        messages_of reqs = [])
    /\ (forall d rows report p1,
          credentials_loaded env d ->
          get_counters env p = (Ok rows, p) ->
          main_loop env rows [] p = (Ok report, p1) ->
          report <> [] ->
          (forall msg, message_ready env d report msg -> messages_of reqs = [msg])
          /\ ((forall msg, ~ message_ready env d report msg) ->
              messages_of reqs = [])).
Proof.
  intros H. apply main_cases in H.
  destruct H as [Ht | rows e p1 Hg Hl | rows p1 Hg Hl
                | rows report p1 e p2 Hg Hl Hne Hs | rows report p1 p2 Hg Hl Hne Hs].
  - exists []. rewrite app_nil_r. split; [reflexivity|].
    split; [|split; [|split; [|split]]].
    + split; [intros []|]. intros (rows & report & p1 & Hg & _).
      rewrite get_counters_eq, Ht in Hg. discriminate Hg.
    + left. reflexivity.
    + intros _ [].
    + reflexivity.
    + intros d rows report p1 _ Hg. rewrite get_counters_eq, Ht in Hg. discriminate Hg.
  - pose proof (main_loop_disk _ _ _ _ _ _ Hl) as (_ & _ & Hlog).
    exists []. rewrite app_nil_r. split; [exact Hlog|].
    split; [|split; [|split; [|split]]].
    + split; [intros []|]. intros (rows' & report & p2 & Hg' & Hl' & _).
      rewrite Hg in Hg'. injection Hg' as <-. rewrite Hl in Hl'. discriminate Hl'.
    + left. reflexivity.
    + intros _ [].
    + reflexivity.
    + intros d rows' report p2 _ Hg' Hl'.
      rewrite Hg in Hg'. injection Hg' as <-. rewrite Hl in Hl'. discriminate Hl'.
  - pose proof (main_loop_disk _ _ _ _ _ _ Hl) as (_ & _ & Hlog).
    exists []. rewrite app_nil_r. split; [exact Hlog|].
    split; [|split; [|split; [|split]]].
    + split; [intros []|]. intros (rows' & report & p2 & Hg' & Hl' & Hne).
      rewrite Hg in Hg'. injection Hg' as <-. rewrite Hl in Hl'.
      injection Hl' as <- _. contradiction.
    + left. reflexivity.
    + intros _ [].
    + reflexivity.
    + intros d rows' report p2 _ Hg' Hl' Hne.
      rewrite Hg in Hg'. injection Hg' as <-. rewrite Hl in Hl'.
      injection Hl' as <- _. contradiction.
  - pose proof (main_loop_disk _ _ _ _ _ _ Hl) as (_ & _ & Hlog).
    pose proof Hs as Hs'.
    apply send_mail_requests in Hs' as (_ & reqs & Hreqs & Hmsg & _).
    exists (OpenCredentials :: reqs). rewrite Hreqs, Hlog.
    split; [reflexivity|]. split; [|split; [|split; [|split]]].
    + split; [|intros _; left; reflexivity].
      intros _. exists rows, report, p1. repeat split; assumption.
    + destruct Hmsg as [Hm|(lines & from & to & Hf & Hm)]; [left; exact Hm|].
      right. exists rows, report, p1, lines, from, to. repeat split; assumption.
    + intros Hr. discriminate Hr.
    + intros Hno. apply (send_mail_without_credentials _ _ _ _ _ Hno) in Hs.
      rewrite Hreqs in Hs. apply app_inv_head in Hs. injection Hs as ->. reflexivity.
    + intros d rows' report' p1' Hd Hg' Hl' _.
      rewrite Hg in Hg'. injection Hg' as <-. rewrite Hl in Hl'. injection Hl' as <- _.
      destruct (send_mail_message _ _ _ _ _ _ Hd Hs) as (reqs' & Hreqs' & Hone & Hnone).
      rewrite Hreqs in Hreqs'. apply app_inv_head in Hreqs'. injection Hreqs' as <-.
      split; assumption.
  - pose proof (main_loop_disk _ _ _ _ _ _ Hl) as (_ & _ & Hlog).
    pose proof Hs as Hs'.
    apply send_mail_requests in Hs' as (_ & reqs & Hreqs & Hmsg & Hsent).
    exists (OpenCredentials :: reqs). simpl. rewrite Hreqs, Hlog.
    split; [reflexivity|]. split; [|split; [|split; [|split]]].
    + split; [|intros _; left; reflexivity].
      intros _. exists rows, report, p1. repeat split; assumption.
    + destruct Hmsg as [Hm|(lines & from & to & Hf & Hm)]; [left; exact Hm|].
      right. exists rows, report, p1, lines, from, to. repeat split; assumption.
    + intros _ _. exact (Hsent tt eq_refl).
    + intros Hno. apply (send_mail_without_credentials _ _ _ _ _ Hno) in Hs.
      rewrite Hreqs in Hs. apply app_inv_head in Hs. injection Hs as ->. reflexivity.
    + intros d rows' report' p1' Hd Hg' Hl' _.
      rewrite Hg in Hg'. injection Hg' as <-. rewrite Hl in Hl'. injection Hl' as <- _.
      destruct (send_mail_message _ _ _ _ _ _ Hd Hs) as (reqs' & Hreqs' & Hone & Hnone).
      rewrite Hreqs in Hreqs'. apply app_inv_head in Hreqs'. injection Hreqs' as <-.
      split; assumption.
Qed.

(** The run of [example_env]: bank 0 rises from 10 to 15, and one message
    goes out. *)
Lemma delivery_of_report_witness :
  exists p' reqs,
    main example_env example_process = (Ok tt, p')
    /\ mail_log p' = mail_log example_process ++ reqs
    /\ messages_of (mail_log p')
       = [mk_message (JString "root@example.org") (JString "ops@example.org")
            "Linux healthcheck report" ["EDAC bank 0: 5"]]
    /\ messages_of reqs <> [].
Proof.
  destruct (main example_env example_process) as [r p'] eqn:Hmain.
  assert (Hr : r = Ok tt) by (vm_compute in Hmain; congruence).
  assert (Hlog : messages_of (mail_log p')
                 = [mk_message (JString "root@example.org") (JString "ops@example.org")
                      "Linux healthcheck report" ["EDAC bank 0: 5"]]).
  { vm_compute in Hmain. injection Hmain as _ <-. reflexivity. }
  destruct (delivery_of_report example_env example_process p' r Hmain)
    as (reqs & Hreqs & Hiff & _ & Hsent & _).
  exists p', reqs. subst r. repeat split; try assumption.
  apply Hsent; [reflexivity|]. apply Hiff.
  eexists. eexists. eexists. split; [reflexivity|]. split; [lazy; reflexivity|].
  discriminate.
Defined.

(** C6, as stated, fails when delivery cannot start: in [no_credentials_env]
    the report of the loop is not empty and delivery is attempted, yet the
    credentials file cannot be opened and no message is composed. *)
Lemma delivery_attempt_without_message :
  exists report p1 p',
    main_loop no_credentials_env [bank0; bank1] [] example_process = (Ok report, p1)
    /\ report <> []
    /\ main no_credentials_env example_process = (Raise OSError, p')
    /\ mail_log p' = [OpenCredentials]
    /\ messages_of (mail_log p') = [].
Proof.
  eexists. eexists. eexists. split; [lazy; reflexivity|].
  split; [discriminate|]. split; [lazy; reflexivity|].
  split; reflexivity.
Qed.

(** ** The sampler *)

Lemma py_int_raises_value_error (s : string) (e : exn) :
  py_int s = Raise e -> e = ValueError.
Proof.
  unfold py_int.
  destruct (match skip_spaces s with
            | String "-" rest => (true, rest)
            | String "+" rest => (false, rest)
            | _ => (false, skip_spaces s)
            end) as [negative s2].
  destruct (scan_digits s2 0 0) as [[[v n] s3]|]; [|congruence].
  destruct n; [congruence|].
  destruct (skip_spaces s3); [|congruence].
  destruct (int_max_str_digits <? S n)%nat; congruence.
Qed.

(** ** The schema *)

Lemma create_schema_once (env : environment) (p : process) :
  schema_prefix (work (conn p)) ->
  distinct_paths (work (conn p)) ->
  exists p',
    create_schema env p = (Ok tt, p')
    /\ sqlite_master (work (conn p')) = schema_objects
    /\ counters (work (conn p')) = counters (work (conn p))
    /\ counter_counts (work (conn p')) = counter_counts (work (conn p))
    /\ mail_log p' = mail_log p
    /\ file_mode (conn p') = file_mode (conn p).
Proof.
  intros [k Hk] Hdup. unfold distinct_paths in Hdup.
  destruct p as [[m d [w|]] log]; simpl in Hk, Hdup |- *.
  - destruct w as [cat cs ccs]. simpl in Hk, Hdup. subst cat.
    destruct k as [|[|[|[|k]]]];
      (eexists; split;
       [ unfold create_schema, execute_all, SCHEMA_SQL, mbind, cursor_execute,
           execute, ret; simpl; rewrite ?Hdup; reflexivity
       | simpl; rewrite ?firstn_nil; repeat split; reflexivity ]).
  - destruct d as [cat cs ccs]. simpl in Hk, Hdup. subst cat.
    destruct k as [|[|[|[|k]]]];
      (eexists; split;
       [ unfold create_schema, execute_all, SCHEMA_SQL, mbind, cursor_execute,
           execute, ret; simpl; rewrite ?Hdup; reflexivity
       | simpl; rewrite ?firstn_nil; repeat split; reflexivity ]).
Qed.

(** C9: on a store of this program, any number of calls of [create_schema],
    one at least, raise nothing and leave the catalog with the two tables and
    the two indexes of the schema, each once, and the rows and the mail log
    as they were. *)
Theorem create_schema_idempotent (env : environment) (n : nat) (p : process) :
  schema_prefix (work (conn p)) ->
  distinct_paths (work (conn p)) ->
  exists p',
    times (S n) (create_schema env) p = (Ok tt, p')
    /\ sqlite_master (work (conn p')) = schema_objects
    /\ NoDup (map obj_name (sqlite_master (work (conn p'))))
    /\ counters (work (conn p')) = counters (work (conn p))
    /\ counter_counts (work (conn p')) = counter_counts (work (conn p))
    /\ mail_log p' = mail_log p.
Proof.
  revert p. induction n as [|n IH]; intros p Hpre Hdup.
  - destruct (create_schema_once env p Hpre Hdup) as (p' & Hrun & Hcat & Hcs & Hcc & Hlog & _).
    exists p'. simpl. rewrite (mbind_ok_eq _ _ _ _ _ Hrun). unfold ret.
    repeat split; try assumption.
    rewrite Hcat. simpl.
    repeat (constructor; [simpl; intuition discriminate|]). constructor.
  - destruct (create_schema_once env p Hpre Hdup) as (p1 & Hrun & Hcat & Hcs & Hcc & Hlog & _).
    destruct (IH p1) as (p' & Hrun' & Hcat' & Hnd & Hcs' & Hcc' & Hlog').
    + exists 4%nat. rewrite Hcat. reflexivity.
    + unfold distinct_paths in *. rewrite Hcs. exact Hdup.
    + exists p'. change (times (S (S n)) (create_schema env))
        with (create_schema env ;;; times (S n) (create_schema env)).
      rewrite (mbind_ok_eq _ _ _ _ _ Hrun).
      repeat split; try assumption; congruence.
Qed.

Lemma create_schema_idempotent_witness :
  exists p',
    times 3 (create_schema example_env) (mk_process (get_connection None) [])
    = (Ok tt, p')
    /\ sqlite_master (work (conn p')) = schema_objects.
Proof.
  destruct (create_schema_idempotent example_env 2
              (mk_process (get_connection None) []))
    as (p' & Hrun & Hcat & _).
  - exists 0%nat. reflexivity.
  - reflexivity.
  - exists p'. split; assumption.
Defined.

(** ** The credentials file *)

Lemma string_app_assoc (a b c : string) : ((a ++ b) ++ c = a ++ (b ++ c))%string.
Proof. induction a as [|x a IH]; simpl; [reflexivity|]. rewrite IH. reflexivity. Qed.

Lemma string_app_nil_r (a : string) : (a ++ "" = a)%string.
Proof. induction a as [|x a IH]; simpl; [reflexivity|]. rewrite IH. reflexivity. Qed.

Lemma snoc_app (acc : string) (c : ascii) (s : string) :
  (snoc acc c ++ s = acc ++ String c s)%string.
Proof. unfold snoc. rewrite string_app_assoc. reflexivity. Qed.

(** Each character comes back from its escape. *)
Lemma jlex_escape_char (c : ascii) (acc rest : string) :
  jlex (JInStr acc) (json_escape_char c ++ rest) = jlex (JInStr (snoc acc c)) rest.
Proof.
  destruct c as [b0 b1 b2 b3 b4 b5 b6 b7].
  destruct b0, b1, b2, b3, b4, b5, b6, b7; reflexivity.
Qed.

Lemma jlex_escape (s : string) : forall (acc rest : string),
  jlex (JInStr acc) (json_escape s ++ String dquote rest)
  = JStr (acc ++ s) :: jlex JStart rest.
Proof.
  induction s as [|c s IH]; intros acc rest.
  - simpl. rewrite string_app_nil_r. reflexivity.
  - simpl json_escape. rewrite string_app_assoc, jlex_escape_char, IH, snoc_app.
    reflexivity.
Qed.

Lemma string_of_uint_digits (u : Decimal.uint) :
  all_digits (NilEmpty.string_of_uint u) = true.
Proof. induction u; simpl; try reflexivity; exact IHu. Qed.

Lemma jlex_digits (ds : string) : forall (lexeme rest : string),
  all_digits ds = true ->
  jlex (JInNum lexeme) (ds ++ rest) = jlex (JInNum (lexeme ++ ds)) rest.
Proof.
  induction ds as [|c ds IH]; intros lexeme rest H; simpl in H |- *.
  - rewrite string_app_nil_r. reflexivity.
  - apply andb_true_iff in H as [Hc Hds].
    unfold is_number_char. rewrite Hc. simpl.
    rewrite IH by exact Hds. rewrite snoc_app. reflexivity.
Qed.

Lemma jlex_number_end (lexeme : string) (c : ascii) (rest : string) :
  is_number_char c = false ->
  jlex (JInNum lexeme) (String c rest) = JNum lexeme :: jlex JStart (String c rest).
Proof.
  intros H. simpl. rewrite H. destruct (jlex_start c) as [toks st']. reflexivity.
Qed.

(** The decimal text of an integer: a digit or a minus sign, then digits. *)
Lemma format_d_int_shape (z : Z) :
  exists a ds, format_d_int z = String a ds
    /\ (is_digit a || Ascii.eqb a "-") = true /\ all_digits ds = true.
Proof.
  unfold format_d_int. destruct z as [|p|p]; simpl.
  - exists "0"%char, EmptyString. repeat split.
  - unfold NilZero.string_of_uint.
    pose proof (Unsigned.to_uint_nonnil p) as Hnn.
    pose proof (string_of_uint_digits (Pos.to_uint p)) as Hd.
    destruct (Pos.to_uint p) eqn:E; try contradiction; simpl in Hd |- *;
      eexists; eexists; (split; [reflexivity|]); (split; [reflexivity|exact Hd]).
  - unfold NilZero.string_of_uint.
    pose proof (Unsigned.to_uint_nonnil p) as Hnn.
    pose proof (string_of_uint_digits (Pos.to_uint p)) as Hd.
    exists "-"%char. eexists. split; [reflexivity|]. split; [reflexivity|].
    destruct (Pos.to_uint p) eqn:E; try contradiction; exact Hd.
Qed.

Lemma jlex_number (z : Z) (c : ascii) (rest : string) :
  is_number_char c = false ->
  jlex JStart (format_d_int z ++ String c rest)
  = JNum (format_d_int z) :: jlex JStart (String c rest).
Proof.
  intros Hc. destruct (format_d_int_shape z) as (a & ds & -> & Ha & Hds).
  assert (Hstart : jlex_start a = ([], JInNum (String a EmptyString))).
  { unfold jlex_start. apply orb_true_iff in Ha as [Ha|Ha].
    - destruct a as [b0 b1 b2 b3 b4 b5 b6 b7].
      destruct b0, b1, b2, b3, b4, b5, b6, b7; try discriminate Ha; reflexivity.
    - apply Ascii.eqb_eq in Ha. subst a. reflexivity. }
  simpl. rewrite Hstart. simpl.
  rewrite (jlex_digits _ _ _ Hds). apply jlex_number_end. exact Hc.
Qed.

Lemma json_int_format (z : Z) : json_int (format_d_int z) = Some z.
Proof.
  unfold json_int, format_d_int.
  rewrite NilZero.isi.
  - rewrite DecimalZ.of_to, String.eqb_refl. reflexivity.
  - destruct z; simpl; try discriminate.
    intros [= H]. exact (Unsigned.to_uint_nonnil _ H).
  - destruct z; simpl; try discriminate.
    intros [= H]. exact (Unsigned.to_uint_nonnil _ H).
Qed.

Lemma jlex_value (v : jvalue) (c : ascii) (rest : string) :
  is_number_char c = false ->
  jlex JStart (json_dump_value v ++ String c rest)
  = value_token v :: jlex JStart (String c rest).
Proof.
  intros Hc. destruct v as [s|z]; unfold json_dump_value.
  - change ((String dquote (json_escape s) ++ String dquote EmptyString)
            ++ String c rest)%string
      with (String dquote ((json_escape s ++ String dquote EmptyString)
                           ++ String c rest))%string.
    rewrite string_app_assoc.
    change (jlex JStart (String dquote
              (json_escape s ++ String dquote EmptyString ++ String c rest)))
      with (jlex (JInStr EmptyString)
              (json_escape s ++ String dquote (String c rest))).
    apply (jlex_escape s EmptyString).
  - apply jlex_number. exact Hc.
Qed.

Lemma json_value_token (v : jvalue) : json_value (value_token v) = Some v.
Proof.
  destruct v as [s|z]; simpl; [reflexivity|].
  rewrite json_int_format. reflexivity.
Qed.

Lemma jlex_key (k : string) (rest : string) :
  jlex JStart (json_dump_value (JString k) ++ ": " ++ rest)
  = JStr k :: JColon :: jlex JStart rest.
Proof.
  unfold json_dump_value.
  change ((String dquote (json_escape k) ++ String dquote EmptyString)
          ++ ": " ++ rest)%string
    with (String dquote ((json_escape k ++ String dquote EmptyString)
                         ++ String ":" (String " " rest)))%string.
  rewrite string_app_assoc.
  change (jlex JStart (String dquote
            (json_escape k ++ String dquote EmptyString
             ++ String ":" (String " " rest))))
    with (jlex (JInStr EmptyString)
            (json_escape k ++ String dquote (String ":" (String " " rest)))).
  rewrite (jlex_escape k EmptyString). reflexivity.
Qed.

Lemma jlex_items (d : list (string * jvalue)) (rest : string) :
  jlex JStart (json_dump_items d ++ String "}" rest)
  = member_tokens d ++ JRBrace :: jlex JStart rest.
Proof.
  induction d as [|[k v] d IH].
  - reflexivity.
  - destruct d as [|kv d'].
    + cbn [json_dump_items member_tokens].
      rewrite !string_app_assoc, jlex_key, jlex_value by reflexivity.
      reflexivity.
    + change (json_dump_items ((k, v) :: kv :: d'))
        with (json_dump_value (JString k) ++ ": " ++ json_dump_value v ++ ", "
              ++ json_dump_items (kv :: d'))%string.
      change (member_tokens ((k, v) :: kv :: d'))
        with (JStr k :: JColon :: value_token v :: JComma :: member_tokens (kv :: d')).
      rewrite !string_app_assoc, jlex_key.
      change (", " ++ json_dump_items (kv :: d') ++ String "}" rest)%string
        with (String "," (" " ++ json_dump_items (kv :: d') ++ String "}" rest))%string.
      rewrite jlex_value by reflexivity.
      change (jlex JStart (String "," (" " ++ json_dump_items (kv :: d') ++ String "}" rest)))
        with (JComma :: jlex JStart (json_dump_items (kv :: d') ++ String "}" rest)).
      rewrite IH. reflexivity.
Qed.

Lemma json_members_tokens (d : list (string * jvalue)) :
  d <> [] -> json_members (member_tokens d ++ [JRBrace]) = Some d.
Proof.
  induction d as [|[k v] d IH]; intros Hne; [contradiction|].
  destruct d as [|kv d'].
  - simpl. rewrite json_value_token. reflexivity.
  - change (member_tokens ((k, v) :: kv :: d') ++ [JRBrace])
      with (JStr k :: JColon :: value_token v :: JComma
            :: (member_tokens (kv :: d') ++ [JRBrace])).
    cbn [json_members]. rewrite json_value_token, IH by discriminate.
    reflexivity.
Qed.

(** What [json.dump] writes of a dictionary, [json.load] reads back. *)
Lemma json_load_dump (d : list (string * jvalue)) :
  json_load (json_dump d) = Ok (JObject d).
Proof.
  unfold json_load, json_dump.
  change (jlex JStart ("{" ++ json_dump_items d ++ "}"))
    with (JLBrace :: jlex JStart (json_dump_items d ++ String "}" EmptyString)).
  rewrite jlex_items. simpl jlex.
  destruct d as [|[k v] d]; [reflexivity|].
  rewrite json_members_tokens by discriminate.
  destruct d as [|kv d']; reflexivity.
Qed.

(** C7: the five values that [write_credentials_file] puts in the file are
    the values that [send_mail] finds there: the text loads as a dictionary
    whose entries under the five keys are the server, the port, the sender,
    the recipient and the password that were written. *)
Theorem credentials_round_trip (args : credentials_args) (password : string)
    (files : string -> file_state) (clock : nat -> Z) (accepts : request -> bool)
    (p : process) :
  let env := mk_environment files clock
               (write_credentials_file args password) accepts in
  exists d p',
    load_credentials env p = (Ok d, p')
    /\ subscript d "smtp_server" = Ok (JString (smtp_server args))
    /\ subscript d "smtp_port" = Ok (JInt (smtp_port args))
    /\ subscript d "sender" = Ok (JString (sender args))
    /\ subscript d "recipient" = Ok (JString (recipient args))
    /\ subscript d "password" = Ok (JString password).
Proof.
  intros env. unfold load_credentials. subst env. simpl credentials_file.
  unfold write_credentials_file. rewrite json_load_dump.
  eexists. eexists. split; [reflexivity|]. repeat split.
Qed.

(** ** The text of the INSERT *)

Lemma lex_statement_head (path name : string) :
  lex LStart (ADD_COUNTER_SQL path name)
  = insert_counter_head
    ++ TLParen :: lex (LString EmptyString) (path ++ "', '" ++ name ++ "');" ++ newline)%string.
Proof. reflexivity. Qed.

Lemma lex_literal_body (s : string) : forall (acc rest : string),
  contains_char quote s = false ->
  lex (LString acc) (s ++ rest) = lex (LString (acc ++ s)) rest.
Proof.
  induction s as [|c s IH]; intros acc rest H.
  - cbn [append]. rewrite string_app_nil_r. reflexivity.
  - cbn [contains_char] in H. apply orb_false_iff in H as [Hc Hs].
    cbn [append lex lex_step]. rewrite Ascii.eqb_sym, Hc. cbn [app].
    rewrite IH by exact Hs. rewrite snoc_app. reflexivity.
Qed.

Lemma contains_char_app (c : ascii) (a b : string) :
  contains_char c (a ++ b) = contains_char c a || contains_char c b.
Proof.
  induction a as [|x a IH]; cbn [append contains_char]; [reflexivity|].
  rewrite IH, orb_assoc. reflexivity.
Qed.

Lemma prepare_plain (path name : string) :
  contains_char quote path = false -> contains_char quote name = false ->
  contains_char "000"%char path = false -> contains_char "000"%char name = false ->
  prepare_insert_counter (ADD_COUNTER_SQL path name)
  = Ok (InsertOrIgnoreCounter path name).
Proof.
  intros Hqp Hqn Hzp Hzn. unfold prepare_insert_counter.
  assert (Hz : contains_char "000"%char (ADD_COUNTER_SQL path name) = false).
  { unfold ADD_COUNTER_SQL. rewrite !contains_char_app, Hzp, Hzn. reflexivity. }
  rewrite Hz, lex_statement_head.
  rewrite (lex_literal_body path EmptyString) by exact Hqp.
  change (lex (LString ("" ++ path)) ("', '" ++ name ++ "');" ++ newline))
    with (TString path :: TComma :: lex (LString EmptyString) (name ++ "');" ++ newline)).
  rewrite (lex_literal_body name EmptyString) by exact Hqn.
  reflexivity.
Qed.

Lemma string_app_inv_head (a u v : string) : (a ++ u = a ++ v)%string -> u = v.
Proof.
  induction a as [|x a IH]; cbn [append]; intros H; [exact H|].
  injection H as H. apply IH. exact H.
Qed.

Lemma string_app_not_longer (a u : string) (c : ascii) :
  a <> (a ++ String c u)%string.
Proof.
  intros H. rewrite <- (string_app_nil_r a) in H at 1.
  apply string_app_inv_head in H. discriminate H.
Qed.

(** The first token read inside a literal is the literal, which starts with
    what was read of it so far, unless the literal never ends. *)
Lemma lex_in_literal_first (text : string) :
  forall acc,
    ((exists w, hd_error (lex (LString acc) text) = Some (TString (acc ++ w)))
     \/ hd_error (lex (LString acc) text) = Some TUnterminated)
    /\ ((exists w, hd_error (lex (LStringQuote acc) text) = Some (TString (acc ++ w)))
        \/ hd_error (lex (LStringQuote acc) text) = Some TUnterminated).
Proof.
  induction text as [|c text IH]; intros acc.
  - split; [right; reflexivity|].
    left. exists EmptyString. rewrite string_app_nil_r. reflexivity.
  - split.
    + cbn [lex lex_step]. destruct (Ascii.eqb c quote).
      * cbn [app]. apply IH.
      * cbn [app]. destruct (proj1 (IH (snoc acc c))) as [[w Hw]|Hu].
        -- left. exists (String c w). rewrite Hw, snoc_app. reflexivity.
        -- right. exact Hu.
    + cbn [lex lex_step]. destruct (Ascii.eqb c quote).
      * cbn [app]. destruct (proj1 (IH (snoc acc quote))) as [[w Hw]|Hu].
        -- left. exists (String quote w). rewrite Hw, snoc_app. reflexivity.
        -- right. exact Hu.
      * left. exists EmptyString. rewrite string_app_nil_r.
        destruct (lex_start c) as [toks st']. reflexivity.
Qed.

Lemma quotes_comm (k : nat) (s : string) :
  (quotes k ++ String quote s = String quote (quotes k ++ s))%string.
Proof.
  induction k as [|k IH]; cbn [quotes append]; [reflexivity|].
  rewrite IH. reflexivity.
Qed.

Lemma lex_doubled_quote (acc rest : string) :
  lex (LString acc) (String quote (String quote rest))
  = lex (LString (snoc acc quote)) rest.
Proof. cbn [lex lex_step]. rewrite Ascii.eqb_refl. cbn [app lex lex_step].
  rewrite Ascii.eqb_refl. reflexivity. Qed.

Lemma lex_literal_char (acc : string) (a : ascii) (rest : string) :
  Ascii.eqb a quote = false ->
  lex (LString acc) (String a rest) = lex (LString (snoc acc a)) rest.
Proof. intros Ha. cbn [lex lex_step]. rewrite Ha. reflexivity. Qed.

Lemma lex_lone_quote (acc : string) (a : ascii) (rest : string) :
  Ascii.eqb a quote = false ->
  exists toks, lex (LString acc) (String quote (String a rest)) = TString acc :: toks.
Proof.
  intros Ha. cbn [lex lex_step]. rewrite Ascii.eqb_refl. cbn [app lex lex_step].
  rewrite Ha. destruct (lex_start a) as [toks st']. eexists. reflexivity.
Qed.

Section AfterTheText.

(** What follows the interpolated text in the template: the closing quote,
    then a character that is not a quote. *)
Variables (c : ascii) (t : string).
Hypothesis c_not_quote : Ascii.eqb c quote = false.

Let closing : string := String quote (String c t).

(** Inside a literal, a text of quotes followed by [x] is never read back
    from [x] alone. *)
Lemma literal_not_with_quotes (x : string) :
  (forall acc k,
      hd_error (lex (LString acc) (x ++ closing))
      <> Some (TString (acc ++ quotes (S k) ++ x)))
  /\ (forall acc k,
      hd_error (lex (LString acc) (String quote x ++ closing))
      <> Some (TString (acc ++ quotes (S k) ++ String quote x))).
Proof.
  induction x as [|a x [IH1 IH2]].
  - split; intros acc k.
    + cbn [append]. unfold closing.
      destruct (lex_lone_quote acc c t c_not_quote) as [toks ->].
      cbn [hd_error quotes append].
      intros [= H]. exact (string_app_not_longer _ _ _ H).
    + cbn [append]. unfold closing.
      rewrite lex_doubled_quote, (lex_literal_char _ _ _ c_not_quote).
      destruct (proj1 (lex_in_literal_first t (snoc (snoc acc quote) c))) as [[w Hw]|Hu].
      * rewrite Hw. rewrite !snoc_app. intros [= H].
        apply string_app_inv_head in H. cbn [quotes append] in H.
        injection H as H. destruct k; cbn [quotes append] in H.
        -- injection H as H _. subst c. discriminate c_not_quote.
        -- injection H as H _. subst c. discriminate c_not_quote.
      * rewrite Hu. discriminate.
  - split; intros acc k.
    + destruct (Ascii.eqb a quote) eqn:Ha.
      * apply Ascii.eqb_eq in Ha. subst a. apply IH2.
      * cbn [append]. rewrite (lex_literal_char _ _ _ Ha).
        destruct (proj1 (lex_in_literal_first (x ++ closing) (snoc acc a))) as [[w Hw]|Hu].
        -- rewrite Hw, snoc_app. intros [= H].
           apply string_app_inv_head in H. cbn [quotes append] in H.
           injection H as H _. subst a. discriminate Ha.
        -- rewrite Hu. discriminate.
    + destruct (Ascii.eqb a quote) eqn:Ha.
      * apply Ascii.eqb_eq in Ha. subst a.
        cbn [append]. rewrite lex_doubled_quote.
        intros H. apply (IH1 (snoc acc quote) (S k)).
        rewrite H. f_equal. f_equal. rewrite snoc_app.
        cbn [quotes append]. rewrite !quotes_comm. reflexivity.
      * cbn [append]. destruct (lex_lone_quote acc a (x ++ closing) Ha) as [toks ->].
        cbn [hd_error quotes append]. intros [= H].
        exact (string_app_not_longer _ _ _ H).
Qed.

(** Inside a literal, a text that starts with a quote is never read back. *)
Lemma literal_not_text (x : string) (acc : string) :
  hd_error (lex (LString acc) (String quote x ++ closing))
  <> Some (TString (acc ++ String quote x)).
Proof.
  destruct x as [|a x].
  - cbn [append]. unfold closing.
    rewrite lex_doubled_quote, (lex_literal_char _ _ _ c_not_quote).
    destruct (proj1 (lex_in_literal_first t (snoc (snoc acc quote) c))) as [[w Hw]|Hu].
    + rewrite Hw, !snoc_app. intros [= H].
      apply string_app_inv_head in H. discriminate H.
    + rewrite Hu. discriminate.
  - destruct (Ascii.eqb a quote) eqn:Ha.
    + apply Ascii.eqb_eq in Ha. subst a.
      cbn [append]. rewrite lex_doubled_quote.
      intros H. apply (proj1 (literal_not_with_quotes x) (snoc acc quote) 0%nat).
      rewrite H. rewrite snoc_app. reflexivity.
    + cbn [append]. destruct (lex_lone_quote acc a (x ++ closing) Ha) as [toks ->].
      cbn [hd_error]. intros [= H]. exact (string_app_not_longer _ _ _ H).
Qed.

End AfterTheText.

Lemma first_quote (s : string) :
  contains_char quote s = true ->
  exists u v, s = (u ++ String quote v)%string /\ contains_char quote u = false.
Proof.
  induction s as [|a s IH]; cbn [contains_char]; intros H; [discriminate|].
  destruct (Ascii.eqb quote a) eqn:Ha.
  - apply Ascii.eqb_eq in Ha. subst a. exists EmptyString, s. split; reflexivity.
  - destruct (IH H) as (u & v & -> & Hu).
    exists (String a u), v. split; [reflexivity|].
    cbn [contains_char]. rewrite Ha, Hu. reflexivity.
Qed.

(** A text with a quote in it, put between the quotes of the template, is
    not the literal that SQLite reads there. *)
Lemma interpolated_literal_differs (s : string) (c : ascii) (t : string) :
  contains_char quote s = true ->
  Ascii.eqb c quote = false ->
  hd_error (lex (LString EmptyString) (s ++ String quote (String c t)))
  <> Some (TString s).
Proof.
  intros Hs Hc. destruct (first_quote s Hs) as (u & v & -> & Hu).
  rewrite string_app_assoc, (lex_literal_body u EmptyString) by exact Hu.
  apply (literal_not_text c t Hc v).
Qed.

(** ** Registration *)

Lemma lex_path_position (path name : string) (rest : list token) :
  contains_char quote path = true ->
  lex LStart (ADD_COUNTER_SQL path name)
  <> insert_counter_head ++ TLParen :: TString path :: rest.
Proof.
  intros Hq H. rewrite lex_statement_head in H.
  apply app_inv_head in H. injection H as H.
  apply (interpolated_literal_differs path ","%char
           (" '" ++ name ++ "');" ++ newline)%string Hq eq_refl).
  exact (f_equal (@hd_error token) H).
Qed.

Lemma lex_name_position (path name : string) (rest : list token) :
  contains_char quote path = false ->
  contains_char quote name = true ->
  lex LStart (ADD_COUNTER_SQL path name)
  <> insert_counter_head
     ++ TLParen :: TString path :: TComma :: TString name :: rest.
Proof.
  intros Hp Hq H. rewrite lex_statement_head in H.
  apply app_inv_head in H. injection H as H.
  rewrite (lex_literal_body path EmptyString) in H by exact Hp.
  change (lex (LString ("" ++ path)) ("', '" ++ name ++ "');" ++ newline))
    with (TString path :: TComma
          :: lex (LString EmptyString) (name ++ "');" ++ newline)) in H.
  injection H as H.
  apply (interpolated_literal_differs name ")"%char (";" ++ newline)%string Hq eq_refl).
  exact (f_equal (@hd_error token) H).
Qed.

(** C10: a path or a name with a single quote in it is not what SQLite reads
    between the quotes of the template, whatever the rest of the input; and
    registrations of such inputs go wrong at [new_counter]: a quote in the
    path or in the name makes the statement a syntax error and nothing is
    registered, a doubled quote in the path registers another path, and a
    name that closes its literal and opens another is registered as the
    two joined. *)
Theorem quoted_input_not_registered (env : environment) :
  (forall path name rest,
      contains_char quote path = true ->
      lex LStart (ADD_COUNTER_SQL path name)
      <> insert_counter_head ++ TLParen :: TString path :: rest)
  /\ (forall path name rest,
      contains_char quote path = false ->
      contains_char quote name = true ->
      lex LStart (ADD_COUNTER_SQL path name)
      <> insert_counter_head
         ++ TLParen :: TString path :: TComma :: TString name :: rest)
  /\ (exists f,
      run_process (new_counter env "/mnt/bob's disk/errors" "Disk") None
      = (Raise OperationalError, f, [])
      /\ counters (content f) = [])
  /\ (exists f,
      run_process (new_counter env "/mnt/disk/errors" "Bob's disk") None
      = (Raise OperationalError, f, [])
      /\ counters (content f) = [])
  /\ (exists f,
      run_process (new_counter env "/mnt/bob''s disk/errors" "Disk") None
      = (Ok tt, f, [])
      /\ counters (content f) = [mk_counter 1 "/mnt/bob's disk/errors" "Disk"])
  /\ (exists f,
      run_process (new_counter env "/mnt/disk/errors" "Bob' || 's disk") None
      = (Ok tt, f, [])
      /\ counters (content f) = [mk_counter 1 "/mnt/disk/errors" "Bobs disk"]).
Proof.
  split; [exact lex_path_position|].
  split; [exact lex_name_position|].
  repeat split; eexists; (split; [lazy; reflexivity|reflexivity]).
Qed.

Lemma quoted_input_not_registered_witness :
  contains_char quote "it's" = true
  /\ lex LStart (ADD_COUNTER_SQL "it's" "n")
     <> insert_counter_head ++ [TLParen; TString "it's"].
Proof.
  split; [reflexivity|].
  apply (proj1 (quoted_input_not_registered example_env)). reflexivity.
Defined.

(** C5 at a path with a quote in it: the first registration raises, and so
    does the second; the schema is there and no counter is. *)
Theorem register_quoted_path_twice (env : environment) :
  exists f,
    run_process (new_counter env "/data/o'brien/errors" "first") None
    = (Raise OperationalError, f, [])
    /\ run_process (new_counter env "/data/o'brien/errors" "second") (Some f)
       = (Raise OperationalError, f, [])
    /\ sqlite_master (content f) = schema_objects
    /\ counters (content f) = [].
Proof.
  eexists. split; [lazy; reflexivity|]. split; [lazy; reflexivity|].
  split; reflexivity.
Qed.

(** ** Registration of inputs without quotes *)

Lemma has_duplicate_snoc (l : list string) (x : string) :
  has_duplicate (l ++ [x]) = has_duplicate l || existsb (fun a => String.eqb a x) l.
Proof.
  induction l as [|a l IH]; simpl; [reflexivity|].
  rewrite existsb_app, IH. simpl. rewrite orb_false_r.
  destruct (existsb (String.eqb a) l), (String.eqb a x), (has_duplicate l);
    reflexivity.
Qed.

Lemma existsb_path (p : string) (l : list counter_row) :
  existsb (fun a => String.eqb a p) (map path l)
  = existsb (fun r => String.eqb (path r) p) l.
Proof. induction l as [|r l IH]; simpl; [reflexivity|]. rewrite IH. reflexivity. Qed.

(** A rowid given by the table is new in the table. *)
Lemma next_rowid_fresh (ids : list Z) : ~ In (next_rowid ids) ids.
Proof.
  assert (Hmax : forall i rest x, In x (i :: rest) -> x <= fold_right Z.max i rest).
  { intros i rest. induction rest as [|y rest IH]; simpl; intros x Hx.
    - destruct Hx as [->|[]]. lia.
    - pose proof (IH i (or_introl eq_refl)) as Hi.
      destruct Hx as [->|[->|Hx]].
      + lia.
      + lia.
      + pose proof (IH x (or_intror Hx)). lia. }
  destruct ids as [|i rest]; [intros []|].
  intros Hin. apply Hmax in Hin. unfold next_rowid in Hin. lia.
Qed.

(** The INSERT of a registration keeps the ids of the counters distinct and,
    under the unique index, their paths too. *)
Lemma insert_or_ignore_counter_keeps (p n : string) (db db' : database) :
  insert_or_ignore_counter p n db = Ok db' ->
  (NoDup (map counter_id (counters db)) -> NoDup (map counter_id (counters db')))
  /\ (has_unique_index "counters" "path" db = true ->
      distinct_paths db -> distinct_paths db').
Proof.
  unfold insert_or_ignore_counter, distinct_paths.
  destruct (has_table "counters" db); simpl; [|discriminate].
  destruct (has_unique_index "counters" "path" db) eqn:Hi; simpl.
  - destruct (existsb (fun r => String.eqb (path r) p) (counters db)) eqn:He;
      intros [= <-]; simpl.
    + split; [tauto|]. intros _ H. exact H.
    + split.
      * intros Hnd. rewrite map_app. simpl.
        apply NoDup_app; [exact Hnd | repeat constructor; intros [] | ].
        intros x Hx [<-|[]]. exact (next_rowid_fresh _ Hx).
      * intros _ Hd. rewrite map_app. simpl.
        rewrite has_duplicate_snoc, Hd, existsb_path, He. reflexivity.
  - intros [= <-]; simpl. split; [|discriminate].
    intros Hnd. rewrite map_app. simpl.
    apply NoDup_app; [exact Hnd | repeat constructor; intros [] | ].
    intros x Hx [<-|[]]. exact (next_rowid_fresh _ Hx).
Qed.

Lemma schema_has_counters (db : database) :
  sqlite_master db = schema_objects ->
  has_table "counters" db = true /\ has_unique_index "counters" "path" db = true.
Proof.
  unfold has_table, has_unique_index, find_object. intros ->. split; reflexivity.
Qed.

(** A registration whose path and name hold no quote and no null character:
    the schema is made, the statement is the INSERT of the path and the name,
    and the row is added unless the path is there. *)
Lemma new_counter_plain (env : environment) (p0 : process) (pth nm : string) :
  contains_char quote pth = false -> contains_char quote nm = false ->
  contains_char "000"%char pth = false -> contains_char "000"%char nm = false ->
  schema_prefix (work (conn p0)) ->
  distinct_paths (work (conn p0)) ->
  exists p',
    new_counter env pth nm p0 = (Ok tt, p')
    /\ pending (conn p') = None
    /\ file_mode (conn p') = file_mode (conn p0)
    /\ mail_log p' = mail_log p0
    /\ sqlite_master (disk (conn p')) = schema_objects
    /\ counter_counts (disk (conn p')) = counter_counts (work (conn p0))
    /\ counters (disk (conn p'))
       = if existsb (fun r => String.eqb (path r) pth) (counters (work (conn p0)))
         then counters (work (conn p0))
         else counters (work (conn p0))
              ++ [mk_counter (next_rowid (map counter_id (counters (work (conn p0)))))
                    pth nm].
Proof.
  intros Hq1 Hq2 Hz1 Hz2 Hpre Hdup.
  destruct (create_schema_once env p0 Hpre Hdup)
    as (p1 & Hrun & Hcat & Hcs & Hcc & Hlog & Hmode).
  destruct (schema_has_counters _ Hcat) as [Ht Hi].
  unfold new_counter. rewrite (mbind_ok_eq _ _ _ _ _ Hrun).
  unfold add_counter, mbind, lift. rewrite (prepare_plain pth nm Hq1 Hq2 Hz1 Hz2).
  unfold cursor_execute, execute. simpl run_statement.
  unfold insert_or_ignore_counter. rewrite Ht, Hi, Hcs. simpl negb. simpl andb.
  destruct (existsb (fun r => String.eqb (path r) pth) (counters (work (conn p0))));
    simpl; unfold ret, conn_commit, commit;
    destruct p1 as [[m d [w|]] log]; simpl in *;
    eexists; (split; [reflexivity|]); simpl; repeat split; try assumption;
    try congruence.
Qed.

Lemma work_get_connection (f : option db_file) :
  work (get_connection f) = stored f.
Proof. destruct f; reflexivity. Qed.

Lemma filter_none {A : Type} (g : A -> bool) (l : list A) :
  existsb g l = false -> filter g l = [].
Proof.
  induction l as [|a l IH]; simpl; [reflexivity|].
  destruct (g a); simpl; [discriminate|exact IH].
Qed.

(** X1: where the quoting of the template holds, registration does what C5
    says: registering a path that is not registered yet, twice, with names and
    a path that hold no quote and no null character, leaves one row for the
    path, with the first name. *)
Lemma register_plain_path_twice (env : environment) (f : option db_file)
    (pth name1 name2 : string) :
  contains_char quote pth = false -> contains_char "000"%char pth = false ->
  contains_char quote name1 = false -> contains_char "000"%char name1 = false ->
  contains_char quote name2 = false -> contains_char "000"%char name2 = false ->
  schema_prefix (stored f) ->
  distinct_paths (stored f) ->
  existsb (fun r => String.eqb (path r) pth) (counters (stored f)) = false ->
  exists f1 f2 id,
    run_process (new_counter env pth name1) f = (Ok tt, f1, [])
    /\ run_process (new_counter env pth name2) (Some f1) = (Ok tt, f2, [])
    /\ counters (content f2) = counters (content f1)
    /\ filter (fun r => String.eqb (path r) pth) (counters (content f2))
       = [mk_counter id pth name1].
Proof.
  intros Hq Hz Hq1 Hz1 Hq2 Hz2 Hpre Hdup Hnew.
  destruct (new_counter_plain env (mk_process (get_connection f) []) pth name1
              Hq Hq1 Hz Hz1) as (p1 & Hrun1 & Hpend1 & _ & Hlog1 & Hcat1 & _ & Hcs1).
  { simpl. rewrite work_get_connection. exact Hpre. }
  { simpl. rewrite work_get_connection. exact Hdup. }
  simpl conn in Hcs1. rewrite work_get_connection, Hnew in Hcs1.
  simpl in Hlog1.
  pose (f1 := mk_db_file (file_mode (conn p1)) (disk (conn p1))).
  destruct (new_counter_plain env (mk_process (get_connection (Some f1)) []) pth name2
              Hq Hq2 Hz Hz2) as (p2 & Hrun2 & _ & _ & Hlog2 & _ & _ & Hcs2).
  { exists 4%nat. exact Hcat1. }
  { unfold distinct_paths, f1, work. simpl. rewrite Hcs1, map_app. simpl.
    rewrite has_duplicate_snoc, existsb_path, Hnew.
    unfold distinct_paths in Hdup. rewrite Hdup. reflexivity. }
  unfold f1, work in Hcs2. simpl in Hcs2. simpl in Hlog2.
  assert (Hthere : existsb (fun r => String.eqb (path r) pth) (counters (disk (conn p1)))
                   = true).
  { rewrite Hcs1, existsb_app. simpl. rewrite String.eqb_refl.
    apply orb_true_r. }
  rewrite Hthere in Hcs2.
  exists f1, (mk_db_file (file_mode (conn p2)) (disk (conn p2))),
    (next_rowid (map counter_id (counters (stored f)))).
  unfold run_process. rewrite Hrun1, Hrun2, Hlog1, Hlog2.
  split; [reflexivity|]. split; [reflexivity|].
  simpl. split; [exact Hcs2|].
  rewrite Hcs2, Hcs1, filter_app, (filter_none _ _ Hnew). simpl.
  rewrite String.eqb_refl. reflexivity.
Qed.

(** The two registrations of the path of bank 0 in a new store. *)
Lemma register_plain_path_twice_witness :
  exists f1 f2 id,
    run_process (new_counter example_env (path bank0) "first") None = (Ok tt, f1, [])
    /\ run_process (new_counter example_env (path bank0) "second") (Some f1)
       = (Ok tt, f2, [])
    /\ counters (content f2) = counters (content f1)
    /\ filter (fun r => String.eqb (path r) (path bank0)) (counters (content f2))
       = [mk_counter id (path bank0) "first"].
Proof.
  apply (register_plain_path_twice example_env None (path bank0) "first" "second");
    try reflexivity.
  exists 0%nat. reflexivity.
Defined.

(** ** Recording a sample and reading it back *)

Lemma next_rowid_above (ids : list Z) (i : Z) : In i ids -> i < next_rowid ids.
Proof.
  destruct ids as [|j rest]; [intros []|]. unfold next_rowid.
  revert i. induction rest as [|y rest IH]; simpl; intros i Hi.
  - destruct Hi as [->|[]]. lia.
  - pose proof (IH j (or_introl eq_refl)) as Hj.
    destruct Hi as [->|[->|Hi]]; [lia|lia|].
    pose proof (IH i (or_intror Hi)). lia.
Qed.

Lemma index_ltb_asym (a b : count_row) : index_ltb a b = true -> index_ltb b a = false.
Proof.
  unfold index_ltb. intros H.
  apply orb_true_iff in H as [H|H].
  - apply Z.ltb_lt in H. apply orb_false_iff. split.
    + apply Z.ltb_ge. lia.
    + apply andb_false_iff. left. apply Z.eqb_neq. lia.
  - apply andb_true_iff in H as [Ht Hi]. apply Z.eqb_eq in Ht. apply Z.ltb_lt in Hi.
    apply orb_false_iff. split.
    + apply Z.ltb_ge. lia.
    + apply andb_false_iff. right. apply Z.ltb_ge. lia.
Qed.

(** A row that comes after every other in index order is the newest. *)
Lemma newest_snoc (l : list count_row) (s : count_row) :
  (forall r, In r l -> index_ltb r s = true) -> newest (l ++ [s]) = Some s.
Proof.
  induction l as [|a l IH]; intros H; [reflexivity|].
  simpl. rewrite IH by (intros r Hr; apply H; right; exact Hr).
  rewrite (index_ltb_asym a s) by (apply H; left; reflexivity). reflexivity.
Qed.

Lemma update_counter_eq (env : environment) (id value : Z) (p : process) :
  update_counter env id value p =
  if has_table "counter_counts" (work (conn p))
  then (Ok tt,
        mk_process
          (mk_connection (file_mode (conn p)) (disk (conn p))
             (Some (mk_database (sqlite_master (work (conn p)))
                      (counters (work (conn p)))
                      (counter_counts (work (conn p))
                       ++ [new_sample env (work (conn p)) id value]))))
          (mail_log p))
  else (Raise OperationalError, p).
Proof.
  unfold update_counter, UPDATE_COUNTER_SQL, cursor_execute, mbind, execute, ret.
  simpl run_statement. unfold insert_count, new_sample.
  destruct (has_table "counter_counts" (work (conn p))); simpl.
  - destruct p as [[m d [w|]] log]; reflexivity.
  - destruct p as [[m d [w|]] log]; reflexivity.
Qed.

Lemma schema_has_counter_counts (db : database) :
  sqlite_master db = schema_objects -> has_table "counter_counts" db = true.
Proof. unfold has_table, find_object. intros ->. reflexivity. Qed.

(** The row that [update_counter] inserts is the newest of its counter when
    the clock is not behind the samples of the counter. *)
Lemma new_sample_newest (env : environment) (db : database) (id value : Z) :
  (forall r, In r (samples_of id (counter_counts db)) ->
             access_time r <= clock env (List.length (counter_counts db))) ->
  newest (samples_of id (counter_counts db ++ [new_sample env db id value]))
  = Some (new_sample env db id value).
Proof.
  intros Hclock. rewrite samples_of_app.
  rewrite (samples_of_same id (new_sample env db id value) []) by reflexivity.
  apply newest_snoc. intros r Hr.
  pose proof (Hclock r Hr) as Ht.
  apply filter_In in Hr as [Hr _].
  assert (Hid : counter_count_id r < next_rowid (map counter_count_id (counter_counts db))).
  { apply next_rowid_above, in_map, Hr. }
  unfold index_ltb, new_sample. simpl.
  destruct (Z.ltb_spec (access_time r) (clock env (List.length (counter_counts db))));
    [reflexivity|].
  simpl. apply andb_true_iff. split; [apply Z.eqb_eq; lia|apply Z.ltb_lt; exact Hid].
Qed.

(** X2: on a store with the schema, when the clock is not behind the samples
    of a counter, a value within 64 bits that [update_counter] records for
    the counter is what [get_counter] returns for it next, and what
    [get_counter] returns for every other counter is what it returned before.
    The id is a rowid, a 64-bit integer.  No counter need have the id: the
    store does not enforce the reference. *)
Theorem recorded_sample_is_latest (env : environment) (p : process) (id value : Z) :
  sqlite_master (work (conn p)) = schema_objects ->
  fits_int64 id = true ->
  fits_int64 value = true ->
  (forall r, In r (samples_of id (counter_counts (work (conn p)))) ->
             access_time r <= clock env (List.length (counter_counts (work (conn p))))) ->
  exists p1,
    update_counter env id value p = (Ok tt, p1)
    /\ get_counter env id p1 = (Ok (PyInt value), p1)
    /\ forall id', id' <> id ->
         fst (get_counter env id' p1) = fst (get_counter env id' p).
Proof.
  intros Hcat _ Hfits Hclock.
  pose proof (schema_has_counter_counts _ Hcat) as Ht.
  rewrite update_counter_eq, Ht. eexists. split; [reflexivity|].
  split.
  - rewrite get_counter_eq. unfold work at 1. simpl.
    unfold has_table, find_object. simpl sqlite_master. rewrite Hcat. simpl.
    unfold baseline. simpl counter_counts.
    rewrite (new_sample_newest env _ id value Hclock). simpl.
    rewrite (fits_int64_literal _ Hfits). reflexivity.
  - intros id' Hne. rewrite !get_counter_eq. unfold work at 1 3. simpl.
    unfold has_table at 1, find_object. simpl sqlite_master. rewrite Hcat, Ht. simpl.
    f_equal. apply baseline_ext. simpl. rewrite samples_of_app.
    rewrite samples_of_other by (simpl; congruence). apply app_nil_r.
Qed.

Lemma example_clock_ahead (r : count_row) (n : nat) :
  In r (counter_counts (content example_file)) -> access_time r <= clock example_env n.
Proof.
  intros [<-|[<-|[]]]; simpl; unfold example_clock; lia.
Qed.

(** Bank 0 gets a sample of 20. *)
Lemma recorded_sample_is_latest_witness :
  exists p1,
    update_counter example_env 1 20 example_process = (Ok tt, p1)
    /\ get_counter example_env 1 p1 = (Ok (PyInt 20), p1).
Proof.
  destruct (recorded_sample_is_latest example_env example_process 1 20)
    as (p1 & Hupd & Hget & _).
  - reflexivity.
  - reflexivity.
  - reflexivity.
  - intros r Hr. apply filter_In in Hr as [Hr _].
    apply (example_clock_ahead r 2 Hr).
  - exists p1. split; assumption.
Defined.

(** ** Whole runs *)

(** One turn of the loop, when the table of samples is there and the file of
    the counter reads [v]. *)
Lemma main_step_eq (env : environment) (report : list report_entry)
    (row : counter_row) (p : process) (v : Z) :
  has_table "counter_counts" (work (conn p)) = true ->
  read_counter env (path row) = Ok v ->
  main_step env report row p =
  if py_gt v (baseline (work (conn p)) (counter_id row)) then
    match py_sub v (baseline (work (conn p)) (counter_id row)) with
    | Ok delta =>
        (Ok (report ++ [(name row, delta)]),
         mk_process
           (mk_connection (file_mode (conn p)) (disk (conn p))
              (Some (mk_database (sqlite_master (work (conn p)))
                       (counters (work (conn p)))
                       (counter_counts (work (conn p))
                        ++ [new_sample env (work (conn p)) (counter_id row) v]))))
           (mail_log p))
    | Raise e => (Raise e, p)
    end
  else (Ok report, p).
Proof.
  intros Ht Hread. unfold main_step, mbind. rewrite get_counter_eq, Ht.
  unfold lift. rewrite Hread.
  destruct (py_gt v (baseline (work (conn p)) (counter_id row))); [|reflexivity].
  destruct (py_sub v (baseline (work (conn p)) (counter_id row))); [|reflexivity].
  rewrite update_counter_eq, Ht. reflexivity.
Qed.

(** A loop over counters none of which has risen changes nothing. *)
Lemma main_loop_quiet (env : environment) (p : process) (rows : list counter_row) :
  (rows <> [] -> has_table "counter_counts" (work (conn p)) = true) ->
  (forall row, In row rows ->
     exists v, read_counter env (path row) = Ok v
       /\ py_gt v (baseline (work (conn p)) (counter_id row)) = false) ->
  forall report, main_loop env rows report p = (Ok report, p).
Proof.
  induction rows as [|row rest IH]; intros Ht Hrows report; [reflexivity|].
  simpl. unfold mbind.
  destruct (Hrows row (or_introl eq_refl)) as (v & Hread & Hgt).
  rewrite (main_step_eq env report row p v (Ht ltac:(discriminate)) Hread), Hgt.
  apply IH.
  - intros _. apply Ht. discriminate.
  - intros row0 Hin. apply Hrows. right. exact Hin.
Qed.

(** A run none of whose counters has risen returns and leaves its process
    as it was. *)
Lemma main_quiet (env : environment) (p : process) :
  pending (conn p) = None ->
  has_table "counters" (disk (conn p)) = true ->
  (counters (disk (conn p)) <> [] ->
   has_table "counter_counts" (disk (conn p)) = true) ->
  (forall row, In row (counters (disk (conn p))) ->
     exists v, read_counter env (path row) = Ok v
       /\ py_gt v (baseline (disk (conn p)) (counter_id row)) = false) ->
  main env p = (Ok tt, p).
Proof.
  intros Hpend Hcs Hcc Hrows.
  assert (Hw : work (conn p) = disk (conn p)) by (unfold work; rewrite Hpend; reflexivity).
  unfold main, mbind. rewrite get_counters_eq, Hw, Hcs.
  rewrite main_loop_quiet by (rewrite Hw; assumption).
  simpl. unfold conn_commit, commit. rewrite Hw.
  destruct p as [[m d pd] log]. simpl in *. subst pd. reflexivity.
Qed.

Lemma run_quiet (env : environment) (f : db_file) :
  sqlite_master (content f) = schema_objects ->
  (forall row, In row (counters (content f)) ->
     exists v, read_counter env (path row) = Ok v
       /\ py_gt v (baseline (content f) (counter_id row)) = false) ->
  run_process (main env) (Some f) = (Ok tt, f, []).
Proof.
  intros Hcat Hrows. unfold run_process.
  rewrite main_quiet; simpl; try assumption; try reflexivity.
  - destruct f; reflexivity.
  - apply schema_has_counters. exact Hcat.
  - intros _. apply schema_has_counter_counts. exact Hcat.
Qed.

(** X3: on a store with the schema, a run in which every counter reads a
    value that is not greater than what [get_counter] returns for it (all of
    them, and so also when no counter is registered) returns without an
    exception, asks for no delivery, and leaves the database file exactly as
    it was. *)
Theorem run_without_increase (env : environment) (f : db_file) :
  sqlite_master (content f) = schema_objects ->
  (forall row, In row (counters (content f)) ->
     exists v old,
       read_counter env (path row) = Ok v
       /\ fst (get_counter env (counter_id row) (mk_process (get_connection (Some f)) []))
          = Ok old
       /\ py_gt v old = false) ->
  run_process (main env) (Some f) = (Ok tt, f, []).
Proof.
  intros Hcat Hrows. apply run_quiet; [exact Hcat|].
  intros row Hin. destruct (Hrows row Hin) as (v & old & Hread & Hget & Hgt).
  exists v. split; [exact Hread|].
  rewrite get_counter_eq in Hget. simpl in Hget. unfold work in Hget. simpl in Hget.
  rewrite (schema_has_counter_counts _ Hcat) in Hget. simpl in Hget.
  injection Hget as <-. exact Hgt.
Qed.

(** Bank 0 has fallen back to 7 and bank 1 reads 0. *)
Lemma run_without_increase_witness :
  run_process (main steady_env) (Some example_file) = (Ok tt, example_file, []).
Proof.
  apply run_without_increase; [reflexivity|].
  intros row [<-|[<-|[]]]; eexists; eexists; (split; [reflexivity|split; reflexivity]).
Defined.

(** What a loop that returns has added, without any assumption on the
    rows: samples of the loop, at most one for a row, with new ids. *)
Lemma main_loop_samples (env : environment) (rows : list counter_row) :
  forall (report report' : list report_entry) (p p' : process),
  main_loop env rows report p = (Ok report', p') ->
  exists added,
    counter_counts (work (conn p')) = counter_counts (work (conn p)) ++ added
    /\ sqlite_master (work (conn p')) = sqlite_master (work (conn p))
    /\ counters (work (conn p')) = counters (work (conn p))
    /\ Forall (sample_of_loop env rows (counter_counts (work (conn p)))) added
    /\ (NoDup (map counter_count_id (counter_counts (work (conn p)))) ->
        NoDup (map counter_count_id (counter_counts (work (conn p')))))
    /\ (List.length added <= List.length rows)%nat.
Proof.
  induction rows as [|row rest IH]; intros report report' p p' H.
  - simpl in H. unfold ret in H. injection H as <- <-.
    exists []. rewrite app_nil_r. repeat split; [constructor|tauto|apply Nat.le_refl].
  - simpl in H. apply mbind_ok_inv in H as (report1 & p1 & Hstep & Hloop).
    destruct (IH _ _ _ _ Hloop) as (added1 & Hcc & Hsm & Hcs & Hall & Hnd & Hlen).
    pose proof Hstep as Hstep'.
    apply main_step_ok in Hstep' as (Ht & v & Hread & _).
    rewrite (main_step_eq env report row p v Ht Hread) in Hstep.
    assert (Hweak : forall old,
               Forall (sample_of_loop env rest old) added1 ->
               Forall (sample_of_loop env (row :: rest) old) added1).
    { intros old HF. eapply Forall_impl; [|exact HF].
      intros s ((row0 & v0 & Hin & H1 & H2 & H3) & Hn & Hid).
      split; [|split; assumption].
      exists row0, v0. repeat split; try assumption. right. exact Hin. }
    remember (work (conn p)) as w eqn:Hw.
    destruct (py_gt v (baseline w (counter_id row))).
    + destruct (py_sub v (baseline w (counter_id row))) as [delta|e];
        [|discriminate].
      injection Hstep as _ <-.
      simpl in Hcc, Hsm, Hcs, Hall, Hnd.
      exists (new_sample env w (counter_id row) v :: added1).
      split; [rewrite Hcc, <- app_assoc; reflexivity|].
      split; [exact Hsm|]. split; [exact Hcs|]. split.
      * constructor.
        -- split; [|split].
           ++ exists row, v. repeat split; [left; reflexivity|exact Hread].
           ++ eexists. reflexivity.
           ++ intros r Hr. apply next_rowid_above, in_map, Hr.
        -- apply Hweak. eapply Forall_impl; [|exact Hall].
           intros s (H1 & H2 & H3). split; [exact H1|]. split; [exact H2|].
           intros r Hr. apply H3. apply in_or_app. left. exact Hr.
      * split; [|simpl; lia].
        intros Hnd0. apply Hnd. rewrite map_app. simpl.
        apply NoDup_app; [exact Hnd0 | repeat constructor; intros [] | ].
        intros x Hx [<-|[]]. exact (next_rowid_fresh _ Hx).
    + injection Hstep as _ <-. rewrite <- Hw in *.
      exists added1. repeat split; try assumption; [|simpl; lia].
      apply Hweak. exact Hall.
Qed.

(** A run that returns has gone through the loop and committed what the loop
    left. *)
Lemma main_ok_commit (env : environment) (p p' : process) :
  main env p = (Ok tt, p') ->
  has_table "counters" (work (conn p)) = true
  /\ exists report p1,
      main_loop env (counters (work (conn p))) [] p = (Ok report, p1)
      /\ disk (conn p') = work (conn p1)
      /\ pending (conn p') = None
      /\ file_mode (conn p') = file_mode (conn p).
Proof.
  intros H. apply main_cases in H.
  inversion H as [ | | rows p1 Hget Hloop | | rows report p1 p2 Hget Hloop Hne Hsend ];
    subst; rewrite get_counters_eq in Hget;
    destruct (has_table "counters" (work (conn p))); try discriminate;
    injection Hget as <-; (split; [reflexivity|]).
  - exists [], p1. split; [exact Hloop|].
    apply main_loop_disk in Hloop as (_ & Hm & _). repeat split. exact Hm.
  - exists report, p1. split; [exact Hloop|].
    apply send_mail_requests in Hsend as (Hc & _).
    apply main_loop_disk in Hloop as (_ & Hm & _).
    simpl. rewrite Hc. repeat split. exact Hm.
Qed.


(** The run of [example_env]: bank 0 rises from 10 to 15, and the report
    goes out. *)
Lemma example_run :
  run_process (main example_env) (Some example_file)
  = (Ok tt, example_file_after,
     OpenCredentials
     :: session (JString "smtp.example.org") (JInt 587) (JString "root@example.org")
          (JString "s3cret")
          (mk_message (JString "root@example.org") (JString "ops@example.org")
             "Linux healthcheck report" ["EDAC bank 0: 5"])).
Proof. vm_compute. reflexivity. Qed.


(** After a run that returns, on a clock that is not behind the samples of
    the store, the baseline of a counter is the value read if that was
    greater than the old baseline, and the old baseline otherwise. *)
Lemma main_ok_baselines (env : environment) (p p' : process) :
  pending (conn p) = None ->
  NoDup (map counter_id (counters (disk (conn p)))) ->
  (forall r n, In r (counter_counts (disk (conn p))) -> access_time r <= clock env n) ->
  main env p = (Ok tt, p') ->
  pending (conn p') = None
  /\ file_mode (conn p') = file_mode (conn p)
  /\ sqlite_master (disk (conn p')) = sqlite_master (disk (conn p))
  /\ counters (disk (conn p')) = counters (disk (conn p))
  /\ forall row, In row (counters (disk (conn p))) ->
       exists v,
         read_counter env (path row) = Ok v
         /\ baseline (disk (conn p')) (counter_id row)
            = if py_gt v (baseline (disk (conn p)) (counter_id row))
              then py_of_sql (sql_integer_literal v)
              else baseline (disk (conn p)) (counter_id row).
Proof.
  intros Hpend Hnd Hclock Hmain.
  assert (Hw : work (conn p) = disk (conn p)) by (unfold work; rewrite Hpend; reflexivity).
  apply main_ok_commit in Hmain as (_ & report & p1 & Hloop & Hd & Hp & Hm).
  rewrite Hw in Hloop.
  destruct (main_loop_samples _ _ _ _ _ _ Hloop) as (added & Hcc & Hsm & Hcs & Hall & _ & _).
  destruct (main_loop_ok _ _ _ _ _ _ Hnd Hloop)
    as (added' & Hcc' & _ & _ & _ & _ & _ & _ & _ & Hrows).
  rewrite Hw in Hcc, Hsm, Hcs, Hall, Hcc', Hrows.
  assert (added' = added) as ->.
  { rewrite Hcc in Hcc'. apply app_inv_head in Hcc'. symmetry. exact Hcc'. }
  rewrite Hd. repeat split; try assumption.
  intros row Hin. destruct (Hrows row Hin) as (v & Hread & Hif).
  exists v. split; [exact Hread|].
  destruct (py_gt v (baseline (disk (conn p)) (counter_id row))).
  - destruct Hif as (delta & s & _ & Hs & Hcount).
    unfold baseline at 1. rewrite Hcc, samples_of_app, Hs.
    assert (Hsin : In s added).
    { assert (H : In s (samples_of (counter_id row) added)) by (rewrite Hs; left; reflexivity).
      apply filter_In in H as [H _]. exact H. }
    rewrite Forall_forall in Hall. destruct (Hall s Hsin) as (_ & (n & Hn) & Hid).
    rewrite newest_snoc.
    + rewrite Hcount. reflexivity.
    + intros r Hr. apply filter_In in Hr as [Hr _].
      pose proof (Hclock r n Hr) as Ht. pose proof (Hid r Hr) as Hi.
      unfold index_ltb. rewrite Hn.
      destruct (Z.ltb_spec (access_time r) (clock env n)); [reflexivity|].
      simpl. apply andb_true_iff. split; [apply Z.eqb_eq; lia|apply Z.ltb_lt; exact Hi].
  - apply baseline_ext. rewrite Hcc, samples_of_app, Hif. apply app_nil_r.
Qed.

(** X5: after a run that returns, on a store with the schema whose counters
    differ in their ids and a clock that is not behind the samples of the
    store, [get_counter] returns for each counter the value that the run read
    for it, if that was greater than what it returned before the run and
    within 64 bits, and what it returned before the run if the value read was
    not greater. *)
Theorem run_moves_baselines (env : environment) (f f' : db_file) (log : list request) :
  sqlite_master (content f) = schema_objects ->
  NoDup (map counter_id (counters (content f))) ->
  (forall r n, In r (counter_counts (content f)) -> access_time r <= clock env n) ->
  run_process (main env) (Some f) = (Ok tt, f', log) ->
  forall row, In row (counters (content f)) ->
    exists v old,
      read_counter env (path row) = Ok v
      /\ fst (get_counter env (counter_id row) (mk_process (get_connection (Some f)) []))
         = Ok old
      /\ (py_gt v old = true -> fits_int64 v = true ->
          fst (get_counter env (counter_id row) (mk_process (get_connection (Some f')) []))
          = Ok (PyInt v))
      /\ (py_gt v old = false ->
          fst (get_counter env (counter_id row) (mk_process (get_connection (Some f')) []))
          = Ok old).
Proof.
  intros Hcat Hnd Hclock. unfold run_process.
  pose proof (schema_has_counter_counts _ Hcat) as Ht.
  destruct (main env (mk_process (get_connection (Some f)) [])) as [r p'] eqn:Hmain.
  intros [= -> <- <-] row Hin.
  destruct (main_ok_baselines env (mk_process (get_connection (Some f)) []) p' eq_refl Hnd Hclock Hmain)
    as (_ & _ & Hsm & _ & Hrows).
  destruct (Hrows row Hin) as (v & Hread & Hbase). simpl in Hbase, Hsm.
  exists v, (baseline (content f) (counter_id row)). split; [exact Hread|].
  assert (Ht' : has_table "counter_counts" (disk (conn p')) = true).
  { unfold has_table, find_object in *. rewrite Hsm. exact Ht. }
  rewrite !get_counter_eq. unfold work. simpl. rewrite Ht, Ht'. simpl.
  rewrite Hbase. split; [reflexivity|]. split.
  - intros -> Hfits. rewrite (fits_int64_literal _ Hfits). reflexivity.
  - intros ->. reflexivity.
Qed.

(** Bank 0 rose from 10 to 15. *)
Lemma run_moves_baselines_witness :
  fst (get_counter example_env (counter_id bank0)
         (mk_process (get_connection (Some example_file_after)) []))
  = Ok (PyInt 15).
Proof.
  destruct (run_moves_baselines example_env example_file example_file_after _
              eq_refl example_rows_distinct example_clock_ahead example_run
              bank0 (or_introl eq_refl))
    as (v & old & Hread & Hold & Hup & _).
  injection Hread as <-. injection Hold as <-.
  exact (Hup eq_refl eq_refl).
Defined.

(** X6: on a store with the schema whose counters differ in their ids, after
    a run that returned, made while the clock was not behind the samples of
    the store and reading values within 64 bits, a run that reads the same
    values reports nothing: it returns, asks for no delivery and leaves the
    file as the first run left it. *)
Theorem second_run_is_quiet (env env' : environment) (f f' : db_file)
    (log : list request) :
  sqlite_master (content f) = schema_objects ->
  NoDup (map counter_id (counters (content f))) ->
  (forall r n, In r (counter_counts (content f)) -> access_time r <= clock env n) ->
  (forall row v, In row (counters (content f)) ->
     read_counter env (path row) = Ok v -> fits_int64 v = true) ->
  (forall row, In row (counters (content f)) ->
     read_counter env' (path row) = read_counter env (path row)) ->
  run_process (main env) (Some f) = (Ok tt, f', log) ->
  run_process (main env') (Some f') = (Ok tt, f', []).
Proof.
  intros Hcat Hnd Hclock Hfits Hsame. unfold run_process at 1.
  destruct (main env (mk_process (get_connection (Some f)) [])) as [r p'] eqn:Hmain.
  intros [= -> <- <-].
  destruct (main_ok_baselines env (mk_process (get_connection (Some f)) []) p' eq_refl Hnd Hclock Hmain)
    as (_ & _ & Hsm & Hcs & Hrows).
  simpl in Hsm, Hcs, Hrows.
  apply run_quiet.
  - simpl. rewrite Hsm. exact Hcat.
  - simpl. rewrite Hcs. intros row Hin.
    destruct (Hrows row Hin) as (v & Hread & Hbase).
    exists v. split; [rewrite Hsame by exact Hin; exact Hread|].
    rewrite Hbase.
    destruct (py_gt v (baseline (content f) (counter_id row))) eqn:Hgt; [|exact Hgt].
    rewrite (fits_int64_literal _ (Hfits row v Hin Hread)). simpl.
    apply Z.ltb_irrefl.
Qed.

Lemma second_run_is_quiet_witness :
  run_process (main example_env) (Some example_file_after)
  = (Ok tt, example_file_after, []).
Proof.
  eapply second_run_is_quiet with (env := example_env) (f := example_file);
    [ reflexivity | exact example_rows_distinct | exact example_clock_ahead
    | intros row v [<-|[<-|[]]] H; vm_compute in H; injection H as <-; reflexivity
    | reflexivity | exact example_run ].
Defined.

(** X7: a run on a store without the table of counters (a store in which
    nothing was registered yet, or no file at all) raises
    [sqlite3.OperationalError] and asks for no delivery; a file that was there
    is left as it was, and a missing one has been made, empty and the owner's
    alone. *)
Theorem run_before_registration (env : environment) (f : option db_file) :
  has_table "counters" (stored f) = false ->
  run_process (main env) f
  = (Raise OperationalError,
     match f with
     | Some f0 => f0
     | None => mk_db_file (Z.lor S_IRUSR S_IWUSR) empty_database
     end,
     []).
Proof.
  intros Ht. unfold run_process, main, mbind.
  rewrite get_counters_eq. simpl conn. rewrite work_get_connection, Ht.
  destruct f as [[m d]|]; reflexivity.
Qed.

Lemma run_before_registration_witness :
  run_process (main example_env) None
  = (Raise OperationalError, mk_db_file 384 empty_database, []).
Proof. exact (run_before_registration example_env None eq_refl). Defined.

(** ** The digits of an integer *)

Lemma string_of_uint_length (d : Decimal.uint) :
  Z.of_nat (String.length (NilEmpty.string_of_uint d)) = Z.of_N (Unsigned.usize d).
Proof.
  induction d; cbn [NilEmpty.string_of_uint String.length Unsigned.usize];
    [reflexivity|..]; rewrite Nat2Z.inj_succ, IHd, N2Z.inj_succ; reflexivity.
Qed.

(** A number with [k] digits is below [10 ^ k]. *)
Lemma of_lu_bound (d : Decimal.uint) :
  (Unsigned.of_lu d < 10 ^ Unsigned.usize d)%N.
Proof.
  induction d; cbn [Unsigned.of_lu Unsigned.usize];
    [ reflexivity | .. ];
    rewrite N.pow_succ_r'; lia.
Qed.

(** The first digit of the decimal text of a positive number is not zero:
    the number is at least the power of ten of the digits after it. *)
Lemma to_uint_lower (p : positive) :
  exists d, (Unsigned.usize (Pos.to_uint p) = N.succ (Unsigned.usize d)
             /\ 10 ^ Unsigned.usize d <= N.pos p)%N.
Proof.
  pose proof (Unsigned.of_to p) as Hof.
  pose proof (Unsigned.to_uint_nonzero p) as Hnz.
  pose proof (Unsigned.to_of (Pos.to_uint p)) as Hto.
  rewrite Hof in Hto. cbn [N.to_uint] in Hto.
  rewrite Unsigned.of_uint_alt in Hof.
  destruct (Pos.to_uint p) as [|d|d|d|d|d|d|d|d|d|d] eqn:E;
    [ discriminate Hto | | .. ].
  { exfalso. rewrite DecimalFacts.unorm_D0 in Hto.
    pose proof (DecimalFacts.nzhead_nonzero d d) as Hh. unfold Decimal.unorm in Hto.
    destruct (Decimal.nzhead d) eqn:En; try (symmetry in Hto; contradiction).
    apply Hnz. injection Hto as <-. reflexivity. }
  all: match type of Hof with
       | context [Decimal.rev (?D ?x)] =>
           exists x; (split; [reflexivity|]);
           change (Decimal.rev (D x)) with (Decimal.revapp x (D Decimal.Nil)) in Hof
       end;
    rewrite Unsigned.of_lu_revapp in Hof; rewrite <- Hof;
    cbn [Unsigned.of_lu]; lia.
Qed.

(** An integer below [10 ^ k] in absolute value has at most [k] digits. *)
Lemma decimal_digits_bound (z : Z) (k : nat) :
  (0 < k)%nat -> Z.abs z < 10 ^ Z.of_nat k -> (decimal_digits z <= k)%nat.
Proof.
  intros Hk Hz. unfold decimal_digits, format_d_int.
  destruct (Z.abs z) as [|p|p] eqn:E; [simpl; lia| |lia].
  cbn [Z.to_int NilZero.string_of_int].
  assert (Hnz : NilZero.string_of_uint (Pos.to_uint p)
                = NilEmpty.string_of_uint (Pos.to_uint p)).
  { pose proof (Unsigned.to_uint_nonnil p).
    destruct (Pos.to_uint p); [contradiction|reflexivity..]. }
  rewrite Hnz. apply Nat2Z.inj_le. rewrite string_of_uint_length.
  destruct (to_uint_lower p) as (d & -> & Hlow).
  rewrite N2Z.inj_succ.
  assert (H : 10 ^ Z.of_N (Unsigned.usize d) < 10 ^ Z.of_nat k).
  { apply N2Z.inj_le in Hlow. rewrite N2Z.inj_pow in Hlow.
    change (Z.of_N 10) with 10 in Hlow. change (Z.of_N (N.pos p)) with (Z.pos p) in Hlow.
    lia. }
  apply Z.pow_lt_mono_r_iff in H; lia.
Qed.

Lemma format_d_in_limit (z : Z) :
  Z.abs z < 10 ^ Z.of_nat int_max_str_digits ->
  format_d (PyInt z) = Ok (format_d_int z).
Proof.
  intros Hz. unfold format_d.
  assert (H : (int_max_str_digits <? decimal_digits z)%nat = false).
  { apply Nat.ltb_ge. apply decimal_digits_bound; [|exact Hz].
    unfold int_max_str_digits. lia. }
  rewrite H. reflexivity.
Qed.

Lemma fits_int64_in_limit (z : Z) :
  fits_int64 z = true -> Z.abs z < 10 ^ Z.of_nat int_max_str_digits.
Proof.
  unfold fits_int64, SQLITE_INT_MIN, SQLITE_INT_MAX. intros H.
  apply andb_true_iff in H as [H1 H2]. apply Z.leb_le in H1, H2.
  apply Z.lt_le_trans with (m := 10 ^ 19); [lia|].
  apply Z.pow_le_mono_r; [lia|]. unfold int_max_str_digits. lia.
Qed.

(** The digits that [scan_digits] has read bound the value it has read. *)
Lemma scan_digits_bound (s : string) :
  forall (acc : Z) (n : nat) (v : Z) (n' : nat) (rest : string),
  scan_digits s acc n = Some (v, n', rest) ->
  0 <= acc < 10 ^ Z.of_nat n ->
  0 <= v < 10 ^ Z.of_nat n'.
Proof.
  induction s as [|c s IH]; intros acc n v n' rest H Hacc.
  - simpl in H. injection H as <- <- _. exact Hacc.
  - cbn [scan_digits] in H.
    destruct (is_digit c) eqn:Hc.
    + apply IH in H; [exact H|].
      assert (0 <= digit_value c <= 9).
      { unfold is_digit in Hc. unfold digit_value.
        apply andb_true_iff in Hc as [H1 H2]. apply Z.leb_le in H1, H2. lia. }
      rewrite Nat2Z.inj_succ, Z.pow_succ_r by lia. lia.
    + destruct (Ascii.eqb c "_").
      * destruct n as [|n0]; [discriminate|].
        destruct s as [|c' s']; [discriminate|].
        destruct (is_digit c'); [|discriminate].
        apply IH in H; assumption.
      * injection H as <- <- _. exact Hacc.
Qed.

(** What [int] reads is below [10 ^ 4300] in absolute value. *)
Lemma py_int_bound (s : string) (v : Z) :
  py_int s = Ok v -> Z.abs v < 10 ^ Z.of_nat int_max_str_digits.
Proof.
  unfold py_int.
  destruct (match skip_spaces s with
            | String "-" rest => (true, rest)
            | String "+" rest => (false, rest)
            | _ => (false, skip_spaces s)
            end) as [negative s2].
  destruct (scan_digits s2 0 0) as [[[v0 n] s3]|] eqn:Hscan; [|discriminate].
  apply scan_digits_bound in Hscan; [|simpl; lia].
  destruct n as [|n]; [discriminate|].
  destruct (skip_spaces s3); [|discriminate].
  destruct (int_max_str_digits <? S n)%nat eqn:Hlim; [discriminate|].
  apply Nat.ltb_ge in Hlim. intros [= <-].
  assert (H : 10 ^ Z.of_nat (S n) <= 10 ^ Z.of_nat int_max_str_digits).
  { apply Z.pow_le_mono_r; lia. }
  destruct negative; lia.
Qed.

(** ** What a report holds *)

Lemma format_entries_ints (report : list report_entry) :
  Forall (fun e => exists z,
            snd e = PyInt z /\ Z.abs z < 10 ^ Z.of_nat int_max_str_digits) report ->
  exists lines,
    format_entries report = Ok lines /\ List.length lines = List.length report.
Proof.
  induction 1 as [|[nm d] rest (z & Hz & Hlim) _ (lines & Hl & Hn)].
  - exists []. split; reflexivity.
  - simpl in Hz. subst d. exists ((nm ++ ": " ++ format_d_int z)%string :: lines).
    cbn [format_entries]. unfold format_entry. cbn [fst snd].
    rewrite (format_d_in_limit _ Hlim), Hl. cbn [bind List.length]. rewrite Hn.
    split; reflexivity.
Qed.

Lemma baseline_int (db : database) (id : Z) :
  (forall r, In r (counter_counts db) -> exists z, count r = SqlInt z /\ 0 <= z) ->
  exists b, baseline db id = PyInt b /\ 0 <= b.
Proof.
  intros Hint. unfold baseline.
  destruct (newest (samples_of id (counter_counts db))) as [r|] eqn:Hn.
  - apply newest_some in Hn as [Hin _]. apply filter_In in Hin as [Hin _].
    destruct (Hint r Hin) as (z & -> & Hz). exists z. split; [reflexivity|exact Hz].
  - exists 0. split; [reflexivity|lia].
Qed.

(** X8: when the counts of the store are integers that are not below zero
    and the rows differ in their ids, every entry of the report of a loop is
    the name of one of the rows with the difference of the value read and its
    baseline, an integer greater than zero and not greater than the value
    read; and the entries can all be formatted, one line each: none has more
    digits than [%d] writes. *)
Theorem report_deltas_positive (env : environment) (rows : list counter_row)
    (report : list report_entry) (p p' : process) :
  NoDup (map counter_id rows) ->
  (forall r, In r (counter_counts (work (conn p))) ->
     exists z, count r = SqlInt z /\ 0 <= z) ->
  main_loop env rows [] p = (Ok report, p') ->
  (forall nm delta, In (nm, delta) report ->
     exists row v b,
       In row rows /\ nm = name row
       /\ read_counter env (path row) = Ok v
       /\ baseline (work (conn p)) (counter_id row) = PyInt b
       /\ 0 <= b < v /\ delta = PyInt (v - b))
  /\ exists lines,
      format_entries report = Ok lines /\ List.length lines = List.length report.
Proof.
  intros Hnd Hint Hloop.
  destruct (main_loop_ok _ _ _ _ _ _ Hnd Hloop)
    as (added & _ & _ & _ & _ & _ & _ & Hrep & _ & _).
  simpl in Hrep.
  assert (Hall : forall nm delta, In (nm, delta) report ->
     exists row v b,
       In row rows /\ nm = name row
       /\ read_counter env (path row) = Ok v
       /\ baseline (work (conn p)) (counter_id row) = PyInt b
       /\ 0 <= b < v /\ delta = PyInt (v - b)).
  { intros nm delta Hin. rewrite Hrep in Hin.
    apply in_flat_map in Hin as (row & Hrow & Hin).
    unfold contribution in Hin.
    destruct (read_counter env (path row)) as [v|e] eqn:Hread; [|destruct Hin].
    destruct (baseline_int (work (conn p)) (counter_id row) Hint) as (b & Hb & Hb0).
    rewrite Hb in Hin. simpl in Hin.
    destruct (b <? v) eqn:Hlt; [|destruct Hin].
    destruct Hin as [[= <- <-]|[]].
    exists row, v, b. apply Z.ltb_lt in Hlt. repeat split; assumption. }
  split; [exact Hall|].
  apply format_entries_ints. apply Forall_forall. intros [nm delta] Hin.
  destruct (Hall nm delta Hin) as (row & v & b & _ & _ & Hread & _ & Hb & ->).
  exists (v - b). split; [reflexivity|].
  unfold read_counter in Hread.
  destruct (files env (path row)) as [| |text]; try discriminate.
  apply py_int_bound in Hread. lia.
Qed.

Lemma report_deltas_positive_witness :
  exists lines,
    format_entries [("EDAC bank 0", PyInt 5)] = Ok lines
    /\ List.length lines = 1%nat.
Proof.
  edestruct (report_deltas_positive example_env [bank0; bank1]
               [("EDAC bank 0", PyInt 5)] example_process) as [_ H].
  - exact example_rows_distinct.
  - intros r [<-|[<-|[]]]; eexists; (split; [reflexivity|lia]).
  - lazy. reflexivity.
  - exact H.
Defined.

(** ** Registration, and the stores of the program *)

Lemma well_formed_prefix (db : database) : well_formed db -> schema_prefix db.
Proof.
  intros [[H| ->] _ _ _ _].
  - exists 4%nat. exact H.
  - exists 0%nat. reflexivity.
Qed.

Lemma stored_disk (f : option db_file) : disk (get_connection f) = stored f.
Proof. destruct f; reflexivity. Qed.

Lemma mode_get_connection (f : option db_file) :
  file_mode (get_connection f)
  = match f with Some f0 => mode f0 | None => Z.lor S_IRUSR S_IWUSR end.
Proof. destruct f; reflexivity. Qed.

(** X9: the registration of a path and a name that are plain texts, on a
    store of this program (or on no file at all), returns and commits: the
    schema is there; the samples and the counters that were there are as they
    were; a path that is new has got one row after them, with the name given
    and an id that no row had, and a path that was there has got none; the
    file keeps its mode, a new file being the owner's alone; and
    [get_counters] on the file returns the counters. *)
Theorem registration_adds_counter (env : environment) (f : option db_file)
    (pth nm : string) :
  plain_text pth -> plain_text nm ->
  schema_prefix (stored f) ->
  distinct_paths (stored f) ->
  exists f',
    run_process (new_counter env pth nm) f = (Ok tt, f', [])
    /\ mode f' = match f with Some f0 => mode f0 | None => Z.lor S_IRUSR S_IWUSR end
    /\ sqlite_master (content f') = schema_objects
    /\ counter_counts (content f') = counter_counts (stored f)
    /\ counters (content f')
       = (if existsb (fun r => String.eqb (path r) pth) (counters (stored f))
          then counters (stored f)
          else counters (stored f)
               ++ [mk_counter (next_rowid (map counter_id (counters (stored f)))) pth nm])
    /\ ~ In (next_rowid (map counter_id (counters (stored f))))
            (map counter_id (counters (stored f)))
    /\ fst (get_counters env (mk_process (get_connection (Some f')) []))
       = Ok (counters (content f')).
Proof.
  intros [Hq1 Hz1] [Hq2 Hz2] Hpre Hdup.
  destruct (new_counter_plain env (mk_process (get_connection f) []) pth nm
              Hq1 Hq2 Hz1 Hz2) as (p' & Hrun & _ & Hmode & Hlog & Hcat & Hcc & Hcs).
  { simpl. rewrite work_get_connection. exact Hpre. }
  { simpl. rewrite work_get_connection. exact Hdup. }
  simpl conn in Hmode, Hcc, Hcs. simpl in Hlog.
  rewrite work_get_connection in Hcc, Hcs. rewrite mode_get_connection in Hmode.
  exists (mk_db_file (file_mode (conn p')) (disk (conn p'))).
  unfold run_process. rewrite Hrun, Hlog. simpl.
  repeat split; try assumption.
  - apply next_rowid_fresh.
  - rewrite get_counters_eq. unfold work. simpl.
    destruct (schema_has_counters _ Hcat) as [-> _]. reflexivity.
Qed.

Lemma registration_adds_counter_witness :
  exists f',
    run_process (new_counter example_env (path bank0) (name bank0)) None = (Ok tt, f', [])
    /\ counters (content f') = [bank0].
Proof.
  destruct (registration_adds_counter example_env None (path bank0) (name bank0))
    as (f' & Hrun & _ & _ & _ & Hcs & _).
  - split; reflexivity.
  - split; reflexivity.
  - exists 0%nat. reflexivity.
  - reflexivity.
  - exists f'. split; [exact Hrun|exact Hcs].
Defined.

(** X10: every database file that the program makes, by registrations of
    plain texts and by runs, in any order and however they end, is well
    formed and the owner's alone. *)
Theorem made_by_program_well_formed (f : option db_file) :
  made_by_program f -> well_formed (stored f) /\ owner_only f.
Proof.
  induction 1 as [ | env pth nm f r f' log Hmade [IH IHm] [Hq1 Hz1] [Hq2 Hz2] Hrun
                   | env f r f' log Hmade [IH IHm] Hrun ].
  - split; [|exact I]. split; simpl.
    + right. reflexivity.
    + constructor.
    + reflexivity.
    + constructor.
    + intros s [].
  - destruct (new_counter_plain env (mk_process (get_connection f) []) pth nm
                Hq1 Hq2 Hz1 Hz2) as (p' & Hnc & _ & Hmode & _ & Hcat & Hcc & Hcs).
    { simpl. rewrite work_get_connection. apply well_formed_prefix. exact IH. }
    { simpl. rewrite work_get_connection. apply IH. }
    unfold run_process in Hrun. rewrite Hnc in Hrun. injection Hrun as _ <- _.
    simpl conn in Hmode, Hcc, Hcs. rewrite work_get_connection in Hcc, Hcs.
    rewrite mode_get_connection in Hmode.
    destruct IH as [_ Hids Hpaths Hsids Hrefs].
    assert (Hsub : forall x, In x (map counter_id (counters (stored f))) ->
                             In x (map counter_id (counters (disk (conn p'))))).
    { intros x Hx. rewrite Hcs.
      destruct (existsb _ _); [exact Hx|].
      rewrite map_app. apply in_or_app. left. exact Hx. }
    split.
    + split; simpl.
      * left. exact Hcat.
      * rewrite Hcs. destruct (existsb _ _); [exact Hids|].
        rewrite map_app. simpl.
        apply NoDup_app; [exact Hids | repeat constructor; intros [] | ].
        intros x Hx [<-|[]]. exact (next_rowid_fresh _ Hx).
      * unfold distinct_paths in *. rewrite Hcs.
        destruct (existsb _ _) eqn:He; [exact Hpaths|].
        rewrite map_app. simpl.
        rewrite has_duplicate_snoc, Hpaths, existsb_path, He. reflexivity.
      * rewrite Hcc. exact Hsids.
      * rewrite Hcc. intros s Hs. apply Hsub, Hrefs, Hs.
    + simpl. rewrite Hmode. destruct f; [exact IHm|reflexivity].
  - unfold run_process in Hrun.
    destruct (main env (mk_process (get_connection f) [])) as [r0 p'] eqn:Hmain.
    injection Hrun as -> <- _.
    destruct IH as [Hcat Hids Hpaths Hsids Hrefs].
    destruct r as [[]|e].
    + apply main_ok_commit in Hmain as (Htab & report & p1 & Hloop & Hd & _ & Hm).
      simpl conn in Hloop, Hm, Htab. rewrite work_get_connection in Hloop, Htab.
      apply main_loop_samples in Hloop as (added & Hcc & Hsm & Hcs & Hall & Hnd & _).
      simpl conn in Hcc, Hsm, Hcs, Hall, Hnd.
      rewrite work_get_connection in Hcc, Hsm, Hcs, Hall, Hnd.
      rewrite mode_get_connection in Hm.
      split.
      * split; simpl; rewrite Hd.
        -- destruct Hcat as [Hcat|Hcat]; [left; congruence|].
           rewrite Hcat in Htab. discriminate Htab.
        -- rewrite Hcs. exact Hids.
        -- unfold distinct_paths in *. rewrite Hcs. exact Hpaths.
        -- apply Hnd. exact Hsids.
        -- rewrite Hcc, Hcs. intros s Hs. apply in_app_or in Hs as [Hs|Hs].
           ++ apply Hrefs, Hs.
           ++ rewrite Forall_forall in Hall.
              destruct (Hall s Hs) as ((row & v & Hin & -> & _) & _).
              apply in_map. exact Hin.
      * simpl. rewrite Hm. destruct f; [exact IHm|reflexivity].
    + apply main_raise_disk in Hmain as [Hd Hm]. simpl in Hd, Hm.
      rewrite stored_disk in Hd. rewrite mode_get_connection in Hm.
      split.
      * simpl. rewrite Hd. split; assumption.
      * simpl. rewrite Hm. destruct f; [exact IHm|reflexivity].
Qed.

(** Bank 0 is registered in a new store, and a run records its first
    sample. *)
Lemma made_by_program_well_formed_witness :
  well_formed (content first_file_after) /\ owner_only (Some first_file_after).
Proof.
  apply (made_by_program_well_formed (Some first_file_after)).
  eapply (AfterRun example_env (Some first_file)); [|vm_compute; reflexivity].
  eapply (AfterRegistration example_env (path bank0) (name bank0) None);
    [ exact NoFileYet | split; reflexivity | split; reflexivity
    | vm_compute; reflexivity ].
Defined.

(** ** The sampler on blank and on decimal text *)

Lemma skip_spaces_blank (lead s : string) :
  all_spaces lead = true -> skip_spaces (lead ++ s)%string = skip_spaces s.
Proof.
  induction lead as [|c lead IH]; simpl; intros H; [reflexivity|].
  apply andb_true_iff in H as [Hc H]. rewrite Hc. apply IH. exact H.
Qed.

Lemma skip_spaces_all (s : string) : all_spaces s = true -> skip_spaces s = "".
Proof.
  intros H. rewrite <- (string_app_nil_r s) at 1.
  rewrite (skip_spaces_blank s "" H). reflexivity.
Qed.

(** X11: [read_counter] on a file that holds nothing, or nothing but white
    space, raises ValueError. *)
Theorem read_counter_blank (env : environment) (pth text : string) :
  files env pth = Text text ->
  all_spaces text = true ->
  read_counter env pth = Raise ValueError.
Proof.
  intros Hfile Hblank. unfold read_counter. rewrite Hfile.
  unfold py_int. rewrite (skip_spaces_all _ Hblank). reflexivity.
Qed.

Lemma read_counter_blank_witness :
  read_counter blank_env "/sys/edac/mc0/ce_count" = Raise ValueError.
Proof.
  apply (read_counter_blank blank_env "/sys/edac/mc0/ce_count" newline); reflexivity.
Defined.

(** Digits of a decimal number are scanned to the end, each counting for
    one. *)
Lemma scan_digits_uint (d : Decimal.uint) : forall (acc : Z) (n : nat) (rest : string),
  scan_digits (NilEmpty.string_of_uint d ++ rest)%string acc n
  = scan_digits rest
      (Z.of_N (DecimalPos.Unsigned.of_lu (Decimal.rev d))
       + acc * 10 ^ Z.of_N (DecimalPos.Unsigned.usize d))
      (n + String.length (NilEmpty.string_of_uint d)).
Proof.
  induction d; intros acc n rest;
    [ simpl; rewrite Nat.add_0_r; f_equal; lia | .. ];
    cbn [NilEmpty.string_of_uint append scan_digits];
    match goal with
    | |- context [is_digit ?c] => change (is_digit c) with true
    end;
    cbv iota; rewrite IHd; cbn [String.length DecimalPos.Unsigned.usize];
    match goal with
    | |- context [Decimal.rev (?D d)] =>
        change (Decimal.rev (D d)) with (Decimal.revapp d (D Decimal.Nil));
        rewrite (DecimalPos.Unsigned.of_lu_revapp d (D Decimal.Nil))
    end;
    rewrite N2Z.inj_add, N2Z.inj_mul, N2Z.inj_pow, N2Z.inj_succ, Z.pow_succ_r
      by apply N2Z.is_nonneg;
    (f_equal; [|lia]);
    match goal with
    | |- context [digit_value ?c] =>
        let v := eval vm_compute in (digit_value c) in
        change (digit_value c) with v
    end;
    match goal with
    | |- context [DecimalPos.Unsigned.of_lu (?D Decimal.Nil)] =>
        let v := eval vm_compute in (DecimalPos.Unsigned.of_lu (D Decimal.Nil)) in
        change (DecimalPos.Unsigned.of_lu (D Decimal.Nil)) with v
    end;
    cbn [Z.of_N]; ring.
Qed.

Lemma string_of_uint_head (d : Decimal.uint) :
  d <> Decimal.Nil ->
  exists c rest, NilEmpty.string_of_uint d = String c rest /\ is_digit c = true.
Proof.
  destruct d; intros H; [contradiction|..]; simpl; eexists; eexists;
    (split; [reflexivity|reflexivity]).
Qed.

Lemma is_digit_not_sign (c : ascii) (rest : string) :
  is_digit c = true ->
  match String c rest with
  | String "-" r => (true, r)
  | String "+" r => (false, r)
  | _ => (false, String c rest)
  end = (false, String c rest)
  /\ is_py_space c = false.
Proof.
  destruct c as [[] [] [] [] [] [] [] []]; intros H; try discriminate H;
    split; reflexivity.
Qed.

(** [int] of decimal digits, with a limit on their number. *)
Lemma py_int_digits (negative : bool) (p : positive) (trail : string) :
  all_spaces trail = true ->
  (String.length (NilEmpty.string_of_uint (Pos.to_uint p)) <= 4300)%nat ->
  match scan_digits (NilEmpty.string_of_uint (Pos.to_uint p) ++ trail)%string 0 0 with
  | None => Raise ValueError
  | Some (v, n, s3) =>
      match n, skip_spaces s3 with
      | O, _ => Raise ValueError
      | S _, EmptyString =>
          if (int_max_str_digits <? n)%nat then Raise ValueError
          else Ok (if negative then - v else v)
      | S _, String _ _ => Raise ValueError
      end
  end = Ok (if negative then Z.neg p else Z.pos p).
Proof.
  intros Htrail Hlen. rewrite scan_digits_uint.
  rewrite <- DecimalPos.Unsigned.of_uint_alt, DecimalPos.Unsigned.of_to.
  rewrite Z.mul_0_l, Z.add_0_r, Nat.add_0_l.
  destruct (string_of_uint_head (Pos.to_uint p) (DecimalPos.Unsigned.to_uint_nonnil p))
    as (c & rest & Heq & _).
  assert (Hscan : scan_digits trail (Z.of_N (N.pos p))
                    (String.length (NilEmpty.string_of_uint (Pos.to_uint p)))
                  = Some (Z.pos p, String.length (NilEmpty.string_of_uint (Pos.to_uint p)),
                          trail)).
  { destruct trail as [|a trail]; [reflexivity|].
    simpl in Htrail. apply andb_true_iff in Htrail as [Ha _].
    cbn [scan_digits].
    assert (is_digit a = false /\ Ascii.eqb a "_" = false) as [-> ->]; [|reflexivity].
    destruct a as [[] [] [] [] [] [] [] []]; try discriminate Ha; split; reflexivity. }
  rewrite Hscan. rewrite (skip_spaces_all _ Htrail).
  revert Hlen. rewrite Heq. cbn [String.length]. intros Hlen.
  assert ((int_max_str_digits <? S (String.length rest))%nat = false) as ->.
  { apply Nat.ltb_ge. exact Hlen. }
  destruct negative; reflexivity.
Qed.

(** X12: [read_counter] returns the integer whose decimal text the file
    holds, as ["%d"] writes it, with any white space before it and after it (a
    line feed at the end, as a counter of the kernel has it), for a text of at
    most 4300 characters. *)
Theorem read_counter_decimal (env : environment) (pth lead trail : string) (z : Z) :
  files env pth = Text (lead ++ format_d_int z ++ trail)%string ->
  all_spaces lead = true ->
  all_spaces trail = true ->
  (String.length (format_d_int z) <= 4300)%nat ->
  read_counter env pth = Ok z.
Proof.
  intros Hfile Hlead Htrail Hlen. unfold read_counter. rewrite Hfile.
  unfold py_int. rewrite (skip_spaces_blank _ _ Hlead).
  unfold format_d_int in *.
  destruct z as [|p|p]; cbn [Z.to_int NilZero.string_of_int] in *.
  - (* zero *)
    change (NilZero.string_of_uint Decimal.zero) with "0".
    cbn [append skip_spaces]. change (is_py_space "0") with false. cbv iota.
    destruct trail as [|a trail]; [reflexivity|].
    simpl in Htrail. apply andb_true_iff in Htrail as [Ha Htrail].
    cbn [scan_digits]. change (is_digit "0") with true. cbv iota.
    cbn [scan_digits].
    assert (is_digit a = false /\ Ascii.eqb a "_" = false) as [-> ->].
    { destruct a as [[] [] [] [] [] [] [] []]; try discriminate Ha; split; reflexivity. }
    cbn [skip_spaces]. rewrite Ha, (skip_spaces_all _ Htrail). reflexivity.
  - (* positive *)
    assert (Hnz : NilZero.string_of_uint (Pos.to_uint p)
                  = NilEmpty.string_of_uint (Pos.to_uint p)).
    { pose proof (DecimalPos.Unsigned.to_uint_nonnil p).
      destruct (Pos.to_uint p); [contradiction|reflexivity..]. }
    rewrite Hnz in *.
    destruct (string_of_uint_head (Pos.to_uint p) (DecimalPos.Unsigned.to_uint_nonnil p))
      as (c & rest & Heq & Hc).
    pose proof (py_int_digits false p trail Htrail Hlen) as Hdigits.
    rewrite Heq in *. cbn [append] in *.
    destruct (is_digit_not_sign c (rest ++ trail) Hc) as [Hsign Hsp].
    cbn [skip_spaces]. rewrite Hsp, Hsign. exact Hdigits.
  - (* negative *)
    assert (Hnz : NilZero.string_of_uint (Pos.to_uint p)
                  = NilEmpty.string_of_uint (Pos.to_uint p)).
    { pose proof (DecimalPos.Unsigned.to_uint_nonnil p).
      destruct (Pos.to_uint p); [contradiction|reflexivity..]. }
    rewrite Hnz in *.
    cbn [append skip_spaces]. change (is_py_space "-") with false. cbv iota.
    apply (py_int_digits true p trail Htrail).
    cbn [String.length] in Hlen. lia.
Qed.

Lemma read_counter_decimal_witness :
  read_counter example_env "/sys/edac/mc0/ce_count" = Ok 15.
Proof.
  apply (read_counter_decimal example_env "/sys/edac/mc0/ce_count" "" newline 15).
  - reflexivity.
  - reflexivity.
  - reflexivity.
  - apply Nat.leb_le. reflexivity.
Defined.

(** ** The sampler: the texts that read as integers *)

(** The characters that [py_int] skips and scans are the white space and
    the digits of the lists. *)
Lemma is_py_space_chars (c : ascii) :
  is_py_space c = true <-> In c int_white_space.
Proof.
  assert (H : is_py_space c = existsb (Ascii.eqb c) int_white_space).
  { destruct c as [[] [] [] [] [] [] [] []]; reflexivity. }
  rewrite H, existsb_exists. split.
  - intros (x & Hin & Heq). apply Ascii.eqb_eq in Heq. subst x. exact Hin.
  - intros Hin. exists c. split; [exact Hin|apply Ascii.eqb_refl].
Qed.

Lemma is_digit_chars (c : ascii) :
  is_digit c = true <-> In c decimal_digit_chars.
Proof.
  assert (H : is_digit c = existsb (Ascii.eqb c) decimal_digit_chars).
  { destruct c as [[] [] [] [] [] [] [] []]; reflexivity. }
  rewrite H, existsb_exists. split.
  - intros (x & Hin & Heq). apply Ascii.eqb_eq in Heq. subst x. exact Hin.
  - intros Hin. exists c. split; [exact Hin|apply Ascii.eqb_refl].
Qed.

Lemma all_spaces_text (s : string) :
  all_spaces s = true <-> text_of int_white_space s.
Proof.
  induction s as [|c s IH]; cbn [all_spaces text_of]; [tauto|].
  rewrite andb_true_iff, is_py_space_chars, IH. tauto.
Qed.

(** A digit before a number: the value of the digit, shifted by the digits
    of the number. *)
Lemma uint_of_char_value (c : ascii) (u u' : Decimal.uint) :
  uint_of_char c (Some u) = Some u' ->
  is_digit c = true
  /\ Z.of_uint u'
     = digit_value c * 10 ^ Z.of_N (Unsigned.usize u) + Z.of_uint u.
Proof.
  destruct c as [[] [] [] [] [] [] [] []]; cbn [uint_of_char];
    try discriminate; intros [= <-]; (split; [reflexivity|]);
    unfold Z.of_uint; rewrite !Unsigned.of_uint_alt;
    match goal with
    | |- context [Decimal.rev (?D u)] =>
        change (Decimal.rev (D u)) with (Decimal.revapp u (D Decimal.Nil));
        rewrite (Unsigned.of_lu_revapp u (D Decimal.Nil))
    end;
    rewrite N2Z.inj_add, N2Z.inj_mul, N2Z.inj_pow;
    match goal with
    | |- context [digit_value ?c] =>
        let v := eval vm_compute in (digit_value c) in
        change (digit_value c) with v
    end;
    match goal with
    | |- context [Unsigned.of_lu (?D Decimal.Nil)] =>
        let v := eval vm_compute in (Unsigned.of_lu (D Decimal.Nil)) in
        change (Unsigned.of_lu (D Decimal.Nil)) with v
    end;
    cbn [Z.of_N]; ring.
Qed.

Lemma uint_of_char_digit (c : ascii) (u : Decimal.uint) :
  is_digit c = true -> exists u', uint_of_char c (Some u) = Some u'.
Proof.
  destruct c as [[] [] [] [] [] [] [] []]; intros H; try discriminate H;
    eexists; reflexivity.
Qed.

Lemma uint_of_string_length (s : string) (u : Decimal.uint) :
  NilEmpty.uint_of_string s = Some u ->
  Z.of_N (Unsigned.usize u) = Z.of_nat (String.length s).
Proof.
  intros H. apply NilEmpty.sus in H. subst s. symmetry. apply string_of_uint_length.
Qed.

Lemma uint_of_string_cons (c : ascii) (s : string) (u : Decimal.uint) :
  NilEmpty.uint_of_string (String c s) = Some u ->
  exists u0, NilEmpty.uint_of_string s = Some u0
             /\ uint_of_char c (Some u0) = Some u.
Proof.
  cbn [NilEmpty.uint_of_string].
  destruct (NilEmpty.uint_of_string s) as [u0|].
  - intros H. exists u0. split; [reflexivity|exact H].
  - discriminate.
Qed.

Lemma space_not_digit (a : ascii) :
  is_py_space a = true -> is_digit a = false /\ Ascii.eqb a "_" = false.
Proof.
  destruct a as [[] [] [] [] [] [] [] []]; intros H; try discriminate H;
    split; reflexivity.
Qed.

Lemma digit_not_space (c : ascii) : is_digit c = true -> is_py_space c = false.
Proof.
  destruct c as [[] [] [] [] [] [] [] []]; intros H; try discriminate H; reflexivity.
Qed.

(** The scan of a text of digits that white space follows: all of the
    digits, and their value in decimal. *)
Lemma scan_digits_tail (body digits : string) :
  digits_tail body digits ->
  forall (trail : string) (u : Decimal.uint) (acc : Z) (n : nat),
  all_spaces trail = true ->
  NilEmpty.uint_of_string digits = Some u ->
  scan_digits (body ++ trail) acc (S n)
  = Some (acc * 10 ^ Z.of_nat (String.length digits) + Z.of_uint u,
          (S n + String.length digits)%nat, trail).
Proof.
  induction 1 as [|c body digits Hc _ IH|c body digits Hc _ IH];
    intros trail u acc n Htrail Hu; try apply is_digit_chars in Hc.
  - injection Hu as <-. cbn [append String.length].
    rewrite Nat.add_0_r, Z.pow_0_r, Z.mul_1_r, Z.add_0_r.
    destruct trail as [|a trail]; [reflexivity|].
    simpl in Htrail. apply andb_true_iff in Htrail as [Ha _].
    destruct (space_not_digit a Ha) as [Hd Hu].
    cbn [scan_digits]. rewrite Hd, Hu. reflexivity.
  - apply uint_of_string_cons in Hu as (u0 & Hu0 & Hu).
    apply uint_of_char_value in Hu as [_ Hval].
    cbn [append scan_digits]. rewrite Hc.
    rewrite (IH trail u0 _ (S n) Htrail Hu0).
    rewrite Hval, (uint_of_string_length _ _ Hu0).
    cbn [String.length]. rewrite Nat2Z.inj_succ, Z.pow_succ_r by lia.
    f_equal. f_equal. f_equal; [ring|lia].
  - cbn [append scan_digits].
    change (is_digit "_") with false. change (Ascii.eqb "_" "_") with true.
    cbv iota. rewrite Hc.
    specialize (IH trail u acc n Htrail Hu).
    cbn [append scan_digits] in IH. rewrite Hc in IH. exact IH.
Qed.

(** What a scan that has begun has read: digits, each with one underscore
    before it or none, up to a character that is not a digit. *)
Lemma scan_digits_sound (s : string) :
  forall (acc : Z) (n : nat) (v : Z) (n' : nat) (rest : string),
  scan_digits s acc (S n) = Some (v, n', rest) ->
  exists (body digits : string) (u : Decimal.uint),
    s = (body ++ rest)%string
    /\ digits_tail body digits
    /\ NilEmpty.uint_of_string digits = Some u
    /\ n' = (S n + String.length digits)%nat
    /\ v = acc * 10 ^ Z.of_nat (String.length digits) + Z.of_uint u
    /\ (rest = "" \/ exists c r, rest = String c r /\ is_digit c = false).
Proof.
  induction s as [|c s IH]; intros acc n v n' rest H.
  - simpl in H. injection H as <- <- <-.
    exists "", "", Decimal.Nil. cbn [append String.length].
    rewrite Nat.add_0_r, Z.pow_0_r, Z.mul_1_r, Z.add_0_r.
    repeat split; [constructor|left; reflexivity].
  - cbn [scan_digits] in H. destruct (is_digit c) eqn:Hc.
    + apply IH in H as (body & digits & u0 & -> & Htail & Hu0 & -> & -> & Hstop).
      destruct (uint_of_char_digit c u0 Hc) as (u & Hu).
      exists (String c body), (String c digits), u.
      split; [reflexivity|].
      split; [constructor; [apply is_digit_chars; exact Hc|exact Htail]|].
      split; [cbn [NilEmpty.uint_of_string]; rewrite Hu0; exact Hu|].
      apply uint_of_char_value in Hu as [_ Hval].
      rewrite Hval, (uint_of_string_length _ _ Hu0).
      cbn [String.length]. rewrite Nat2Z.inj_succ, Z.pow_succ_r by lia.
      split; [lia|]. split; [ring|exact Hstop].
    + destruct (Ascii.eqb c "_") eqn:Hu.
      * apply Ascii.eqb_eq in Hu. subst c.
        destruct s as [|c' s']; [discriminate|].
        destruct (is_digit c') eqn:Hc'; [|discriminate].
        apply IH in H as (body & digits & u & Heq & Htail & Hu & -> & -> & Hstop).
        destruct body as [|c1 body1].
        { exfalso. cbn [append] in Heq. subst rest.
          destruct Hstop as [Hs|(c2 & r & Hs & Hd)]; [discriminate Hs|].
          injection Hs as <- _. congruence. }
        cbn [append] in Heq. injection Heq as <- ->.
        exists (String "_" (String c' body1)), digits, u.
        split; [reflexivity|].
        split; [constructor; [apply is_digit_chars; exact Hc'|exact Htail]|].
        repeat split; assumption.
      * injection H as <- <- <-.
        exists "", "", Decimal.Nil. cbn [append String.length].
        rewrite Nat.add_0_r, Z.pow_0_r, Z.mul_1_r, Z.add_0_r.
        repeat split; [constructor|right; exists c, s; split; [reflexivity|exact Hc]].
Qed.

Lemma skip_spaces_split (s : string) :
  exists lead, s = (lead ++ skip_spaces s)%string /\ all_spaces lead = true.
Proof.
  induction s as [|c s (lead & Heq & Hlead)].
  - exists "". split; reflexivity.
  - cbn [skip_spaces]. destruct (is_py_space c) eqn:Hc.
    + exists (String c lead). cbn [append all_spaces].
      rewrite <- Heq, Hc, Hlead. split; reflexivity.
    + exists "". split; reflexivity.
Qed.

Lemma skip_spaces_empty (s : string) : skip_spaces s = "" -> all_spaces s = true.
Proof.
  induction s as [|c s IH]; [reflexivity|].
  cbn [skip_spaces all_spaces]. destruct (is_py_space c); [exact IH|discriminate].
Qed.

(** The sign that [int] takes off the text. *)
Lemma sign_cases (s1 : string) :
  let split := match s1 with
               | String "-" rest => (true, rest)
               | String "+" rest => (false, rest)
               | _ => (false, s1)
               end in
  (exists rest, s1 = String "-" rest /\ split = (true, rest))
  \/ (exists rest, s1 = String "+" rest /\ split = (false, rest))
  \/ split = (false, s1).
Proof.
  destruct s1 as [|c rest]; [right; right; reflexivity|].
  destruct c as [[] [] [] [] [] [] [] []];
    first [ right; right; reflexivity
          | left; exists rest; split; reflexivity
          | right; left; exists rest; split; reflexivity ].
Qed.

(** A scan from the start that reads a digit or more begins with a digit. *)
Lemma scan_digits_start (s : string) (v : Z) (n : nat) (rest : string) :
  scan_digits s 0 0 = Some (v, S n, rest) ->
  exists c r, s = String c r /\ is_digit c = true
              /\ scan_digits r (digit_value c) 1 = Some (v, S n, rest).
Proof.
  destruct s as [|c r]; [discriminate|].
  cbn [scan_digits]. destruct (is_digit c) eqn:Hc.
  - intros H. exists c, r. split; [reflexivity|]. split; [exact Hc|].
    rewrite Z.mul_0_r, Z.add_0_l in H. exact H.
  - destruct (Ascii.eqb c "_"); discriminate.
Qed.

Lemma py_int_sound (text : string) (z : Z) :
  py_int text = Ok z -> valid_integer text z.
Proof.
  unfold py_int. intros H.
  destruct (skip_spaces_split text) as (lead & Htext & Hlead).
  set (s1 := skip_spaces text) in *.
  assert (Hgen : forall negative s2 sgn,
            s1 = (sgn ++ s2)%string ->
            (negative = true /\ sgn = "-"
             \/ negative = false /\ (sgn = "" \/ sgn = "+")) ->
            match scan_digits s2 0 0 with
            | None => Raise ValueError
            | Some (v, n, s3) =>
                match n, skip_spaces s3 with
                | O, _ => Raise ValueError
                | S _, EmptyString =>
                    if (int_max_str_digits <? n)%nat then Raise ValueError
                    else Ok (if negative then - v else v)
                | S _, String _ _ => Raise ValueError
                end
            end = Ok z ->
            valid_integer text z).
  { clear H. intros negative s2 sgn Hs1 Hsgn H.
    destruct (scan_digits s2 0 0) as [[[v n] s3]|] eqn:Hscan; [|discriminate].
    destruct n as [|n]; [discriminate|].
    destruct (skip_spaces s3) eqn:Hs3; [|discriminate].
    destruct (int_max_str_digits <? S n)%nat eqn:Hlim; [discriminate|].
    apply Nat.ltb_ge in Hlim. injection H as <-.
    apply scan_digits_start in Hscan as (c & r & -> & Hc & Hscan).
    apply scan_digits_sound in Hscan
      as (body & digits & u0 & -> & Htail & Hu0 & Hn & -> & _).
    destruct (uint_of_char_digit c u0 Hc) as (u & Hu).
    exists lead, sgn, (String c body), (String c digits), s3, u.
    split; [rewrite Htext, Hs1; reflexivity|].
    split; [apply all_spaces_text; exact Hlead|].
    split; [apply all_spaces_text, skip_spaces_empty; exact Hs3|].
    split; [constructor; [apply is_digit_chars; exact Hc|exact Htail]|].
    split; [cbn [String.length]; lia|].
    split; [cbn [NilEmpty.uint_of_string]; rewrite Hu0; exact Hu|].
    apply uint_of_char_value in Hu as [_ Hval].
    rewrite Hval, (uint_of_string_length _ _ Hu0).
    destruct Hsgn as [[-> ->]|[-> Hs]].
    - right. split; [reflexivity|]. ring.
    - left. split; [exact Hs|]. ring. }
  destruct (sign_cases s1) as [(rest & Hs & Hm)|[(rest & Hs & Hm)|Hm]];
    cbv zeta in Hm; rewrite Hm in H.
  - apply (Hgen true rest "-"); [exact Hs|left; split; reflexivity|exact H].
  - apply (Hgen false rest "+"); [exact Hs|right; split; [|right]; reflexivity|exact H].
  - apply (Hgen false s1 ""); [reflexivity|right; split; [|left]; reflexivity|exact H].
Qed.

Lemma py_int_complete (text : string) (z : Z) :
  valid_integer text z -> py_int text = Ok z.
Proof.
  intros (lead & sgn & body & digits & trail & u & -> & Hlead & Htrail & Hbody
          & Hlen & Hu & Hsgn).
  destruct Hbody as [c body digits Hc Htail].
  apply is_digit_chars in Hc. apply all_spaces_text in Hlead, Htrail.
  apply uint_of_string_cons in Hu as (u0 & Hu0 & Hu).
  apply uint_of_char_value in Hu as [_ Hval].
  assert (Hscan : scan_digits (String c body ++ trail) 0 0
                  = Some (Z.of_uint u, S (String.length digits), trail)).
  { cbn [append scan_digits]. rewrite Hc.
    rewrite (scan_digits_tail _ _ Htail trail u0 _ 0%nat Htrail Hu0).
    rewrite Hval, (uint_of_string_length _ _ Hu0). reflexivity. }
  assert (Hlim : (int_max_str_digits <? S (String.length digits))%nat = false).
  { apply Nat.ltb_ge. exact Hlen. }
  unfold py_int. rewrite (skip_spaces_blank _ _ Hlead).
  destruct Hsgn as [[[->| ->] ->]|[-> ->]].
  - destruct (is_digit_not_sign c (body ++ trail) Hc) as [Hsign Hsp].
    cbn [append skip_spaces]. rewrite Hsp, Hsign.
    cbn [append] in Hscan. rewrite Hscan, (skip_spaces_all _ Htrail), Hlim.
    reflexivity.
  - cbn [append skip_spaces]. change (is_py_space "+") with false. cbv iota.
    cbn [append] in Hscan. rewrite Hscan, (skip_spaces_all _ Htrail), Hlim.
    reflexivity.
  - cbn [append skip_spaces]. change (is_py_space "-") with false. cbv iota.
    cbn [append] in Hscan. rewrite Hscan, (skip_spaces_all _ Htrail), Hlim.
    reflexivity.
Qed.

(** C8: [read_counter] returns an integer exactly when the file is there, is
    text, and its whole text denotes that integer: digits, with a sign or
    none before them, single underscores between them or none, white space
    around or none, and no more of them than the language reads.  A file that
    cannot be opened gives an OSError and one that is not text a
    UnicodeDecodeError (the read errors); a text that denotes no integer
    gives a ValueError (the parse error), and nothing else does; each comes
    out of [read_counter] as it was raised. *)
Theorem read_counter_result (env : environment) (path : string) :
  match files env path with
  | Missing => read_counter env path = Raise OSError
  | Undecodable => read_counter env path = Raise UnicodeDecodeError
  | Text content =>
      (forall z, read_counter env path = Ok z <-> valid_integer content z)
      /\ (read_counter env path = Raise ValueError
          <-> ~ exists z, valid_integer content z)
  end.
Proof.
  unfold read_counter. destruct (files env path) as [| |content]; try reflexivity.
  split.
  - intros z. split; [apply py_int_sound|apply py_int_complete].
  - split.
    + intros H (z & Hz). apply py_int_complete in Hz. congruence.
    + intros Hno. destruct (py_int content) as [z|e] eqn:E.
      * exfalso. apply Hno. exists z. apply py_int_sound. exact E.
      * apply py_int_raises_value_error in E. subst e. reflexivity.
Qed.

(** Bank 0 reads 15: its file holds the digits 1 and 5 and a line feed. *)
Lemma read_counter_result_witness :
  read_counter example_env (path bank0) = Ok 15
  /\ valid_integer ("15" ++ newline) 15.
Proof.
  split; [reflexivity|].
  pose proof (read_counter_result example_env (path bank0)) as H.
  change (files example_env (path bank0)) with (Text ("15" ++ newline)) in H.
  destruct H as [H _]. apply H. reflexivity.
Defined.

(** ** The text of the credentials file *)

Lemma all_printable_app (a b : string) :
  all_printable (a ++ b)%string = all_printable a && all_printable b.
Proof.
  induction a as [|c a IH]; simpl; [reflexivity|].
  rewrite IH. apply andb_assoc.
Qed.

Lemma json_escape_char_printable (c : ascii) :
  all_printable (json_escape_char c) = true.
Proof. destruct c as [[] [] [] [] [] [] [] []]; vm_compute; reflexivity. Qed.

Lemma json_escape_printable (s : string) : all_printable (json_escape s) = true.
Proof.
  induction s as [|c s IH]; simpl; [reflexivity|].
  rewrite all_printable_app, json_escape_char_printable, IH. reflexivity.
Qed.

Lemma all_digits_printable (s : string) :
  all_digits s = true -> all_printable s = true.
Proof.
  induction s as [|c s IH]; simpl; intros H; [reflexivity|].
  apply andb_true_iff in H as [Hc H]. rewrite (IH H), andb_true_r.
  destruct c as [[] [] [] [] [] [] [] []]; try discriminate Hc; reflexivity.
Qed.

Lemma format_d_int_printable (z : Z) : all_printable (format_d_int z) = true.
Proof.
  destruct (format_d_int_shape z) as (a & ds & -> & Ha & Hds).
  simpl. rewrite (all_digits_printable _ Hds), andb_true_r.
  destruct a as [[] [] [] [] [] [] [] []]; try discriminate Ha; reflexivity.
Qed.

Lemma json_dump_value_printable (v : jvalue) :
  all_printable (json_dump_value v) = true.
Proof.
  destruct v as [s|z]; simpl.
  - rewrite all_printable_app, json_escape_printable. reflexivity.
  - apply format_d_int_printable.
Qed.

Lemma json_dump_items_printable (d : list (string * jvalue)) :
  all_printable (json_dump_items d) = true.
Proof.
  induction d as [|[k v] d IH]; [reflexivity|].
  destruct d as [|kv d].
  - cbn [json_dump_items].
    rewrite !all_printable_app, !json_dump_value_printable. reflexivity.
  - change (json_dump_items ((k, v) :: kv :: d))
      with (json_dump_value (JString k) ++ ": " ++ json_dump_value v ++ ", "
            ++ json_dump_items (kv :: d))%string.
    rewrite !all_printable_app, !json_dump_value_printable, IH. reflexivity.
Qed.

(** X13: whatever the arguments and the password, the text that
    [write_credentials_file] writes is printable ASCII on one line: every
    character of it is between the space and the tilde. *)
Theorem credentials_file_printable (args : credentials_args) (password : string) :
  exists text,
    write_credentials_file args password = Text text
    /\ all_printable text = true
    /\ contains_char "010"%char text = false.
Proof.
  unfold write_credentials_file. eexists. split; [reflexivity|].
  assert (H : forall s, all_printable s = true -> contains_char "010"%char s = false).
  { induction s as [|c s IH]; simpl; intros H; [reflexivity|].
    apply andb_true_iff in H as [Hc H]. rewrite (IH H), orb_false_r.
    destruct c as [[] [] [] [] [] [] [] []]; try discriminate Hc; reflexivity. }
  assert (Hp : forall d, all_printable (json_dump d) = true).
  { intros d. unfold json_dump.
    rewrite !all_printable_app, json_dump_items_printable. reflexivity. }
  split; [apply Hp|apply H, Hp].
Qed.

Lemma json_escape_plain (s : string) : json_plain s = true -> json_escape s = s.
Proof.
  induction s as [|c s IH]; simpl; intros H; [reflexivity|].
  apply andb_true_iff in H as [Hc H]. rewrite (IH H).
  destruct c as [[] [] [] [] [] [] [] []]; try discriminate Hc; reflexivity.
Qed.

(** X14: when the server, the sender, the recipient and the password are
    printable ASCII without double quotes and backslashes, the credentials
    file is the object of the five keys in the order of the source, each
    string between double quotes as it was given, the password among them,
    and the port in decimal. *)
Theorem credentials_file_text (args : credentials_args) (password : string) :
  json_plain (smtp_server args) = true ->
  json_plain (sender args) = true ->
  json_plain (recipient args) = true ->
  json_plain password = true ->
  write_credentials_file args password
  = Text ("{" ++ quoted "smtp_server" ++ ": " ++ quoted (smtp_server args) ++ ", "
          ++ quoted "smtp_port" ++ ": " ++ format_d_int (smtp_port args) ++ ", "
          ++ quoted "sender" ++ ": " ++ quoted (sender args) ++ ", "
          ++ quoted "recipient" ++ ": " ++ quoted (recipient args) ++ ", "
          ++ quoted "password" ++ ": " ++ quoted password ++ "}")%string.
Proof.
  intros H1 H2 H3 H4.
  unfold write_credentials_file, json_dump, json_dump_items, json_dump_value, quoted.
  rewrite !json_escape_plain by first [assumption | reflexivity].
  repeat (progress (rewrite ?string_app_assoc; cbn [append])). reflexivity.
Qed.

Lemma credentials_file_text_witness :
  example_credentials
  = Text ("{" ++ quoted "smtp_server" ++ ": " ++ quoted "smtp.example.org" ++ ", "
          ++ quoted "smtp_port" ++ ": " ++ "587" ++ ", "
          ++ quoted "sender" ++ ": " ++ quoted "root@example.org" ++ ", "
          ++ quoted "recipient" ++ ": " ++ quoted "ops@example.org" ++ ", "
          ++ quoted "password" ++ ": " ++ quoted "s3cret" ++ "}")%string.
Proof.
  apply (credentials_file_text
           (mk_credentials_args "smtp.example.org" 587 "root@example.org" "ops@example.org")
           "s3cret"); reflexivity.
Defined.

(** ** The session with the mail server *)

(** X15: with credentials that load, what [send_mail] asks for, however it
    ends, is the credentials file and then the first requests of one
    session, in its order: connect, start TLS, log in, send the message,
    quit.  Every request but the last made was accepted, so the password
    goes out only after the server has accepted to start TLS; [send_mail]
    returns only when all five were made and accepted; the server and the
    port, and the user and the password of the login, are those of the
    credentials; and a message that is sent is the one of the report. *)
Theorem send_mail_session (env : environment) (report : list report_entry)
    (p p' : process) (r : result unit) (d : json) :
  credentials_loaded env d ->
  send_mail env report p = (r, p') ->
  exists host port user password msg k,
    mail_log p'
    = mail_log p ++ OpenCredentials :: firstn k (session host port user password msg)
    /\ Forall (fun q => smtp_accepts env q = true)
         (firstn (Nat.pred k) (session host port user password msg))
    /\ (r = Ok tt -> k = 5%nat /\ smtp_accepts env Quit = true)
    /\ (k <> 0%nat ->
        subscript d "smtp_server" = Ok host /\ subscript d "smtp_port" = Ok port)
    /\ ((3 <= k)%nat ->
        subscript d "sender" = Ok user /\ subscript d "password" = Ok password)
    /\ ((4 <= k)%nat -> message_ready env d report msg).
Proof.
  intros (text & Hfile & Hload & _).
  unfold send_mail, mbind, lift, smtp_do, load_credentials. rewrite Hfile, Hload.
  intros H. cbv beta iota zeta in H.
  repeat split_step; injection H as <- <-; cbn [mail_log conn];
    rewrite <- ?app_assoc; cbn [app]; unfold session;
    first
      [ exists (JInt 0), (JInt 0), (JInt 0), (JInt 0),
          (mk_message (JInt 0) (JInt 0) "" []), 0%nat; cbn [firstn Nat.pred];
        (split; [reflexivity|]); (split; [constructor|]);
        (split; [intros Hr; discriminate Hr|]);
        (split; [intros Hk; exfalso; apply Hk; reflexivity|]);
        split; intros Hk; exfalso; lia
      | do 5 eexists;
        (exists 1%nat + exists 2%nat + exists 3%nat + exists 4%nat + exists 5%nat);
        cbn [firstn Nat.pred];
        (split; [reflexivity|]);
        (split; [repeat constructor; assumption|]);
        (split; [first [ intros Hr; discriminate Hr
                       | intros _; split; [reflexivity|first [reflexivity|assumption]] ]|]);
        (split; [intros _; split; reflexivity|]);
        (split; [intros Hk; first [exfalso; lia | split; reflexivity]|]);
        intros Hk;
        first [ exfalso; lia
              | do 6 eexists; repeat split; first [eassumption | reflexivity] ] ].
  Unshelve. all: first [exact (JInt 0) | exact (mk_message (JInt 0) (JInt 0) "" [])].
Qed.

Lemma example_credentials_loaded :
  credentials_loaded example_env
    (JObject [ ("smtp_server", JString "smtp.example.org"); ("smtp_port", JInt 587);
               ("sender", JString "root@example.org");
               ("recipient", JString "ops@example.org");
               ("password", JString "s3cret") ]).
Proof.
  eexists. split; [reflexivity|]. split; [vm_compute; reflexivity|].
  intros k z H. cbn [In] in H.
  repeat (destruct H as [H|H]; [try discriminate H; injection H as _ <-|]);
    [|destruct H].
  unfold int_in_limit. apply decimal_digits_bound; [unfold int_max_str_digits; lia|].
  apply Z.lt_le_trans with (m := 10 ^ 3); [reflexivity|].
  apply Z.pow_le_mono_r; [lia|]. unfold int_max_str_digits. lia.
Defined.

Lemma send_mail_session_witness :
  exists p' host port user password msg k,
    send_mail example_env [("EDAC bank 0", PyInt 5)] example_process = (Ok tt, p')
    /\ mail_log p'
       = mail_log example_process
         ++ OpenCredentials :: firstn k (session host port user password msg)
    /\ k = 5%nat.
Proof.
  destruct (send_mail example_env [("EDAC bank 0", PyInt 5)] example_process)
    as [r p'] eqn:Hsend.
  assert (Hr : r = Ok tt).
  { vm_compute in Hsend. injection Hsend as <- _. reflexivity. }
  destruct (send_mail_session example_env _ example_process p' r _
              example_credentials_loaded Hsend)
    as (host & port & user & password & msg & k & Hlog & _ & Hk & _).
  subst r. exists p', host, port, user, password, msg, k.
  split; [reflexivity|]. split; [exact Hlog|]. apply Hk. reflexivity.
Defined.

(** X16: with credentials that load as an object which lacks the server or
    the port, [send_mail] raises KeyError for the first of the two that is
    missing: for the server when that is missing, for the port when the
    server is there; it does so after it has read the file and before it
    asks anything of a mail server. *)
Theorem delivery_needs_server_address (env : environment)
    (report : list report_entry) (p : process)
    (members : list (string * jvalue)) :
  credentials_loaded env (JObject members) ->
  (dict_get "smtp_server" members = None ->
   send_mail env report p
   = (Raise (KeyError "smtp_server"),
      mk_process (conn p) (mail_log p ++ [OpenCredentials])))
  /\ (dict_get "smtp_server" members <> None ->
      dict_get "smtp_port" members = None ->
      send_mail env report p
      = (Raise (KeyError "smtp_port"),
         mk_process (conn p) (mail_log p ++ [OpenCredentials]))).
Proof.
  intros (text & Hfile & Hload & _).
  unfold send_mail, mbind, load_credentials, lift. rewrite Hfile, Hload.
  unfold subscript. split.
  - intros ->. reflexivity.
  - intros Hs ->. destruct (dict_get "smtp_server" members); [reflexivity|].
    contradiction.
Qed.

Lemma delivery_needs_server_address_witness :
  send_mail empty_credentials_env [("EDAC bank 0", PyInt 5)] example_process
  = (Raise (KeyError "smtp_server"),
     mk_process (conn example_process) [OpenCredentials]).
Proof.
  refine (proj1 (delivery_needs_server_address empty_credentials_env
                   [("EDAC bank 0", PyInt 5)] example_process [] _) eq_refl).
  exists "{}". split; [reflexivity|]. split; [reflexivity|]. intros k z [].
Defined.

(** ** From the registration to the first report *)

(** X17: the three commands, one after the other.  With the credentials
    that [write_credentials_file] wrote and a mail server that accepts
    everything, registering a counter, of a plain path and a plain name, in a
    new store and then running once, while the file of the counter reads a
    value above zero and within 64 bits, delivers one message, from the sender
    to the recipient through the server of the credentials, whose body is the
    line of the name and the value; the store then holds the counter and one
    sample with that value; and a second run delivers nothing and leaves the
    store as it is. *)
Theorem first_run_reports_counter (args : credentials_args) (password : string)
    (env : environment) (pth nm text : string) (v : Z) :
  plain_text pth -> plain_text nm ->
  files env pth = Text text ->
  py_int text = Ok v ->
  0 < v ->
  fits_int64 v = true ->
  credentials_file env = write_credentials_file args password ->
  (forall q, smtp_accepts env q = true) ->
  exists f1 f2,
    run_process (new_counter env pth nm) None = (Ok tt, f1, [])
    /\ run_process (main env) (Some f1)
       = (Ok tt, f2,
          OpenCredentials
          :: session (JString (smtp_server args)) (JInt (smtp_port args))
               (JString (sender args)) (JString password)
               (mk_message (JString (sender args)) (JString (recipient args))
                  "Linux healthcheck report" [(nm ++ ": " ++ format_d_int v)%string]))
    /\ f2 = mk_db_file (Z.lor S_IRUSR S_IWUSR)
              (mk_database schema_objects [mk_counter 1 pth nm]
                 [mk_count 1 1 (SqlInt v) (clock env 0)])
    /\ run_process (main env) (Some f2) = (Ok tt, f2, []).
Proof.
  intros [Hq1 Hz1] [Hq2 Hz2] Hfile Hint Hpos Hfits Hcred Hacc.
  assert (Hread : read_counter env pth = Ok v).
  { unfold read_counter. rewrite Hfile. exact Hint. }
  destruct (new_counter_plain env (mk_process (get_connection None) []) pth nm
              Hq1 Hq2 Hz1 Hz2) as (p' & Hnc & _ & Hmode & Hlog & Hcat & Hcc & Hcs).
  { exists 0%nat. reflexivity. }
  { reflexivity. }
  simpl in Hmode, Hlog, Hcc, Hcs.
  assert (Hdisk : disk (conn p') = mk_database schema_objects [mk_counter 1 pth nm] []).
  { destruct (disk (conn p')) as [cat cs ccs]. simpl in *. congruence. }
  exists (mk_db_file (Z.lor S_IRUSR S_IWUSR)
            (mk_database schema_objects [mk_counter 1 pth nm] [])).
  eexists.
  split.
  { unfold run_process. rewrite Hnc, Hmode, Hlog, Hdisk. reflexivity. }
  split; [|split; [reflexivity|]].
  - unfold run_process, main, mbind. rewrite get_counters_eq.
    cbn [get_connection conn work pending disk mode content].
    change (has_table "counters"
              (mk_database schema_objects [mk_counter 1 pth nm] [])) with true.
    cbv iota. cbn [counters main_loop mbind].
    unfold mbind.
    rewrite main_step_eq with (v := v); [|reflexivity|exact Hread].
    cbn [conn work pending disk counter_id name].
    change (baseline (mk_database schema_objects [mk_counter 1 pth nm] []) 1)
      with (PyInt 0).
    cbn [py_gt py_sub]. apply Z.ltb_lt in Hpos. rewrite Hpos. cbn [ret app].
    rewrite Z.sub_0_r.
    change (0 <? List.length [(nm, PyInt v)])%nat with true. cbv iota.
    unfold send_mail, mbind, load_credentials, lift, smtp_do.
    rewrite Hcred. unfold write_credentials_file. rewrite json_load_dump.
    cbn [format_entries]. unfold format_entry. cbn [fst snd].
    rewrite (format_d_in_limit _ (fits_int64_in_limit _ Hfits)).
    repeat (progress
              (cbn [subscript dict_get String.eqb Ascii.eqb Bool.eqb
                    bind fst snd join_lines conn mail_log app];
               rewrite ?Hacc)).
    unfold conn_commit, commit, new_sample, work.
    cbn [conn mail_log pending file_mode disk counter_counts map List.length next_rowid
         sqlite_master counters app].
    rewrite (fits_int64_literal _ Hfits). reflexivity.
  - apply run_quiet.
    + reflexivity.
    + intros row [<-|[]]. exists v. split; [exact Hread|].
      change (baseline _ (counter_id (mk_counter 1 pth nm))) with (PyInt v).
      apply Z.ltb_irrefl.
Qed.

Lemma first_run_reports_counter_witness :
  exists f1 f2,
    run_process (new_counter example_env (path bank0) (name bank0)) None = (Ok tt, f1, [])
    /\ f2 = first_file_after
    /\ run_process (main example_env) (Some f2) = (Ok tt, f2, []).
Proof.
  destruct (first_run_reports_counter
              (mk_credentials_args "smtp.example.org" 587 "root@example.org" "ops@example.org")
              "s3cret" example_env (path bank0) (name bank0) ("15" ++ newline) 15)
    as (f1 & f2 & H1 & _ & H2 & H3);
    try reflexivity.
  - split; reflexivity.
  - split; reflexivity.
  - exists f1, f2. split; [exact H1|]. split; [exact H2|exact H3].
Defined.
